(** * sap.f.DynamicPage: the header snap / expand / pin controller

    A shallow embedding of [src/sap.f/src/sap/f/DynamicPage.js].  The
    control object is a record [State]; every method of the prototype is a
    computation in a small state-and-exception monad [M] that keeps the
    state reached when a [TypeError] is raised.  What the control reads
    from the browser (element heights, scroll heights) is a layout oracle
    [layout : State -> Geometry], and the events the framework and the
    browser deliver are the constructors of [Event].

    Outside the model: the registration of resize handlers, press
    handlers and rendering delegates (an event reaches the control when
    [enabled] says so), the invalidation that follows [setProperty], the
    ScrollEnablement helper, and what the browser does to a scroll
    position that is written (the value is stored as written, and the
    scroll event it causes is an [Event] of its own). *)

From Stdlib Require Import Bool ZArith QArith Qround List String Lia.
Import ListNotations.
Local Open Scope string_scope.
Local Open Scope Z_scope.

(** ** The control and the objects it talks to *)

(** The two regions that can hold the header's DOM node: the title area
    ([this.$titleArea], element [-header]) and the scrollable content
    wrapper ([this.$wrapper], element [-contentWrapper]). *)
Inductive Area : Type := TitleArea | ContentArea.

(** DynamicPage.MEDIA *)
Inductive Media : Type := INVISIBLE | PHONE | TABLET | DESKTOP.

(** jQuery.sap.log: the level, the message, and for the messages that end
    in a measured height, that height. *)
Inductive LogEntry : Type :=
| LogDebug (msg : string)
| LogDebugN (msg : string) (n : Z)
| LogWarning (msg : string).

(** The callbacks handed to jQuery.sap.delayedCall. *)
Inductive Task : Type :=
| T_overrideHeaderAlwaysExpanded
| T_updateScrollBar
| T_updateScrollBarOffset
| T_updateFitContainer
| T_footerWrapperToggle    (* first closure of _toggleFooter *)
| T_footerRemoveShow.      (* second closure of _toggleFooter *)

(** Modelled from the spec: sap.f.DynamicPageTitle is not part of the
    sources at hand.  DynamicPage asks it whether it has expanded and
    snapped content and tells it which of the two sub-regions to show
    ("hide expanded-content sub-region, show snapped-content sub-region");
    the record keeps the last value of each command. *)
Record Title : Type := mkTitle {
  expandedContent : bool;  (* exists(getExpandedContent()) *)
  snappedContent : bool;  (* exists(getSnappedContent()) *)
  showExpandContent : bool;  (* last argument of _setShowExpandContent *)
  showSnapContent : bool  (* last argument of _setShowSnapContent *)
}.

Definition set_showExpandContent (v : bool) (t : Title) : Title :=
  mkTitle (expandedContent t) (snappedContent t) v (showSnapContent t).

Definition set_showSnapContent (v : bool) (t : Title) : Title :=
  mkTitle (expandedContent t) (snappedContent t) (showExpandContent t) v.

(** The DOM node of the header: where it is and whether it is hidden. *)
Record HeaderDom : Type := mkHeaderDom {
  hParent : Area;  (* the region holding the header's DOM node *)
  hHidden : bool  (* class sapFDynamicPageHeaderHidden *)
}.

Definition set_hParent (v : Area) (d : HeaderDom) : HeaderDom :=
  mkHeaderDom v (hHidden d).

Definition set_hHidden (v : bool) (d : HeaderDom) : HeaderDom :=
  mkHeaderDom (hParent d) v.

(** Modelled from the spec: sap.f.DynamicPageHeader is not part of the
    sources at hand.  DynamicPage moves its DOM node, hides it, and
    notifies it about the pin button and the ARIA state ("notifies
    header's pin-button ARIA state", "hide pin affordance"); the record
    keeps the last value of each notification. *)
Record Header : Type := mkHeader {
  hdom : option HeaderDom;  (* oDynamicPageHeader.$(), None while not rendered *)
  showPinBtn : bool;  (* last argument of _setShowPinBtn *)
  pinBtnPressed : bool;  (* last argument of _togglePinButton *)
  ariaExpanded : bool;  (* last argument of _updateARIAState *)
  ariaPinned : bool;  (* last argument of _updateARIAPinButtonState *)
  pinBtnFocused : bool  (* _focusPinButton was called *)
}.

Definition set_hdom (v : option HeaderDom) (h : Header) : Header :=
  mkHeader v (showPinBtn h) (pinBtnPressed h) (ariaExpanded h)
    (ariaPinned h) (pinBtnFocused h).

Definition set_showPinBtn (v : bool) (h : Header) : Header :=
  mkHeader (hdom h) v (pinBtnPressed h) (ariaExpanded h) (ariaPinned h)
    (pinBtnFocused h).

Definition set_pinBtnPressed (v : bool) (h : Header) : Header :=
  mkHeader (hdom h) (showPinBtn h) v (ariaExpanded h) (ariaPinned h)
    (pinBtnFocused h).

Definition set_ariaExpanded (v : bool) (h : Header) : Header :=
  mkHeader (hdom h) (showPinBtn h) (pinBtnPressed h) v (ariaPinned h)
    (pinBtnFocused h).

Definition set_ariaPinned (v : bool) (h : Header) : Header :=
  mkHeader (hdom h) (showPinBtn h) (pinBtnPressed h) (ariaExpanded h) v
    (pinBtnFocused h).

Definition set_pinBtnFocused (v : bool) (h : Header) : Header :=
  mkHeader (hdom h) (showPinBtn h) (pinBtnPressed h) (ariaExpanded h)
    (ariaPinned h) v.

(** The footer (an sap.m.IBar): the two style classes DynamicPage toggles
    and the offset it writes. *)
Record Footer : Type := mkFooter {
  clsShow : bool;  (* style class sapFDynamicPageActualFooterControlShow *)
  clsHide : bool;  (* style class sapFDynamicPageActualFooterControlHide *)
  footerOffset : Z  (* css left/right offset of the footer, in px *)
}.

Definition set_clsShow (v : bool) (f : Footer) : Footer :=
  mkFooter v (clsHide f) (footerOffset f).

Definition set_clsHide (v : bool) (f : Footer) : Footer :=
  mkFooter (clsShow f) v (footerOffset f).

Definition set_footerOffset (v : Z) (f : Footer) : Footer :=
  mkFooter (clsShow f) (clsHide f) v.

(** sap.ui.core.ScrollBar, the "fake" scroll bar used on desktop. *)
Record ScrollBar : Type := mkScrollBar {
  sbScrollPosition : Z;  (* property scrollPosition *)
  sbContentSize : option Z;  (* property contentSize in px, None until set *)
  sbHidden : bool  (* style class sapUiHidden *)
}.

Definition set_sbScrollPosition (v : Z) (b : ScrollBar) : ScrollBar :=
  mkScrollBar v (sbContentSize b) (sbHidden b).

Definition set_sbContentSize (v : option Z) (b : ScrollBar) : ScrollBar :=
  mkScrollBar (sbScrollPosition b) v (sbHidden b).

Definition set_sbHidden (v : bool) (b : ScrollBar) : ScrollBar :=
  mkScrollBar (sbScrollPosition b) (sbContentSize b) v.

(** What [_cacheDomElements] caches.  [$wrapper], [$contentFitContainer]
    and [$titleArea] are assigned together and nowhere else, so
    [exists(this.$wrapper)] and [exists(this.$titleArea)] agree: both are
    [dom s <> None]. *)
Record Dom : Type := mkDom {
  titleSnapped : bool;  (* $titleArea has class sapFDynamicPageTitleSnapped *)
  titlePadding : Z;  (* $titleArea css padding-left/right, in px *)
  wrapperScrollTop : Z;  (* $wrapper.scrollTop() *)
  fitContainer : bool;  (* $contentFitContainer has class sapFDynamicPageContentFitContainer *)
  fitBottom : Z;  (* $contentFitContainer css bottom, in rem *)
  spacer : option bool;  (* element -spacer, if rendered: class sapFDynamicPageContentWrapperSpacer *)
  footerWrapperCached : bool;  (* this.$footerWrapper has been assigned *)
  footerWrapperHidden : bool  (* element -footerWrapper has class sapUiHidden *)
}.

Definition set_titleSnapped (v : bool) (d : Dom) : Dom :=
  mkDom v (titlePadding d) (wrapperScrollTop d) (fitContainer d)
    (fitBottom d) (spacer d) (footerWrapperCached d)
    (footerWrapperHidden d).

Definition set_titlePadding (v : Z) (d : Dom) : Dom :=
  mkDom (titleSnapped d) v (wrapperScrollTop d) (fitContainer d)
    (fitBottom d) (spacer d) (footerWrapperCached d)
    (footerWrapperHidden d).

Definition set_wrapperScrollTop (v : Z) (d : Dom) : Dom :=
  mkDom (titleSnapped d) (titlePadding d) v (fitContainer d) (fitBottom d)
    (spacer d) (footerWrapperCached d) (footerWrapperHidden d).

Definition set_fitContainer (v : bool) (d : Dom) : Dom :=
  mkDom (titleSnapped d) (titlePadding d) (wrapperScrollTop d) v
    (fitBottom d) (spacer d) (footerWrapperCached d)
    (footerWrapperHidden d).

Definition set_fitBottom (v : Z) (d : Dom) : Dom :=
  mkDom (titleSnapped d) (titlePadding d) (wrapperScrollTop d)
    (fitContainer d) v (spacer d) (footerWrapperCached d)
    (footerWrapperHidden d).

Definition set_spacer (v : option bool) (d : Dom) : Dom :=
  mkDom (titleSnapped d) (titlePadding d) (wrapperScrollTop d)
    (fitContainer d) (fitBottom d) v (footerWrapperCached d)
    (footerWrapperHidden d).

Definition set_footerWrapperCached (v : bool) (d : Dom) : Dom :=
  mkDom (titleSnapped d) (titlePadding d) (wrapperScrollTop d)
    (fitContainer d) (fitBottom d) (spacer d) v (footerWrapperHidden d).

Definition set_footerWrapperHidden (v : bool) (d : Dom) : Dom :=
  mkDom (titleSnapped d) (titlePadding d) (wrapperScrollTop d)
    (fitContainer d) (fitBottom d) (spacer d) (footerWrapperCached d) v.


(** The control instance. [allowInnerDiv] and [allowCustomScroll] are
    never initialised by the source and only ever compared with
    [=== true]; [false] stands for [undefined]. *)
Record State : Type := mkState {
  headerAlwaysExpanded : bool;  (* property headerAlwaysExpanded *)
  headerExpanded : bool;  (* property headerExpanded *)
  showFooter : bool;  (* property showFooter *)
  _bPinned : bool;
  _bHeaderInTitleArea : bool;
  _bExpandingWithAClick : bool;
  _headerBiggerThanAllowedHeight : bool;
  allowInnerDiv : bool;  (* this.allowInnerDiv === true *)
  allowCustomScroll : bool;  (* this.allowCustomScroll === true *)
  title : option Title;  (* aggregation title *)
  header : option Header;  (* aggregation header *)
  footer : option Footer;  (* aggregation footer *)
  _scrollBar : option ScrollBar;  (* hidden aggregation _scrollBar *)
  dom : option Dom;  (* the jQuery references cached by _cacheDomElements *)
  clsWithScroll : bool;  (* style class sapFDynamicPageWithScroll *)
  media : option Media;  (* the DynamicPage.MEDIA class enabled on the control *)
  log : list LogEntry;  (* jQuery.sap.log, oldest entry first *)
  pending : list (Z * Task)  (* delayed calls not yet run, oldest first, with their delay *)
}.

Definition set_headerAlwaysExpanded (v : bool) (s : State) : State :=
  mkState v (headerExpanded s) (showFooter s) (_bPinned s)
    (_bHeaderInTitleArea s) (_bExpandingWithAClick s)
    (_headerBiggerThanAllowedHeight s) (allowInnerDiv s)
    (allowCustomScroll s) (title s) (header s) (footer s) (_scrollBar s)
    (dom s) (clsWithScroll s) (media s) (log s) (pending s).

Definition set_headerExpanded (v : bool) (s : State) : State :=
  mkState (headerAlwaysExpanded s) v (showFooter s) (_bPinned s)
    (_bHeaderInTitleArea s) (_bExpandingWithAClick s)
    (_headerBiggerThanAllowedHeight s) (allowInnerDiv s)
    (allowCustomScroll s) (title s) (header s) (footer s) (_scrollBar s)
    (dom s) (clsWithScroll s) (media s) (log s) (pending s).

Definition set_showFooter (v : bool) (s : State) : State :=
  mkState (headerAlwaysExpanded s) (headerExpanded s) v (_bPinned s)
    (_bHeaderInTitleArea s) (_bExpandingWithAClick s)
    (_headerBiggerThanAllowedHeight s) (allowInnerDiv s)
    (allowCustomScroll s) (title s) (header s) (footer s) (_scrollBar s)
    (dom s) (clsWithScroll s) (media s) (log s) (pending s).

Definition set_bPinned (v : bool) (s : State) : State :=
  mkState (headerAlwaysExpanded s) (headerExpanded s) (showFooter s) v
    (_bHeaderInTitleArea s) (_bExpandingWithAClick s)
    (_headerBiggerThanAllowedHeight s) (allowInnerDiv s)
    (allowCustomScroll s) (title s) (header s) (footer s) (_scrollBar s)
    (dom s) (clsWithScroll s) (media s) (log s) (pending s).

Definition set_bHeaderInTitleArea (v : bool) (s : State) : State :=
  mkState (headerAlwaysExpanded s) (headerExpanded s) (showFooter s)
    (_bPinned s) v (_bExpandingWithAClick s)
    (_headerBiggerThanAllowedHeight s) (allowInnerDiv s)
    (allowCustomScroll s) (title s) (header s) (footer s) (_scrollBar s)
    (dom s) (clsWithScroll s) (media s) (log s) (pending s).

Definition set_bExpandingWithAClick (v : bool) (s : State) : State :=
  mkState (headerAlwaysExpanded s) (headerExpanded s) (showFooter s)
    (_bPinned s) (_bHeaderInTitleArea s) v
    (_headerBiggerThanAllowedHeight s) (allowInnerDiv s)
    (allowCustomScroll s) (title s) (header s) (footer s) (_scrollBar s)
    (dom s) (clsWithScroll s) (media s) (log s) (pending s).

Definition set_headerBiggerThanAllowedHeight (v : bool) (s : State) : State :=
  mkState (headerAlwaysExpanded s) (headerExpanded s) (showFooter s)
    (_bPinned s) (_bHeaderInTitleArea s) (_bExpandingWithAClick s) v
    (allowInnerDiv s) (allowCustomScroll s) (title s) (header s) (footer s)
    (_scrollBar s) (dom s) (clsWithScroll s) (media s) (log s) (pending s).

Definition set_allowInnerDiv (v : bool) (s : State) : State :=
  mkState (headerAlwaysExpanded s) (headerExpanded s) (showFooter s)
    (_bPinned s) (_bHeaderInTitleArea s) (_bExpandingWithAClick s)
    (_headerBiggerThanAllowedHeight s) v (allowCustomScroll s) (title s)
    (header s) (footer s) (_scrollBar s) (dom s) (clsWithScroll s) (media s)
    (log s) (pending s).

Definition set_allowCustomScroll (v : bool) (s : State) : State :=
  mkState (headerAlwaysExpanded s) (headerExpanded s) (showFooter s)
    (_bPinned s) (_bHeaderInTitleArea s) (_bExpandingWithAClick s)
    (_headerBiggerThanAllowedHeight s) (allowInnerDiv s) v (title s)
    (header s) (footer s) (_scrollBar s) (dom s) (clsWithScroll s) (media s)
    (log s) (pending s).

Definition set_title (v : option Title) (s : State) : State :=
  mkState (headerAlwaysExpanded s) (headerExpanded s) (showFooter s)
    (_bPinned s) (_bHeaderInTitleArea s) (_bExpandingWithAClick s)
    (_headerBiggerThanAllowedHeight s) (allowInnerDiv s)
    (allowCustomScroll s) v (header s) (footer s) (_scrollBar s) (dom s)
    (clsWithScroll s) (media s) (log s) (pending s).

Definition set_header (v : option Header) (s : State) : State :=
  mkState (headerAlwaysExpanded s) (headerExpanded s) (showFooter s)
    (_bPinned s) (_bHeaderInTitleArea s) (_bExpandingWithAClick s)
    (_headerBiggerThanAllowedHeight s) (allowInnerDiv s)
    (allowCustomScroll s) (title s) v (footer s) (_scrollBar s) (dom s)
    (clsWithScroll s) (media s) (log s) (pending s).

Definition set_footer (v : option Footer) (s : State) : State :=
  mkState (headerAlwaysExpanded s) (headerExpanded s) (showFooter s)
    (_bPinned s) (_bHeaderInTitleArea s) (_bExpandingWithAClick s)
    (_headerBiggerThanAllowedHeight s) (allowInnerDiv s)
    (allowCustomScroll s) (title s) (header s) v (_scrollBar s) (dom s)
    (clsWithScroll s) (media s) (log s) (pending s).

Definition set_scrollBar (v : option ScrollBar) (s : State) : State :=
  mkState (headerAlwaysExpanded s) (headerExpanded s) (showFooter s)
    (_bPinned s) (_bHeaderInTitleArea s) (_bExpandingWithAClick s)
    (_headerBiggerThanAllowedHeight s) (allowInnerDiv s)
    (allowCustomScroll s) (title s) (header s) (footer s) v (dom s)
    (clsWithScroll s) (media s) (log s) (pending s).

Definition set_dom (v : option Dom) (s : State) : State :=
  mkState (headerAlwaysExpanded s) (headerExpanded s) (showFooter s)
    (_bPinned s) (_bHeaderInTitleArea s) (_bExpandingWithAClick s)
    (_headerBiggerThanAllowedHeight s) (allowInnerDiv s)
    (allowCustomScroll s) (title s) (header s) (footer s) (_scrollBar s) v
    (clsWithScroll s) (media s) (log s) (pending s).

Definition set_clsWithScroll (v : bool) (s : State) : State :=
  mkState (headerAlwaysExpanded s) (headerExpanded s) (showFooter s)
    (_bPinned s) (_bHeaderInTitleArea s) (_bExpandingWithAClick s)
    (_headerBiggerThanAllowedHeight s) (allowInnerDiv s)
    (allowCustomScroll s) (title s) (header s) (footer s) (_scrollBar s)
    (dom s) v (media s) (log s) (pending s).

Definition set_media (v : option Media) (s : State) : State :=
  mkState (headerAlwaysExpanded s) (headerExpanded s) (showFooter s)
    (_bPinned s) (_bHeaderInTitleArea s) (_bExpandingWithAClick s)
    (_headerBiggerThanAllowedHeight s) (allowInnerDiv s)
    (allowCustomScroll s) (title s) (header s) (footer s) (_scrollBar s)
    (dom s) (clsWithScroll s) v (log s) (pending s).

Definition set_log (v : list LogEntry) (s : State) : State :=
  mkState (headerAlwaysExpanded s) (headerExpanded s) (showFooter s)
    (_bPinned s) (_bHeaderInTitleArea s) (_bExpandingWithAClick s)
    (_headerBiggerThanAllowedHeight s) (allowInnerDiv s)
    (allowCustomScroll s) (title s) (header s) (footer s) (_scrollBar s)
    (dom s) (clsWithScroll s) (media s) v (pending s).

Definition set_pending (v : list (Z * Task)) (s : State) : State :=
  mkState (headerAlwaysExpanded s) (headerExpanded s) (showFooter s)
    (_bPinned s) (_bHeaderInTitleArea s) (_bExpandingWithAClick s)
    (_headerBiggerThanAllowedHeight s) (allowInnerDiv s)
    (allowCustomScroll s) (title s) (header s) (footer s) (_scrollBar s)
    (dom s) (clsWithScroll s) (media s) (log s) v.

(** ** What the control reads from its environment *)

(** The measurements the control takes.  jQuery's [outerHeight] is an
    integer number of pixels, and on an element that is not rendered it
    yields [null], which the arithmetic of the source treats as 0;
    [getBoundingClientRect().height] may be fractional. *)
Record Geometry : Type := mkGeometry {
  titleOuterHeight : Z;      (* this.getTitle().$().outerHeight() *)
  headerOuterHeight : Z;     (* this.getHeader().$().outerHeight() *)
  ownOuterHeight : Z;        (* this.$().outerHeight() *)
  ownOuterWidth : Z;         (* this.$().outerWidth() *)
  titleAreaOuterHeight : Z;  (* this.$titleArea.outerHeight() *)
  wrapperScrollHeight : Z;   (* this.$wrapper[0].scrollHeight *)
  wrapperRectHeight : Q;     (* this.$wrapper[0].getBoundingClientRect().height *)
  scrollbarWidth : Z         (* jQuery.position.scrollbarWidth() *)
}.

(** sap.ui.Device.system *)
Record DeviceSystem : Type := mkDevice {
  desktop : bool;
  phone : bool
}.

(** STATIC MEMBERS *)
Definition HEADER_MAX_ALLOWED_PINNED_PERCENTAGE : Q := (6 # 10)%Q.
Definition HEADER_MAX_ALLOWED_NON_SROLLABLE_PERCENTAGE : Q := (6 # 10)%Q.
Definition FOOTER_ANIMATION_DURATION : Z := 350.
Definition BREAK_POINTS_TABLET : Z := 1024.
Definition BREAK_POINTS_PHONE : Z := 600.

(** [exists(vObject)] for a single object reference. *)
Definition exists_ {A : Type} (vObject : option A) : bool :=
  match vObject with Some _ => true | None => false end.

(** JavaScript [a || b] on numbers. *)
Definition js_or (a b : Z) : Z := if a =? 0 then b else a.

(** [a > b] on a number and a product with one of the percentages. *)
Definition Qgtb (a b : Q) : bool := negb (Qle_bool a b).

(** ** The monad of the methods *)

(** A method either returns a value or raises a [TypeError]; in both
    cases it leaves a state behind. *)
Inductive Res (A : Type) : Type :=
| Ok (a : A) (s : State)
| Throw (s : State).
Arguments Ok {A} a s.
Arguments Throw {A} s.

Definition M (A : Type) : Type := State -> Res A.

Definition ret {A : Type} (a : A) : M A := fun s => Ok a s.

Definition bind {A B : Type} (m : M A) (k : A -> M B) : M B :=
  fun s => match m s with
           | Ok a s' => k a s'
           | Throw s' => Throw s'
           end.

Definition gets {A : Type} (f : State -> A) : M A := fun s => Ok (f s) s.
Definition modify (f : State -> State) : M unit := fun s => Ok tt (f s).
Definition throw {A : Type} : M A := fun s => Throw s.

Notation "x <- m ;; k" := (bind m (fun x => k))
  (at level 61, m at next level, right associativity).
Notation "m ;; k" := (bind m (fun _ => k))
  (at level 61, right associativity).

(** [if (c) { m }] *)
Definition when (c : bool) (m : M unit) : M unit := if c then m else ret tt.

(** Short-circuit [a && b] and [!a] on conditions that are method calls. *)
Definition andM (a b : M bool) : M bool :=
  x <- a ;; if x then b else ret false.
Definition notM (a : M bool) : M bool := x <- a ;; ret (negb x).
Infix "&&&" := andM (at level 40, left associativity).

(** The state a call leaves behind, and whether it returned. *)
Definition final {A : Type} (r : Res A) : State :=
  match r with Ok _ s => s | Throw s => s end.
Definition returns {A : Type} (r : Res A) : bool :=
  match r with Ok _ _ => true | Throw _ => false end.

(** ** Primitive effects: property, aggregation and DOM access *)

Definition upd_title (f : Title -> Title) (s : State) : State :=
  match title s with Some t => set_title (Some (f t)) s | None => s end.
Definition upd_header (f : Header -> Header) (s : State) : State :=
  match header s with Some h => set_header (Some (f h)) s | None => s end.
Definition upd_footer (f : Footer -> Footer) (s : State) : State :=
  match footer s with Some x => set_footer (Some (f x)) s | None => s end.
Definition upd_scrollBar (f : ScrollBar -> ScrollBar) (s : State) : State :=
  match _scrollBar s with Some b => set_scrollBar (Some (f b)) s | None => s end.
Definition upd_dom (f : Dom -> Dom) (s : State) : State :=
  match dom s with Some d => set_dom (Some (f d)) s | None => s end.
Definition upd_hdom (f : HeaderDom -> HeaderDom) (h : Header) : Header :=
  match hdom h with Some d => set_hdom (Some (f d)) h | None => h end.

Definition add_log (e : LogEntry) (s : State) : State :=
  set_log (log s ++ [e]) s.

Definition log_debug (msg : string) : M unit := modify (add_log (LogDebug msg)).
Definition log_debugN (msg : string) (n : Z) : M unit :=
  modify (add_log (LogDebugN msg n)).
Definition log_warning (msg : string) : M unit :=
  modify (add_log (LogWarning msg)).

(** jQuery.sap.delayedCall(iDelay, this, fn) *)
Definition delayedCall (iDelay : Z) (fn : Task) : M unit :=
  modify (fun s => set_pending (pending s ++ [(iDelay, fn)]) s).

Definition getTitle : M (option Title) := gets title.
Definition getHeader : M (option Header) := gets header.
Definition getFooter : M (option Footer) := gets footer.
Definition getHeaderExpanded : M bool := gets headerExpanded.
Definition getShowFooter : M bool := gets showFooter.

(** [oDynamicPageHeader.$().prependTo(this.$wrapper)] and
    [oDynamicPageHeader.$().appendTo(this.$titleArea)]: the node moves when
    the header is rendered and the target has been cached, and nothing
    happens otherwise. *)
Definition header_moveTo (a : Area) : M unit :=
  modify (fun s => if exists_ (dom s)
                   then upd_header (upd_hdom (set_hParent a)) s else s).

(** The methods of the title, the header and the scroll bar that the
    control calls on an object it holds. *)
Definition Title_setShowExpandContent (b : bool) : M unit :=
  modify (upd_title (set_showExpandContent b)).
Definition Title_setShowSnapContent (b : bool) : M unit :=
  modify (upd_title (set_showSnapContent b)).
Definition Header_setShowPinBtn (b : bool) : M unit :=
  modify (upd_header (set_showPinBtn b)).
Definition Header_togglePinButton (b : bool) : M unit :=
  modify (upd_header (set_pinBtnPressed b)).
Definition Header_updateARIAState (b : bool) : M unit :=
  modify (upd_header (set_ariaExpanded b)).
Definition ScrollBar_setScrollPosition (n : Z) : M unit :=
  modify (upd_scrollBar (set_sbScrollPosition n)).
Definition ScrollBar_setContentSize (n : Z) : M unit :=
  modify (upd_scrollBar (set_sbContentSize (Some n))).
Definition ScrollBar_toggleHidden (b : bool) : M unit :=
  modify (upd_scrollBar (set_sbHidden b)).

(** [this.getHeader().m(...)] without a guard: a [TypeError] when there is
    no header. *)
Definition Header_call (f : Header -> Header) : M unit :=
  oHeader <- getHeader ;;
  match oHeader with
  | Some _ => modify (upd_header f)
  | None => throw
  end.

(** [this.$x.m(...)] on a cached reference without a guard: a [TypeError]
    while nothing is cached. *)
Definition Dom_call (f : Dom -> Dom) : M unit :=
  d <- gets dom ;;
  match d with
  | Some _ => modify (upd_dom f)
  | None => throw
  end.

(** ** The methods of DynamicPage.prototype *)

Section DynamicPage.

(** [Device.system], the animation mode read once when the module loads,
    and the layout the browser computes for a given state of the control. *)
Variable Device : DeviceSystem.
Variable bUseAnimations : bool.
Variable layout : State -> Geometry.

(** *** Measurements *)

Definition _getHeight {A : Type} (oControl : option A) (outerHeight : Z) : Z :=
  if negb (exists_ oControl) then 0 else js_or outerHeight 0.

Definition _getWidth {A : Type} (oControl : option A) (outerWidth : Z) : Z :=
  if negb (exists_ oControl) then 0 else js_or outerWidth 0.

Definition _getTitleAreaHeight (s : State) : Z :=
  if exists_ (dom s) then js_or (titleAreaOuterHeight (layout s)) 0 else 0.

Definition _getTitleHeight (s : State) : Z :=
  _getHeight (title s) (titleOuterHeight (layout s)).

Definition _getHeaderHeight (s : State) : Z :=
  _getHeight (header s) (headerOuterHeight (layout s)).

Definition _headerAlwaysExpanded (s : State) : bool :=
  headerAlwaysExpanded s && negb (_headerBiggerThanAllowedHeight s).

Definition _getSnappingHeight (s : State) : Z :=
  js_or (_getHeaderHeight s) (_getTitleHeight s).

Definition _getMaxScrollPosition (s : State) : Z :=
  if exists_ (dom s)
  then wrapperScrollHeight (layout s) - Qceiling (wrapperRectHeight (layout s))
  else 0.

Definition _needsVerticalScrollBar (s : State) : bool :=
  _getMaxScrollPosition s >? 0.

Definition _canSnapHeaderOnScroll (s : State) : bool :=
  _getMaxScrollPosition s >? _getSnappingHeight s + 1.

Definition _headerSnapAllowed (s : State) : bool :=
  negb (_headerAlwaysExpanded s) && headerExpanded s && negb (_bPinned s).

(** [this._getHeight(this)]: the control itself always is a Control. *)
Definition _getOwnHeight (s : State) : Z :=
  _getHeight (Some s) (ownOuterHeight (layout s)).

Definition _getEntireHeaderHeight (s : State) : Z :=
  let iTitleHeight :=
    if exists_ (title s) then titleOuterHeight (layout s) else 0 in
  let iHeaderHeight :=
    if exists_ (header s) then headerOuterHeight (layout s) else 0 in
  iTitleHeight + iHeaderHeight.

Definition _headerBiggerThanAllowedToExpandWithACommand (s : State) : bool :=
  _getEntireHeaderHeight s >? _getOwnHeight s.

(** [iControlHeight] is [None] when the argument is not a number. *)
Definition _headerBiggerThanAllowedToPin
    (iControlHeight : option Z) (s : State) : bool :=
  let iControlHeight :=
    match iControlHeight with Some h => h | None => _getOwnHeight s end in
  Qgtb (inject_Z (_getEntireHeaderHeight s))
       (HEADER_MAX_ALLOWED_PINNED_PERCENTAGE * inject_Z iControlHeight).

Definition _headerBiggerThanAllowedToBeFixed (s : State) : bool :=
  let iControlHeight := _getOwnHeight s in
  Qgtb (inject_Z (_getEntireHeaderHeight s))
       (HEADER_MAX_ALLOWED_NON_SROLLABLE_PERCENTAGE * inject_Z iControlHeight).

Definition _shouldOverrideHeaderAlwaysExpanded (s : State) : bool :=
  negb (desktop Device) && _headerBiggerThanAllowedToBeFixed s
  && _headerAlwaysExpanded s.

(** *** Scrolling *)

(** Lazily creates the "fake" scroll bar. *)
Definition _getScrollBar : M ScrollBar :=
  oScrollBar <- gets _scrollBar ;;
  match oScrollBar with
  | Some b => ret b
  | None =>
      let oVerticalScrollBar := mkScrollBar 0 None false in
      modify (set_scrollBar (Some oVerticalScrollBar)) ;;
      ret oVerticalScrollBar
  end.

Definition _getScrollPosition : M Z :=
  if desktop Device
  then b <- _getScrollBar ;; ret (sbScrollPosition b)
  else d <- gets dom ;;
       match d with
       | Some w => ret (wrapperScrollTop w)
       | None => throw
       end.

Definition _setScrollPosition (iNewScrollPosition : Z) : M unit :=
  w <- gets dom ;;
  when (exists_ w)
    (modify (upd_dom (set_wrapperScrollTop iNewScrollPosition)) ;;
     when (desktop Device)
       (_getScrollBar ;; ScrollBar_setScrollPosition iNewScrollPosition)).

(** [this._getScrollPosition() > this._getSnappingHeight()] and
    [this._getScrollPosition() < this._getSnappingHeight()], operands
    evaluated from left to right. *)
Definition scrollPositionAbove : M bool :=
  pos <- _getScrollPosition ;; h <- gets _getSnappingHeight ;; ret (pos >? h).

Definition scrollPositionBelow : M bool :=
  pos <- _getScrollPosition ;; h <- gets _getSnappingHeight ;; ret (pos <? h).

Definition _shouldSnap : M bool :=
  notM (gets _headerAlwaysExpanded) &&& scrollPositionAbove
  &&& getHeaderExpanded &&& notM (gets _bPinned).

Definition _shouldExpand : M bool :=
  notM (gets _headerAlwaysExpanded) &&& scrollPositionBelow
  &&& notM getHeaderExpanded &&& notM (gets _bPinned).

Definition _headerScrolledOut : M bool := scrollPositionAbove.

Definition _scrollToSnapHeader : M unit :=
  h <- gets _getSnappingHeight ;; _setScrollPosition (h + 1).

(** *** Snapping and expanding *)

Definition _moveHeaderToContentArea : M unit :=
  oDynamicPageHeader <- getHeader ;;
  when (exists_ oDynamicPageHeader)
    (header_moveTo ContentArea ;;
     modify (set_bHeaderInTitleArea false)).

Definition _moveHeaderToTitleArea : M unit :=
  oDynamicPageHeader <- getHeader ;;
  when (exists_ oDynamicPageHeader)
    (header_moveTo TitleArea ;;
     modify (set_bHeaderInTitleArea true)).

Definition _snapHeader (bAppendHeaderToContent : bool) : M unit :=
  oDynamicPageTitle <- getTitle ;;
  bPinned <- gets _bPinned ;;
  if bPinned
  then log_debug "DynamicPage :: aborted snapping, header is pinned"
  else
    log_debug "DynamicPage :: snapped header" ;;
    match oDynamicPageTitle with
    | Some t =>
        when (expandedContent t) (Title_setShowExpandContent false) ;;
        when (snappedContent t) (Title_setShowSnapContent true) ;;
        when bAppendHeaderToContent _moveHeaderToContentArea
    | None => ret tt
    end ;;
    titleArea <- gets dom ;;
    if negb (exists_ titleArea)
    then log_warning "DynamicPage :: couldn't snap header. There's no title."
    else
      modify (set_headerExpanded false) ;;
      modify (upd_dom (set_titleSnapped true)).

Definition _expandHeader (bAppendHeaderToTitle : bool) : M unit :=
  oDynamicPageTitle <- getTitle ;;
  log_debug "DynamicPage :: expand header" ;;
  match oDynamicPageTitle with
  | Some t =>
      when (expandedContent t) (Title_setShowExpandContent true) ;;
      when (snappedContent t) (Title_setShowSnapContent false) ;;
      when bAppendHeaderToTitle _moveHeaderToTitleArea
  | None => ret tt
  end ;;
  titleArea <- gets dom ;;
  if negb (exists_ titleArea)
  then log_warning "DynamicPage :: couldn't expand header. There's no title."
  else
    modify (set_headerExpanded true) ;;
    modify (upd_dom (set_titleSnapped false)).

(** *** The "fake" scroll bar *)

Definition _measureScrollBarOffsetHeight : M Z :=
  bExpanded <- getHeaderExpanded ;;
  let bSnapped := negb bExpanded in
  bHeaderAlwaysExpanded <- gets _headerAlwaysExpanded ;;
  bPinned <- gets _bPinned ;;
  if bHeaderAlwaysExpanded || bPinned
  then
    iHeight <- gets _getTitleAreaHeight ;;
    log_debugN "DynamicPage :: header always expanded or header pinned :: title area height" iHeight ;;
    ret iHeight
  else
    oTitle <- getTitle ;;
    bCanSnap <- gets _canSnapHeaderOnScroll ;;
    if bSnapped || negb (exists_ oTitle) || negb bCanSnap
    then
      iHeight <- gets _getTitleHeight ;;
      log_debugN "DynamicPage :: header snapped :: title height " iHeight ;;
      ret iHeight
    else
      _snapHeader true ;;
      iHeight <- gets _getTitleHeight ;;
      bShouldExpand <- _shouldExpand ;;
      when (bShouldExpand && negb bSnapped) (_expandHeader false) ;;
      log_debugN "DynamicPage :: snapped mode :: title height " iHeight ;;
      ret iHeight.

Definition _updateScrollBar : M unit :=
  w <- gets dom ;;
  if negb (desktop Device) || negb (exists_ w)
  then ret tt
  else
    bScrollBarNeeded <- gets _needsVerticalScrollBar ;;
    _getScrollBar ;;
    iOffset <- _measureScrollBarOffsetHeight ;;
    iScrollHeight <- gets (fun s => wrapperScrollHeight (layout s)) ;;
    ScrollBar_setContentSize (iOffset + iScrollHeight) ;;
    ScrollBar_toggleHidden (negb bScrollBarNeeded) ;;
    modify (set_clsWithScroll bScrollBarNeeded) ;;
    delayedCall 0 T_updateScrollBarOffset ;;
    delayedCall 0 T_updateFitContainer.

Definition _updateFitContainer : M unit :=
  b <- gets _needsVerticalScrollBar ;;
  Dom_call (set_fitContainer (negb b)).

(** The side ([left] or [right], by the RTL configuration) is not kept,
    only the width that is written. *)
Definition _updateScrollBarOffset : M unit :=
  b <- gets _needsVerticalScrollBar ;;
  w <- gets (fun s => scrollbarWidth (layout s)) ;;
  let iOffsetWidth := if b then w else 0 in
  oFooter <- getFooter ;;
  Dom_call (set_titlePadding iOffsetWidth) ;;
  when (exists_ oFooter) (modify (upd_footer (set_footerOffset iOffsetWidth))).

Definition _toggleHeaderVisibility (bShow : bool) : M unit :=
  bExpanded <- getHeaderExpanded ;;
  oDynamicPageTitle <- getTitle ;;
  oDynamicPageHeader <- getHeader ;;
  bPinned <- gets _bPinned ;;
  if bPinned
  then log_debug "DynamicPage :: header toggle aborted, header is pinned"
  else
    when (exists_ oDynamicPageTitle)
      (Title_setShowExpandContent bExpanded ;;
       Title_setShowSnapContent (negb bExpanded)) ;;
    when (exists_ oDynamicPageHeader)
      (modify (upd_header (upd_hdom (set_hHidden (negb bShow)))) ;;
       _updateScrollBar).

(** *** Pinning *)

Definition _pin : M unit :=
  bPinned <- gets _bPinned ;;
  when (negb bPinned)
    (modify (set_bPinned true) ;;
     _moveHeaderToTitleArea ;;
     _updateScrollBar ;;
     bPinned <- gets _bPinned ;;
     Header_call (set_ariaPinned bPinned)).

Definition _unPin : M unit :=
  bPinned <- gets _bPinned ;;
  when bPinned
    (modify (set_bPinned false) ;;
     bPinned <- gets _bPinned ;;
     Header_call (set_ariaPinned bPinned)).

Definition _restorePinButtonFocus : M unit :=
  Header_call (set_pinBtnFocused true).

(** *** The scroll-driven evaluation *)

Definition _updateHeaderARIAState (bExpanded : bool) : M unit :=
  oDynamicPageHeader <- getHeader ;;
  when (exists_ oDynamicPageHeader) (Header_updateARIAState bExpanded).

Definition _toggleHeader : M unit :=
  bSnap <- _shouldSnap ;;
  if bSnap
  then _snapHeader true ;; _updateHeaderARIAState false
  else
    bExpand <- _shouldExpand ;;
    if bExpand
    then _expandHeader false ;; _updateHeaderARIAState true
    else
      bPinned <- gets _bPinned ;;
      bHeaderInTitleArea <- gets _bHeaderInTitleArea ;;
      when (negb bPinned && bHeaderInTitleArea) _moveHeaderToContentArea.

(** *** Media and footer *)

(** The loop over DynamicPage.MEDIA enables the class of [sCurrentMedia]
    and disables the three others. *)
Definition _updateMediaStyle (sCurrentMedia : Media) : M unit :=
  modify (set_media (Some sCurrentMedia)).

Definition _updateMedia (iWidth : Z) : M unit :=
  if iWidth =? 0 then _updateMediaStyle INVISIBLE
  else if iWidth <=? BREAK_POINTS_PHONE then _updateMediaStyle PHONE
  else if iWidth <=? BREAK_POINTS_TABLET then _updateMediaStyle TABLET
  else _updateMediaStyle DESKTOP.

(** [this.$("spacer")] is a jQuery object and so always [exists]; the two
    writes reach the elements that are rendered. *)
Definition _toggleFooterSpacer (bToggle : bool) : M unit :=
  modify (upd_dom (fun d =>
    set_fitBottom (if bToggle then 4 else 0)
      (set_spacer (option_map (fun _ => bToggle) (spacer d)) d))).

(** [this.$footerWrapper.toggleClass("sapUiHidden", !this.getShowFooter())] *)
Definition _footerWrapperToggle : M unit :=
  d <- gets dom ;;
  bShowFooter <- getShowFooter ;;
  match d with
  | Some w =>
      if footerWrapperCached w
      then modify (upd_dom (set_footerWrapperHidden (negb bShowFooter)))
      else throw
  | None => throw
  end.

Definition _toggleFooter (bShow : bool) : M unit :=
  oFooter <- getFooter ;;
  if negb (exists_ oFooter)
  then ret tt
  else
    modify (upd_footer (set_clsShow bShow)) ;;
    modify (upd_footer (set_clsHide (negb bShow))) ;;
    _toggleFooterSpacer bShow ;;
    when bUseAnimations
      ((if negb bShow
        then delayedCall FOOTER_ANIMATION_DURATION T_footerWrapperToggle
        else _footerWrapperToggle) ;;
       delayedCall FOOTER_ANIMATION_DURATION T_footerRemoveShow) ;;
    _updateScrollBar.

(** *** Lifecycle and public setters *)

Definition init : M unit :=
  modify (set_bPinned false) ;;
  modify (set_bHeaderInTitleArea false) ;;
  modify (set_bExpandingWithAClick false) ;;
  modify (set_headerBiggerThanAllowedHeight false).

Definition _overrideHeaderAlwaysExpanded : M unit :=
  bOverride <- gets _shouldOverrideHeaderAlwaysExpanded ;;
  if negb bOverride
  then modify (set_headerBiggerThanAllowedHeight false)
  else
    modify (set_headerBiggerThanAllowedHeight true) ;;
    _moveHeaderToContentArea ;;
    _updateScrollBar.

(** [$wrapper], [$contentFitContainer] and [$titleArea] are looked up
    anew; [$footerWrapper] only when there is a footer. *)
Definition _cacheDomElements (rendered : Dom) : M unit :=
  oFooter <- getFooter ;;
  old <- gets dom ;;
  let bCached :=
    exists_ oFooter
    || match old with Some o => footerWrapperCached o | None => false end in
  modify (set_dom (Some (set_footerWrapperCached bCached rendered))).

Definition onAfterRendering (rendered : Dom) : M unit :=
  bHeaderAlwaysExpanded <- gets _headerAlwaysExpanded ;;
  oDynamicPageHeader <- getHeader ;;
  when (bHeaderAlwaysExpanded && exists_ oDynamicPageHeader)
    (Header_setShowPinBtn false ;;
     delayedCall 0 T_overrideHeaderAlwaysExpanded) ;;
  _cacheDomElements rendered ;;
  iWidth <- gets (fun s => _getWidth (Some s) (ownOuterWidth (layout s))) ;;
  _updateMedia iWidth ;;
  _updateScrollBar.

Definition setShowFooter (bShowFooter : bool) : M unit :=
  modify (set_showFooter bShowFooter) ;;
  _toggleFooter bShowFooter.

Definition setHeaderAlwaysExpanded (bHeaderAlwaysExpanded : bool) : M unit :=
  modify (set_headerAlwaysExpanded bHeaderAlwaysExpanded) ;;
  when bHeaderAlwaysExpanded (modify (set_headerExpanded true)).

(** *** Event handlers *)

Definition _onChildControlAfterRendering : M unit :=
  delayedCall 0 T_updateScrollBar.

Definition _onChildControlsHeightChange (height oldHeight : Z) : M unit :=
  bExpandingWithAClick <- gets _bExpandingWithAClick ;;
  when (negb (height =? oldHeight) && negb bExpandingWithAClick)
    _updateScrollBar ;;
  modify (set_bExpandingWithAClick false).

Definition _onResize (width height : Z) : M unit :=
  oDynamicPageHeader <- getHeader ;;
  bHeaderAlwaysExpanded <- gets _headerAlwaysExpanded ;;
  when (negb bHeaderAlwaysExpanded && exists_ oDynamicPageHeader)
    (bTooBig <- gets (_headerBiggerThanAllowedToPin (Some height)) ;;
     if bTooBig || phone Device
     then
       _unPin ;;
       Header_setShowPinBtn false ;;
       Header_togglePinButton false
     else Header_setShowPinBtn true) ;;
  _updateScrollBar ;;
  _updateMedia width.

Definition _onWrapperScroll (scrollTop : Z) : M unit :=
  bExpandingWithAClick <- gets _bExpandingWithAClick ;;
  when (negb (desktop Device) || negb bExpandingWithAClick) _toggleHeader ;;
  when (desktop Device)
    (bAllowCustomScroll <- gets allowCustomScroll ;;
     if bAllowCustomScroll && (scrollTop >? 0)
     then modify (set_allowCustomScroll false)
     else
       modify (set_allowInnerDiv true) ;;
       _getScrollBar ;;
       ScrollBar_setScrollPosition scrollTop ;;
       b <- gets _needsVerticalScrollBar ;;
       modify (set_clsWithScroll b)).

Definition _onScrollBarScroll : M unit :=
  _toggleHeader ;;
  bAllowInnerDiv <- gets allowInnerDiv ;;
  if bAllowInnerDiv
  then modify (set_allowInnerDiv false)
  else
    modify (set_allowCustomScroll true) ;;
    b <- _getScrollBar ;;
    Dom_call (set_wrapperScrollTop (sbScrollPosition b)).

Definition _titleExpandCollapseWhenAllowed : M unit :=
  bTooBig <- gets _headerBiggerThanAllowedToExpandWithACommand ;;
  if bTooBig
  then log_warning "DynamicPage :: couldn't expand header. There isn't enough space for it to fit on the screen"
  else
    bPushPull <-
      gets (fun s => _headerAlwaysExpanded s || negb (_needsVerticalScrollBar s)) ;;
    bExpanded <- getHeaderExpanded ;;
    if bPushPull
    then
      if negb bExpanded
      then _expandHeader false ;; _toggleHeaderVisibility true
      else _snapHeader false ;; _toggleHeaderVisibility false
    else
      if negb bExpanded
      then modify (set_bExpandingWithAClick true) ;; _expandHeader true
      else
        bSnapAllowed <- gets _headerSnapAllowed ;;
        when bSnapAllowed
          (bScrolledOut <- _headerScrolledOut ;;
           if bScrolledOut
           then _snapHeader true
           else
             bCanSnap <- gets _canSnapHeaderOnScroll ;;
             if bCanSnap
             then _scrollToSnapHeader
             else log_warning "DynamicPage :: couldn't snap header. There isn't enough content to be scrolled").

Definition setHeaderExpanded (bHeaderExpanded : bool) : M unit :=
  bExpanded <- getHeaderExpanded ;;
  if Bool.eqb bExpanded bHeaderExpanded
  then ret tt
  else _titleExpandCollapseWhenAllowed.

Definition _onPinUnpinButtonPress : M unit :=
  bPinned <- gets _bPinned ;;
  if bPinned
  then _unPin
  else _pin ;; _restorePinButtonFocus.

(** ** Events *)

(** What the framework and the browser deliver to the control.  The
    aggregation mutators are generated by the framework; rendering is done
    by DynamicPageRenderer, whose output (the fresh DOM of the page and of
    the header) is part of the event. *)
Inductive Event : Type :=
| EvSetTitle (t : option Title)
| EvSetHeader (h : option Header)
| EvSetFooter (f : option Footer)
| EvSetShowFooter (b : bool)
| EvSetHeaderExpanded (b : bool)
| EvSetHeaderAlwaysExpanded (b : bool)
| EvRendered (d : Dom) (hd : HeaderDom)
| EvChildAfterRendering
| EvChildHeightChange (height oldHeight : Z)
| EvResize (width height : Z)
| EvWrapperScroll (scrollTop : Z)
| EvScrollBarScroll (scrollPosition : Z)
| EvTitlePress
| EvPinUnpinPress
| EvTimer (n : nat).

Definition runTask (t : Task) : M unit :=
  match t with
  | T_overrideHeaderAlwaysExpanded => _overrideHeaderAlwaysExpanded
  | T_updateScrollBar => _updateScrollBar
  | T_updateScrollBarOffset => _updateScrollBarOffset
  | T_updateFitContainer => _updateFitContainer
  | T_footerWrapperToggle => _footerWrapperToggle
  | T_footerRemoveShow =>
      (* oFooter.removeStyleClass(...), on the footer of the page *)
      modify (upd_footer (set_clsShow false))
  end.

(** Removes the [n]-th delayed call from the queue. *)
Fixpoint remove_nth {A : Type} (n : nat) (l : list A) : list A :=
  match n, l with
  | _, [] => []
  | O, _ :: l' => l'
  | S n', x :: l' => x :: remove_nth n' l'
  end.

Definition handle (e : Event) : M unit :=
  match e with
  | EvSetTitle t => modify (set_title t)
  | EvSetHeader h => modify (set_header h)
  | EvSetFooter f => modify (set_footer f)
  | EvSetShowFooter b => setShowFooter b
  | EvSetHeaderExpanded b => setHeaderExpanded b
  | EvSetHeaderAlwaysExpanded b => setHeaderAlwaysExpanded b
  | EvRendered d hd =>
      modify (upd_header (set_hdom (Some hd))) ;;
      onAfterRendering d
  | EvChildAfterRendering => _onChildControlAfterRendering
  | EvChildHeightChange h old => _onChildControlsHeightChange h old
  | EvResize w h => _onResize w h
  | EvWrapperScroll top =>
      modify (upd_dom (set_wrapperScrollTop top)) ;;
      _onWrapperScroll top
  | EvScrollBarScroll pos =>
      modify (upd_scrollBar (set_sbScrollPosition pos)) ;;
      _onScrollBarScroll
  | EvTitlePress => _titleExpandCollapseWhenAllowed
  | EvPinUnpinPress => _onPinUnpinButtonPress
  | EvTimer n =>
      q <- gets pending ;;
      match nth_error q n with
      | Some (_, t) =>
          modify (set_pending (remove_nth n q)) ;;
          runTask t
      | None => ret tt
      end
  end.

(** An event reaches the control when the object that fires it exists:
    the handlers of the DOM are attached by [onAfterRendering], those of
    the title and the header live on these objects, and the scroll bar
    fires once it has been created. *)
Definition enabled (e : Event) (s : State) : bool :=
  match e with
  | EvChildAfterRendering | EvChildHeightChange _ _ | EvResize _ _
  | EvWrapperScroll _ => exists_ (dom s)
  | EvScrollBarScroll _ => exists_ (_scrollBar s)
  | EvTitlePress => exists_ (title s)
  | EvPinUnpinPress => exists_ (header s)
  | _ => true
  end.

Definition step (e : Event) (s : State) : State :=
  if enabled e s then final (handle e s) else s.

Definition run (es : list Event) (s : State) : State :=
  fold_left (fun s e => step e s) es s.

(** The control as the framework constructs it (the defaults of the
    metadata, nothing aggregated, nothing rendered) after [init]. *)
Definition constructed : State :=
  mkState false true false false false false false false false
          None None None None None false None [] [].

Definition initial : State := final (init constructed).

(** Reachable states: those a sequence of events leads to. *)
Definition reachable (s : State) : Prop :=
  exists es, s = run es initial.

End DynamicPage.

(** ** The media classes *)

(** The classes of [_updateMediaStyle], one by one.  [State] keeps only
    which media is current; here the style classes of the control are a
    set of names, and [toggleStyleClass(sStyleClass, bAdd)] makes
    [sStyleClass] a member or not by [bAdd]. *)
Module StyleClasses.

Definition StyleClasses : Type := string -> bool.

Definition toggleStyleClass (sStyleClass : string) (bAdd : bool)
    (classes : StyleClasses) : StyleClasses :=
  fun c => if String.eqb c sStyleClass then bAdd else classes c.

(** DynamicPage.MEDIA *)
Definition MEDIA (sMedia : Media) : string :=
  match sMedia with
  | INVISIBLE => "sapUiHidden"
  | PHONE => "sapFDynamicPage-Std-Phone"
  | TABLET => "sapFDynamicPage-Std-Tablet"
  | DESKTOP => "sapFDynamicPage-Std-Desktop"
  end.

(** Object.keys(DynamicPage.MEDIA), in the order of the literal. *)
Definition MEDIA_keys : list Media := [INVISIBLE; PHONE; TABLET; DESKTOP].

Definition _updateMediaStyle (sCurrentMedia : string)
    (classes : StyleClasses) : StyleClasses :=
  fold_left
    (fun cs sMedia =>
       let bEnable := String.eqb sCurrentMedia (MEDIA sMedia) in
       toggleStyleClass (MEDIA sMedia) bEnable cs)
    MEDIA_keys classes.

Definition _updateMedia (iWidth : Z) (classes : StyleClasses) : StyleClasses :=
  if iWidth =? 0 then _updateMediaStyle (MEDIA INVISIBLE) classes
  else if iWidth <=? BREAK_POINTS_PHONE
       then _updateMediaStyle (MEDIA PHONE) classes
  else if iWidth <=? BREAK_POINTS_TABLET
       then _updateMediaStyle (MEDIA TABLET) classes
  else _updateMediaStyle (MEDIA DESKTOP) classes.

(** The media a width selects. *)
Definition mediaOfWidth (iWidth : Z) : Media :=
  if iWidth =? 0 then INVISIBLE
  else if iWidth <=? BREAK_POINTS_PHONE then PHONE
  else if iWidth <=? BREAK_POINTS_TABLET then TABLET
  else DESKTOP.

Definition isMediaClass (c : string) : bool :=
  existsb (fun sMedia => String.eqb c (MEDIA sMedia)) MEDIA_keys.

End StyleClasses.

(** ** The resize handlers *)

(** The three registrations with the ResizeHandler of the framework.
    [ResizeHandler.register] hands out an id it has not handed out
    before; [ResizeHandler.deregister] forgets the id it is given. *)
Module Resize.

(** DynamicPage.RESIZE_HANDLER_ID *)
Inductive RESIZE_HANDLER_ID : Type := PAGE | TITLE | CONTENT.

(** What a handler listens to. *)
Inductive Target : Type := ThePage | TitleDom | ContentFitContainerDom.

Record Handlers : Type := mkHandlers {
  (* this._sResizeHandlerId, this._sTitleResizeHandlerId and
     this._sContentResizeHandlerId *)
  _sResizeHandlerId : option nat;
  _sTitleResizeHandlerId : option nat;
  _sContentResizeHandlerId : option nat;
  (* this.$title and this.$contentFitContainer have been cached *)
  title_cached : bool;
  contentFitContainer_cached : bool;
  (* the registrations the ResizeHandler holds, and its next id *)
  registered : list (nat * Target);
  nextId : nat
}.

Definition slot (sHandler : RESIZE_HANDLER_ID) (h : Handlers) : option nat :=
  match sHandler with
  | PAGE => _sResizeHandlerId h
  | TITLE => _sTitleResizeHandlerId h
  | CONTENT => _sContentResizeHandlerId h
  end.

Definition set_slot (sHandler : RESIZE_HANDLER_ID) (v : option nat)
    (h : Handlers) : Handlers :=
  match sHandler with
  | PAGE =>
      mkHandlers v (_sTitleResizeHandlerId h) (_sContentResizeHandlerId h)
        (title_cached h) (contentFitContainer_cached h)
        (registered h) (nextId h)
  | TITLE =>
      mkHandlers (_sResizeHandlerId h) v (_sContentResizeHandlerId h)
        (title_cached h) (contentFitContainer_cached h)
        (registered h) (nextId h)
  | CONTENT =>
      mkHandlers (_sResizeHandlerId h) (_sTitleResizeHandlerId h) v
        (title_cached h) (contentFitContainer_cached h)
        (registered h) (nextId h)
  end.

(** ResizeHandler.register(oObject, fnHandler) *)
Definition ResizeHandler_register (oObject : Target) (h : Handlers)
    : nat * Handlers :=
  (nextId h,
   mkHandlers (_sResizeHandlerId h) (_sTitleResizeHandlerId h)
     (_sContentResizeHandlerId h) (title_cached h)
     (contentFitContainer_cached h)
     (registered h ++ [(nextId h, oObject)]) (S (nextId h))).

(** ResizeHandler.deregister(sId) *)
Definition ResizeHandler_deregister (sId : nat) (h : Handlers) : Handlers :=
  mkHandlers (_sResizeHandlerId h) (_sTitleResizeHandlerId h)
    (_sContentResizeHandlerId h) (title_cached h)
    (contentFitContainer_cached h)
    (filter (fun r => negb (Nat.eqb (fst r) sId)) (registered h)) (nextId h).

Definition _registerResizeHandler (sHandler : RESIZE_HANDLER_ID)
    (oObject : Target) (h : Handlers) : Handlers :=
  match slot sHandler h with
  | None =>
      let (sId, h') := ResizeHandler_register oObject h in
      set_slot sHandler (Some sId) h'
  | Some _ => h
  end.

Definition _deRegisterResizeHandler (sHandler : RESIZE_HANDLER_ID)
    (h : Handlers) : Handlers :=
  match slot sHandler h with
  | Some sId => set_slot sHandler None (ResizeHandler_deregister sId h)
  | None => h
  end.

Definition _attachResizeHandlers (h : Handlers) : Handlers :=
  let h1 := _registerResizeHandler PAGE ThePage h in
  let h2 := if title_cached h1
            then _registerResizeHandler TITLE TitleDom h1 else h1 in
  if contentFitContainer_cached h2
  then _registerResizeHandler CONTENT ContentFitContainerDom h2 else h2.

Definition _detachResizeHandlers (h : Handlers) : Handlers :=
  _deRegisterResizeHandler CONTENT
    (_deRegisterResizeHandler TITLE
       (_deRegisterResizeHandler PAGE h)).

(** [_cacheTitleDom]: [$title] is cached when there is a title. *)
Definition _cacheTitleDom (bTitle : bool) (h : Handlers) : Handlers :=
  mkHandlers (_sResizeHandlerId h) (_sTitleResizeHandlerId h)
    (_sContentResizeHandlerId h) (bTitle || title_cached h)
    (contentFitContainer_cached h) (registered h) (nextId h).

(** The part of [_cacheDomElements] that matters here:
    [$contentFitContainer] is cached, and then the title. *)
Definition _cacheDomElements (bTitle : bool) (h : Handlers) : Handlers :=
  _cacheTitleDom bTitle
    (mkHandlers (_sResizeHandlerId h) (_sTitleResizeHandlerId h)
       (_sContentResizeHandlerId h) (title_cached h) true
       (registered h) (nextId h)).

(** The calls of [onAfterRendering] that deal with the handlers. *)
Definition onAfterRendering (bTitle : bool) (h : Handlers) : Handlers :=
  _attachResizeHandlers (_detachResizeHandlers (_cacheDomElements bTitle h)).

(** [_onChildControlAfterRendering] for an event that comes from the
    title. *)
Definition _onChildControlAfterRendering_title (h : Handlers) : Handlers :=
  _registerResizeHandler TITLE TitleDom
    (_deRegisterResizeHandler TITLE (_cacheTitleDom true h)).

(** [exit] *)
Definition exit (h : Handlers) : Handlers := _detachResizeHandlers h.

(** What can happen to the handlers. *)
Inductive Op : Type :=
| OpRendered (bTitle : bool)
| OpTitleRendered
| OpExit.

Definition perform (o : Op) (h : Handlers) : Handlers :=
  match o with
  | OpRendered bTitle => onAfterRendering bTitle h
  | OpTitleRendered => _onChildControlAfterRendering_title h
  | OpExit => exit h
  end.

(** A control that has registered nothing, with whatever the
    ResizeHandler holds for others. *)
Definition fresh (others : list (nat * Target)) (next : nat) : Handlers :=
  mkHandlers None None None false false others next.

Definition perform_all (ops : list Op) (h : Handlers) : Handlers :=
  fold_left (fun h o => perform o h) ops h.

(** Whether the control holds the id [i] in the slot [sHandler], and in
    how many slots it holds it. *)
Definition holds_in (sHandler : RESIZE_HANDLER_ID) (i : nat) (h : Handlers)
    : bool :=
  match slot sHandler h with Some j => Nat.eqb j i | None => false end.

Definition heldCount (i : nat) (h : Handlers) : nat :=
  (if holds_in PAGE i h then 1 else 0)
  + (if holds_in TITLE i h then 1 else 0)
  + (if holds_in CONTENT i h then 1 else 0).

(** How often the ResizeHandler has the id [i] registered. *)
Definition registeredCount (i : nat) (h : Handlers) : nat :=
  List.length (filter (fun r => Nat.eqb (fst r) i) (registered h)).

(** The registrations with an id below [next]. *)
Definition below (next : nat) (l : list (nat * Target)) : list (nat * Target) :=
  filter (fun r => Nat.ltb (fst r) next) l.

End Resize.

(** ** Observations *)

(** Whether the title area carries sapFDynamicPageTitleSnapped. *)
Definition snappedClass (s : State) : bool :=
  match dom s with Some d => titleSnapped d | None => false end.

Definition msgPinned : string :=
  "DynamicPage :: aborted snapping, header is pinned".

(** [keeps I key m]: started in a state that satisfies [I], the
    computation [m] ends, by returning or by raising, in a state that
    satisfies [I] again and has the same [key]. *)
Definition keeps {A K : Type} (I : State -> Prop) (key : State -> K)
    (m : M A) : Prop :=
  forall s, I s -> I (final (m s)) /\ key (final (m s)) = key s.

(** The delayed calls of [_overrideHeaderAlwaysExpanded] that are still
    pending. *)
Definition isOverride (p : Z * Task) : bool :=
  match snd p with
  | T_overrideHeaderAlwaysExpanded => true
  | _ => false
  end.

Definition scheduledOverrides (s : State) : nat :=
  List.length (filter isOverride (pending s)).

(** The override has been applied and no further check is pending. *)
Definition overrideSettled (s : State) : Prop :=
  _headerBiggerThanAllowedHeight s = true /\ scheduledOverrides s = 0%nat.

(** The two reentrancy flags of the scroll handlers. *)
Definition armed (s : State) : bool * bool :=
  (allowInnerDiv s, allowCustomScroll s).

Definition bothArmed (s : State) : bool :=
  allowInnerDiv s && allowCustomScroll s.

(** Every event but a scroll event of the wrapper that reports the very
    top of the content ([scrollTop] 0). *)
Definition notAtTop (e : Event) : bool :=
  match e with
  | EvWrapperScroll scrollTop => scrollTop >? 0
  | _ => true
  end.

(** No condition on the state. *)
Definition always (s : State) : Prop := True.

(** The mode in which scrolling must not snap the header. *)
Definition alwaysMode (s : State) : Prop := _headerAlwaysExpanded s = true.

(** The page has been rendered: there is a title area and a wrapper. *)
Definition domExists (s : State) : Prop := exists_ (dom s) = true.

(** The warnings in the log. *)
Definition isWarning (e : LogEntry) : bool :=
  match e with
  | LogWarning _ => true
  | _ => false
  end.

Definition warnings (s : State) : list LogEntry := filter isWarning (log s).

Definition msgNoSpace : string :=
  "DynamicPage :: couldn't expand header. There isn't enough space for it to fit on the screen".

Definition msgNoContent : string :=
  "DynamicPage :: couldn't snap header. There isn't enough content to be scrolled".

(** The three ways to try a snap or an expand: the two operations
    themselves and the command-triggered toggle. *)
Inductive Attempt : Type :=
| AttemptSnap (bAppendHeaderToContent : bool)
| AttemptExpand (bAppendHeaderToTitle : bool)
| AttemptCommand.

Definition attempt (Device : DeviceSystem) (layout : State -> Geometry)
    (a : Attempt) : M unit :=
  match a with
  | AttemptSnap b => _snapHeader b
  | AttemptExpand b => _expandHeader b
  | AttemptCommand => _titleExpandCollapseWhenAllowed Device layout
  end.

(** The state without its log and without the lazily created scroll
    bar. *)
Definition forget (s : State) : State := set_log [] (set_scrollBar None s).

(** [safe m]: the computation [m] never raises. *)
Definition safe {A : Type} (m : M A) : Prop :=
  forall s, returns (m s) = true.

(** The command-triggered toggle arrives as a press on the title or as
    the public setter [setHeaderExpanded]. *)
Definition isCommandToggle (e : Event) : bool :=
  match e with
  | EvTitlePress | EvSetHeaderExpanded _ => true
  | _ => false
  end.

(** ** Concrete scenarios *)

Definition desktopDevice : DeviceSystem := mkDevice true false.
Definition tabletDevice : DeviceSystem := mkDevice false false.

(** A layout that does not change with the state. *)
Definition fixedLayout (g : Geometry) : State -> Geometry := fun _ => g.

Definition plainTitle : Title := mkTitle true true true false.
Definition plainHeader : Header := mkHeader None true false true false false.
Definition freshDom : Dom := mkDom false 0 0 false 0 None false false.
Definition freshHeaderDom : HeaderDom := mkHeaderDom ContentArea false.

(** The scroll bar [_getScrollBar] creates. *)
Definition newScrollBar : ScrollBar := mkScrollBar 0 None false.

(** Title 50px, no header, page 400px high, 1000px of content in a 300px
    viewport. *)
Definition geoTitleOnly : Geometry :=
  mkGeometry 50 0 400 1200 50 1000 (300 # 1) 15.

(** Title 50px and header 100px in a page 400px high, 1000px of content
    in a 300px viewport. *)
Definition geoTitleHeader : Geometry :=
  mkGeometry 50 100 400 1200 50 1000 (300 # 1) 15.

(** Header 500px in a page 400px high. *)
Definition geoTallHeader : Geometry :=
  mkGeometry 0 500 400 1200 0 1000 (300 # 1) 15.

(** Header 70px in a page 100px high: more than 60%. *)
Definition geoSeventyPercent : Geometry :=
  mkGeometry 0 70 100 800 0 1000 (30 # 1) 15.

(** A wrapper laid out 100.4px high whose [scrollHeight] rounds to 100. *)
Definition geoSubpixel : Geometry :=
  mkGeometry 0 0 400 1200 0 100 (502 # 5) 15.

(** A page with title and header, rendered and scrolled to [top]. *)
Definition renderedAt (top : Z) : State :=
  mkState false true false false false false false false false
          (Some plainTitle) (Some (set_hdom (Some freshHeaderDom) plainHeader))
          None None (Some (set_wrapperScrollTop top freshDom)) false None [] [].

(** The same page, pinned. *)
Definition pinnedPage : State :=
  set_bHeaderInTitleArea true (set_bPinned true (renderedAt 0)).

(** An always-expanded page with a title, rendered on desktop. *)
Definition alwaysExpandedPage : State :=
  run desktopDevice false (fixedLayout geoTitleOnly)
    [EvSetTitle (Some plainTitle); EvSetHeaderAlwaysExpanded true;
     EvRendered freshDom freshHeaderDom] initial.

(** A page that has a title and has never been rendered. *)
Definition unrenderedPage : State := set_title (Some plainTitle) initial.

(** A page with title and header that was pinned and unpinned before it
    is rendered: the header is still marked as being in the title area. *)
Definition unpinnedUnrenderedPage : State :=
  run desktopDevice false (fixedLayout geoTitleHeader)
    [EvSetTitle (Some plainTitle); EvSetHeader (Some plainHeader);
     EvPinUnpinPress; EvPinUnpinPress] initial.

(** A page with only a header, not rendered. *)
Definition headerOnlyPage : State := set_header (Some plainHeader) initial.

(** The page is set up and rendered, the user scrolls the header out and
    then pins it. *)
Definition runPinWhileSnapped : list Event :=
  [EvSetTitle (Some plainTitle); EvSetHeader (Some plainHeader);
   EvRendered freshDom freshHeaderDom; EvWrapperScroll 101; EvPinUnpinPress].

(** A page with a title is made always-expanded and rendered, then the
    user presses the title. *)
Definition runPressAlwaysExpanded : list Event :=
  [EvSetTitle (Some plainTitle); EvSetHeaderAlwaysExpanded true;
   EvRendered freshDom freshHeaderDom; EvTitlePress].

(** On a tablet a page whose header takes 70% of the height is made
    always-expanded and rendered; the delayed check runs. *)
Definition runOverride : list Event :=
  [EvSetHeader (Some plainHeader); EvSetHeaderAlwaysExpanded true;
   EvRendered freshDom freshHeaderDom; EvTimer 0].

(** The same page rendered twice before the first delayed check runs;
    then the first check runs. *)
Definition runRenderTwice : list Event :=
  [EvSetHeader (Some plainHeader); EvSetHeaderAlwaysExpanded true;
   EvRendered freshDom freshHeaderDom; EvRendered freshDom freshHeaderDom;
   EvTimer 0].

(** What may follow: the page is rendered again, resized and scrolled. *)
Definition runAfterOverride : list Event :=
  [EvRendered freshDom freshHeaderDom; EvResize 800 100; EvWrapperScroll 80;
   EvTitlePress; EvTimer 0].

(** The user scrolls the content, then drags the scroll bar back to the
    top; each write to one scroll source echoes as an event of the other. *)
Definition runScrollToTop : list Event :=
  [EvSetTitle (Some plainTitle); EvRendered freshDom freshHeaderDom;
   EvWrapperScroll 50; EvScrollBarScroll 50;
   EvScrollBarScroll 0; EvWrapperScroll 0].

(** The same scrolling, ending just below the top. *)
Definition runScrollNearTop : list Event :=
  [EvSetTitle (Some plainTitle); EvRendered freshDom freshHeaderDom;
   EvWrapperScroll 50; EvScrollBarScroll 50;
   EvScrollBarScroll 1; EvWrapperScroll 1].

(** ** Further observations *)

(** The state without its log. *)
Definition unlogged (s : State) : State := set_log [] s.

(** The state without what [_updateScrollBar] works on: the scroll bar,
    the class sapFDynamicPageWithScroll, the log and the delayed calls. *)
Definition withoutScrollBar (s : State) : State :=
  set_pending [] (set_log [] (set_clsWithScroll false (set_scrollBar None s))).

(** [holds I m]: started in a state that satisfies [I], the computation
    [m] returns, and the state it leaves satisfies [I] again. *)
Definition holds {A : Type} (I : State -> Prop) (m : M A) : Prop :=
  forall s, I s -> returns (m s) = true /\ I (final (m s)).

(** The page has been rendered with its footer: [$wrapper], [$titleArea],
    [$contentFitContainer] and [$footerWrapper] are all cached. *)
Definition ready (s : State) : bool :=
  match dom s with Some d => footerWrapperCached d | None => false end.

(** A ready page, with a header when [bHeader] asks for one. *)
Definition pageReady (bHeader : bool) (s : State) : Prop :=
  ready s = true /\ (bHeader = true -> exists_ (header s) = true).

(** A pinned header sits in the title area. *)
Definition pinnedInTitleArea (s : State) : Prop :=
  _bPinned s = true -> _bHeaderInTitleArea s = true.

(** Nothing of the "fake" scroll bar: no scroll bar, no class for it,
    neither reentrancy flag armed. *)
Definition noScrollBar (s : State) : Prop :=
  _scrollBar s = None /\ clsWithScroll s = false
  /\ allowInnerDiv s = false /\ allowCustomScroll s = false.

(** The delayed calls that write to the cached DOM of the page. *)
Definition isDomTask (p : Z * Task) : bool :=
  match snd p with
  | T_updateScrollBarOffset | T_updateFitContainer => true
  | _ => false
  end.

(** A delayed call that writes to the cached DOM is pending only on a
    page that has been rendered. *)
Definition domTasksNeedDom (s : State) : Prop :=
  existsb isDomTask (pending s) = true -> exists_ (dom s) = true.

(** The registrations of the control and of the others are in order:
    what the others registered (the ids below [next]) is [others]; every
    id from [next] on is registered as often as the control holds it, at
    most once; the ids the control holds were handed out to it. *)
Definition handlersConsistent (others : list (nat * Resize.Target))
    (next : nat) (h : Resize.Handlers) : Prop :=
  Resize.below next (Resize.registered h) = others
  /\ (forall i, (next <= i)%nat ->
        Resize.registeredCount i h = Resize.heldCount i h)
  /\ (forall i, (Resize.heldCount i h <= 1)%nat)
  /\ (forall k i, Resize.slot k h = Some i ->
        (next <= i < Resize.nextId h)%nat)
  /\ (forall r, In r (Resize.registered h) ->
        (fst r < Resize.nextId h)%nat)
  /\ (next <= Resize.nextId h)%nat.

(** ** Further scenarios *)

(** The rendered page of [renderedAt], snapped. *)
Definition snappedPageAt (top : Z) : State :=
  set_dom (Some (set_titleSnapped true (set_wrapperScrollTop top freshDom)))
    (set_headerExpanded false (renderedAt top)).

(** The rendered page of [renderedAt] with the wrapper of the footer
    cached. *)
Definition readyPage : State :=
  set_dom (Some (set_footerWrapperCached true freshDom)) (renderedAt 0).

(** The header of [renderedAt]. *)
Definition renderedHeader : Header := set_hdom (Some freshHeaderDom) plainHeader.

(** On a tablet a page whose header takes 70% of the height, made
    always-expanded and rendered; the delayed check has not run yet. *)
Definition beforeOverride : State :=
  run tabletDevice false (fixedLayout geoSeventyPercent)
    [EvSetHeader (Some plainHeader); EvSetHeaderAlwaysExpanded true;
     EvRendered freshDom freshHeaderDom] initial.

(** ** Properties *)

(** Tactics: unfolding the monad and splitting on the conditions. *)

Ltac unfold_monad :=
  unfold andM, notM, when, getTitle, getHeader, getFooter, getHeaderExpanded,
    getShowFooter, log_debug, log_debugN, log_warning, delayedCall,
    Header_call, Dom_call, header_moveTo,
    Title_setShowExpandContent, Title_setShowSnapContent,
    Header_setShowPinBtn, Header_togglePinButton, Header_updateARIAState,
    ScrollBar_setScrollPosition, ScrollBar_setContentSize,
    ScrollBar_toggleHidden, bind, ret, gets, modify, throw in *.

Ltac unfold_updates :=
  unfold upd_title, upd_header, upd_footer, upd_scrollBar, upd_dom, upd_hdom,
    add_log in *.

Ltac split_on c :=
  lazymatch c with
  | negb ?x => split_on x
  | ?x && _ => split_on x
  | ?x || _ => split_on x
  | exists_ ?x => split_on x
  | _ => tryif is_var c then destruct c else destruct c eqn:?
  end.

Ltac break_match :=
  match goal with
  | |- context [if ?c then _ else _] => split_on c
  | |- context [match ?c with Some _ => _ | None => _ end] => split_on c
  end.

Ltac destruct_state s :=
  destruct s as [s_alwaysExpanded s_expanded s_showFooter s_pinned
                 s_inTitleArea s_withAClick s_bigger s_innerDiv s_customScroll
                 s_title s_header s_footer s_scrollBar s_dom s_withScroll
                 s_media s_log s_pending];
  simpl in *; subst.

Ltac crush :=
  repeat (simpl; try discriminate; try congruence; break_match);
  simpl; try discriminate; try congruence; auto;
  try solve [intuition (auto; congruence)].

(** *** Equations of the monad *)

Lemma final_bind {A B : Type} (m : M A) (k : A -> M B) (s : State) :
  final (bind m k s)
  = match m s with
    | Ok a s' => final (k a s')
    | Throw s' => s'
    end.
Proof. unfold bind. destruct (m s); reflexivity. Qed.

Lemma final_bind_gets {A B : Type} (f : State -> A) (k : A -> M B)
    (s : State) :
  final (bind (gets f) k s) = final (k (f s) s).
Proof. reflexivity. Qed.

Lemma bind_gets_eq {A B : Type} (f : State -> A) (k : A -> M B) (s : State) :
  bind (gets f) k s = k (f s) s.
Proof. reflexivity. Qed.

Lemma bind_ok_eq {A B : Type} (m : M A) (k : A -> M B) (s s' : State)
    (a : A) :
  m s = Ok a s' -> bind m k s = k a s'.
Proof. intros H. unfold bind. now rewrite H. Qed.

(** *** Composing what a computation keeps *)

Section Keeps.

Context {K : Type} (I : State -> Prop) (key : State -> K).

Lemma keeps_ret {A : Type} (a : A) : keeps I key (ret a).
Proof. intros s H. simpl. auto. Qed.

Lemma keeps_gets {A : Type} (f : State -> A) : keeps I key (gets f).
Proof. intros s H. simpl. auto. Qed.

Lemma keeps_throw {A : Type} : keeps I key (@throw A).
Proof. intros s H. simpl. auto. Qed.

Lemma keeps_modify (f : State -> State) :
  (forall s, I s -> I (f s) /\ key (f s) = key s) -> keeps I key (modify f).
Proof. intros Hf s H. simpl. auto. Qed.

Lemma keeps_bind {A B : Type} (m : M A) (k : A -> M B) :
  keeps I key m -> (forall a, keeps I key (k a)) -> keeps I key (bind m k).
Proof.
  intros Hm Hk s H. unfold bind.
  destruct (Hm s H) as [HI Hkey].
  destruct (m s) as [a s'|s']; simpl in *.
  - destruct (Hk a s' HI) as [HI' Hkey']. split; [exact HI'|].
    now rewrite Hkey'.
  - auto.
Qed.

Lemma keeps_bind_gets {A B : Type} (f : State -> A) (k : A -> M B) :
  (forall s0, I s0 -> keeps I key (k (f s0))) ->
  keeps I key (bind (gets f) k).
Proof. intros H s Hs. unfold bind, gets. exact (H s Hs s Hs). Qed.

Lemma keeps_bind_gets_at {A B : Type} (f : State -> A) (k : A -> M B) :
  (forall s, I s ->
     I (final (k (f s) s)) /\ key (final (k (f s) s)) = key s) ->
  keeps I key (bind (gets f) k).
Proof. intros H s Hs. unfold bind, gets. exact (H s Hs). Qed.

Lemma keeps_when (c : bool) (m : M unit) :
  keeps I key m -> keeps I key (when c m).
Proof. intros Hm. destruct c; simpl; [exact Hm | apply keeps_ret]. Qed.

End Keeps.

Lemma keeps_weaken {A K : Type} (I : State -> Prop) (key : State -> K)
    (m : M A) :
  keeps always key m ->
  (forall s s', key s' = key s -> I s -> I s') ->
  keeps I (fun _ => tt) m.
Proof.
  intros Hm HI s Hs. destruct (Hm s Logic.I) as [_ Hk].
  split; [exact (HI _ _ Hk Hs) | reflexivity].
Qed.

(** *** Composing computations that never raise *)

Lemma safe_ret {A : Type} (a : A) : safe (ret a).
Proof. intros s. reflexivity. Qed.

Lemma safe_gets {A : Type} (f : State -> A) : safe (gets f).
Proof. intros s. reflexivity. Qed.

Lemma safe_modify (f : State -> State) : safe (modify f).
Proof. intros s. reflexivity. Qed.

Lemma safe_bind {A B : Type} (m : M A) (k : A -> M B) :
  safe m -> (forall a, safe (k a)) -> safe (bind m k).
Proof.
  intros Hm Hk s. unfold bind. specialize (Hm s).
  destruct (m s) as [a s'|s']; [apply Hk | discriminate].
Qed.

Lemma safe_when (c : bool) (m : M unit) : safe m -> safe (when c m).
Proof. intros Hm. destruct c; simpl; [exact Hm | apply safe_ret]. Qed.

Create HintDb keeps.

Ltac head_of t :=
  lazymatch t with
  | ?f _ => head_of f
  | _ => t
  end.

Ltac keeps_leaf :=
  let s := fresh "s" in
  let H := fresh "H" in
  intros s H; destruct_state s; unfold_updates;
  unfold always, overrideSettled, scheduledOverrides, armed, alwaysMode,
    domExists, warnings in *;
  simpl in *;
  rewrite ?filter_app, ?length_app in *; simpl in *;
  rewrite ?app_nil_r in *; crush;
  repeat split; simpl; auto; try lia; intuition (auto; lia).

Ltac keeps_step :=
  lazymatch goal with
  | |- keeps _ _ (bind _ _) => apply keeps_bind; [ | intros ? ]
  | |- keeps _ _ (ret _) => apply keeps_ret
  | |- keeps _ _ (gets _) => apply keeps_gets
  | |- keeps _ _ throw => apply keeps_throw
  | |- keeps _ _ (modify _) => apply keeps_modify; solve [keeps_leaf]
  | |- keeps _ _ (when _ _) => apply keeps_when
  | |- keeps _ _ (if ?c then _ else _) => destruct c
  | |- keeps _ _ (match ?c with _ => _ end) => destruct c
  | |- keeps _ _ ?m =>
      first [ solve [auto with keeps]
            | let h := head_of m in unfold h ]
  end.

Ltac keeps_auto := repeat keeps_step.

Ltac safe_step :=
  lazymatch goal with
  | |- safe (bind _ _) => apply safe_bind; [ | intros ? ]
  | |- safe (ret _) => apply safe_ret
  | |- safe (gets _) => apply safe_gets
  | |- safe (modify _) => apply safe_modify
  | |- safe (when _ _) => apply safe_when
  | |- safe (if ?c then _ else _) => destruct c
  | |- safe (match ?c with _ => _ end) => destruct c
  | |- safe ?m => let h := head_of m in unfold h
  end.

Ltac safe_auto := repeat (simpl; safe_step).

Section Properties.

Variable Device : DeviceSystem.
Variable bUseAnimations : bool.
Variable layout : State -> Geometry.

(** *** C10: setHeaderAlwaysExpanded(true) expands *)

(** C10. After [setHeaderAlwaysExpanded(true)], [getHeaderExpanded()]
    returns [true], whatever the state before the call: the setter writes
    both properties. *)
Theorem setHeaderAlwaysExpanded_true_expands (s : State) :
  (setHeaderAlwaysExpanded true ;; getHeaderExpanded) s
  = Ok true (set_headerExpanded true (set_headerAlwaysExpanded true s)).
Proof. reflexivity. Qed.

(** *** C9: _unPin *)

(** C9. [_unPin] does nothing on a header that is not pinned; on a pinned
    one it clears [_bPinned] and tells the header the new state of the pin
    button, and nothing else: [_bHeaderInTitleArea], [headerExpanded], the
    title, the cached DOM with its classes and the DOM node of the header
    are as before. *)
Theorem unPin_frame (s : State) :
  let s' := final (_unPin s) in
  s' = (if _bPinned s
        then upd_header (set_ariaPinned false) (set_bPinned false s)
        else s)
  /\ _bPinned s' = false
  /\ _bHeaderInTitleArea s' = _bHeaderInTitleArea s
  /\ headerExpanded s' = headerExpanded s
  /\ title s' = title s
  /\ dom s' = dom s
  /\ option_map hdom (header s') = option_map hdom (header s)
  /\ clsWithScroll s' = clsWithScroll s
  /\ _scrollBar s' = _scrollBar s.
Proof.
  unfold _unPin. unfold_monad. unfold upd_header.
  destruct (_bPinned s) eqn:E; simpl; [|now rewrite E].
  destruct (header s) eqn:Eh; simpl; rewrite ?Eh; simpl; repeat split; auto.
Qed.

(** *** C5: the command toggle with a header taller than the control *)

(** C5. When the title and the header together are higher than the
    control, [_titleExpandCollapseWhenAllowed] logs its warning and
    returns: the state after the call is the state before it with that
    one warning appended to the log. *)
Theorem titleToggle_too_tall_aborts (s : State) :
  _headerBiggerThanAllowedToExpandWithACommand layout s = true ->
  _titleExpandCollapseWhenAllowed Device layout s
  = Ok tt (add_log (LogWarning msgNoSpace) s).
Proof.
  intros H. unfold _titleExpandCollapseWhenAllowed. unfold_monad.
  rewrite H. reflexivity.
Qed.

(** *** C7: the maximum scroll position *)

Lemma Qceiling_le_iff (x : Q) (n : Z) :
  Qceiling x <= n <-> (x <= inject_Z n)%Q.
Proof.
  split; intros H.
  - apply Qle_trans with (inject_Z (Qceiling x)).
    + apply Qle_ceiling.
    + rewrite <- Zle_Qle. exact H.
  - rewrite <- (Qceiling_Z n). apply Qceiling_resp_le. exact H.
Qed.

(** C7 (amended). [_getMaxScrollPosition] is 0 while no wrapper is cached
    and otherwise the scroll height minus the rounded-up height of the
    viewport, as it comes: nothing clamps the difference, which is
    non-negative exactly when the viewport is not higher than the
    content. *)
Theorem getMaxScrollPosition_spec (s : State) :
  _getMaxScrollPosition layout s
  = (if exists_ (dom s)
     then wrapperScrollHeight (layout s) - Qceiling (wrapperRectHeight (layout s))
     else 0)
  /\ (0 <= _getMaxScrollPosition layout s
      <-> dom s = None
          \/ (wrapperRectHeight (layout s)
              <= inject_Z (wrapperScrollHeight (layout s)))%Q).
Proof.
  split; [reflexivity|].
  unfold _getMaxScrollPosition.
  destruct (dom s) as [d|]; simpl.
  - rewrite <- Qceiling_le_iff. split.
    + intros H. right. lia.
    + intros [H|H]; [discriminate | lia].
  - split; [now left | lia].
Qed.

(** *** C8: scrolling past the snapping height *)

(** C8. An expanded header that is neither pinned nor always expanded
    snaps as soon as the scroll position is one pixel above the snapping
    height: with a title area to work on (the "title" the source
    checks for), [_toggleHeader] returns with [headerExpanded] set to
    [false] and the class sapFDynamicPageTitleSnapped on the title area. *)
Theorem toggleHeader_snaps_above_snapping_height
    (s s1 : State) (pos : Z) (d : Dom) :
  headerExpanded s = true ->
  _bPinned s = false ->
  headerAlwaysExpanded s = false ->
  dom s = Some d ->
  _getScrollPosition Device s = Ok pos s1 ->
  pos = _getSnappingHeight layout s1 + 1 ->
  let r := _toggleHeader Device layout s in
  returns r = true
  /\ headerExpanded (final r) = false
  /\ option_map titleSnapped (dom (final r)) = Some true.
Proof.
  intros Hexp Hpin Hal Hdom Hpos Habove.
  assert (Hgt : (pos >? _getSnappingHeight layout s1) = true)
    by (apply Z.gtb_lt; lia).
  clear Habove. revert Hpos Hgt.
  unfold _toggleHeader, _shouldSnap, scrollPositionAbove, _getScrollPosition,
    _getScrollBar, _headerAlwaysExpanded, _snapHeader, _updateHeaderARIAState,
    _moveHeaderToContentArea.
  unfold_monad.
  destruct_state s. destruct Device as [[|] ph]; simpl.
  - destruct s_scrollBar; intros Hpos; inversion Hpos; subst; intros Hgt;
      simpl in *; rewrite Hgt;
      unfold upd_title, upd_header, upd_dom, upd_hdom, add_log; crush.
  - intros Hpos; inversion Hpos; subst; intros Hgt;
      simpl in *; rewrite Hgt;
      unfold upd_title, upd_header, upd_dom, upd_hdom, add_log; crush.
Qed.

(** *** C1: a pinned header *)

(** C1 (amended). While the header is pinned, the scroll-driven
    evaluation changes nothing (at most the scroll bar is created),
    [_snapHeader] only logs that it gave up, and the command toggle never
    snaps: it leaves [headerExpanded] and the snapped class as they are,
    unless the header was snapped, in which case it may expand it.
    [_expandHeader] has no guard on [_bPinned]: with a title area it sets
    [headerExpanded] and removes the snapped class. *)
Theorem pinned_blocks_snap (s : State) (b : bool) :
  _bPinned s = true ->
  (let s' := final (_toggleHeader Device layout s) in
   s' = s \/ s' = set_scrollBar (Some newScrollBar) s)
  /\ _snapHeader b s = Ok tt (add_log (LogDebug msgPinned) s)
  /\ (let s' := final (_titleExpandCollapseWhenAllowed Device layout s) in
      _bPinned s' = true
      /\ ((headerExpanded s' = headerExpanded s
           /\ snappedClass s' = snappedClass s)
          \/ (headerExpanded s = false
              /\ headerExpanded s' = true /\ snappedClass s' = false)))
  /\ (let s' := final (_expandHeader b s) in
      _bPinned s' = true
      /\ headerExpanded s' = (exists_ (dom s) || headerExpanded s)
      /\ snappedClass s' = false).
Proof.
  intros Hpin. split; [|split; [|split]].
  - unfold _toggleHeader, _shouldSnap, _shouldExpand, scrollPositionAbove,
      scrollPositionBelow, _getScrollPosition, _getScrollBar.
    unfold_monad. destruct_state s. crush.
  - unfold _snapHeader. unfold_monad. rewrite Hpin. reflexivity.
  - unfold _titleExpandCollapseWhenAllowed, _snapHeader, _expandHeader,
      _toggleHeaderVisibility, _moveHeaderToTitleArea, _headerSnapAllowed,
      snappedClass.
    unfold_monad. destruct_state s.
    unfold upd_title, upd_header, upd_dom, upd_hdom, add_log. crush.
  - unfold _expandHeader, _moveHeaderToTitleArea, snappedClass. unfold_monad.
    destruct_state s.
    unfold upd_title, upd_header, upd_dom, upd_hdom, add_log. crush.
Qed.

(** *** C3: the override of headerAlwaysExpanded *)

Lemma filter_remove_nth_length {A : Type} (f : A -> bool) (n : nat)
    (l : list A) :
  (List.length (filter f (remove_nth n l)) <= List.length (filter f l))%nat.
Proof.
  revert n. induction l as [|x l IH]; intros [|n]; simpl; auto.
  - destruct (f x); simpl; auto.
  - specialize (IH n). destruct (f x); simpl; lia.
Qed.

Lemma nth_error_filter_length {A : Type} (f : A -> bool) (n : nat)
    (l : list A) (x : A) :
  nth_error l n = Some x -> f x = true ->
  List.length (filter f l) <> 0%nat.
Proof.
  intros Hn Hf. apply nth_error_In in Hn.
  assert (Hin : In x (filter f l)) by (apply filter_In; auto).
  destruct (filter f l); [contradiction | discriminate].
Qed.

Lemma settled_not_always (s : State) :
  overrideSettled s -> _headerAlwaysExpanded s = false.
Proof.
  intros [H _]. unfold _headerAlwaysExpanded. rewrite H.
  apply andb_false_r.
Qed.

(** Once the override is settled, every event leaves it settled. *)
Lemma settled_kept (e : Event) :
  keeps overrideSettled (fun _ => tt)
    (handle Device bUseAnimations layout e).
Proof.
  destruct e; simpl.
  1-6, 8-14: keeps_auto.
  - (* rendering: no new check is scheduled *)
    apply keeps_bind; [keeps_auto | intros _].
    unfold onAfterRendering. apply keeps_bind_gets. intros s0 Hs0.
    rewrite (settled_not_always _ Hs0). simpl. keeps_auto.
  - (* a timer: the task it runs is not the override check *)
    apply keeps_bind_gets. intros s0 Hs0.
    destruct (nth_error (pending s0) n) as [[d t]|] eqn:E; [|keeps_auto].
    apply keeps_bind.
    + apply keeps_modify. intros s [Hf Hn]. repeat split; auto.
      unfold scheduledOverrides in *. simpl.
      pose proof (filter_remove_nth_length isOverride n (pending s0)).
      destruct Hs0 as [_ Hs0]. unfold scheduledOverrides in Hs0. lia.
    + intros _. destruct t; try keeps_auto.
      exfalso. destruct Hs0 as [_ Hs0].
      now apply (nth_error_filter_length isOverride n (pending s0) _ E).
Qed.

Lemma override_sets_flag_to_its_check (s : State) :
  _headerBiggerThanAllowedHeight
    (final (_overrideHeaderAlwaysExpanded Device layout s))
  = _shouldOverrideHeaderAlwaysExpanded Device layout s.
Proof.
  unfold _overrideHeaderAlwaysExpanded. rewrite final_bind_gets.
  destruct (_shouldOverrideHeaderAlwaysExpanded Device layout s);
    cbn [negb]; cbv iota; [|reflexivity].
  rewrite final_bind. simpl.
  assert (K : keeps always _headerBiggerThanAllowedHeight
                (_moveHeaderToContentArea;; _updateScrollBar Device layout))
    by keeps_auto.
  apply (K (set_headerBiggerThanAllowedHeight true s) Logic.I).
Qed.

(** C3 (amended). Once the check has set
    [_headerBiggerThanAllowedHeight] and no further check is pending, the
    flag stays set whatever happens to the control: no event resets it,
    and no event schedules a new check.  A check that does run writes its
    own result into the flag. *)
Theorem override_stays_once_settled (es : list Event) (s : State) :
  _headerBiggerThanAllowedHeight s = true ->
  scheduledOverrides s = 0%nat ->
  _headerBiggerThanAllowedHeight (run Device bUseAnimations layout es s) = true
  /\ scheduledOverrides (run Device bUseAnimations layout es s) = 0%nat
  /\ (forall s0,
        _headerBiggerThanAllowedHeight
          (final (_overrideHeaderAlwaysExpanded Device layout s0))
        = _shouldOverrideHeaderAlwaysExpanded Device layout s0).
Proof.
  intros Hf Hn. assert (H : overrideSettled s) by (split; assumption).
  clear Hf Hn.
  assert (Hrun : overrideSettled (run Device bUseAnimations layout es s)).
  { revert s H. induction es as [|e es IH]; intros s H; simpl.
    - exact H.
    - apply IH. unfold step. destruct (enabled e s); [|exact H].
      apply (settled_kept e s H). }
  destruct Hrun as [H1 H2]. split; [exact H1|]. split; [exact H2|].
  exact override_sets_flag_to_its_check.
Qed.

(** *** C6: the reentrancy flags of the two scroll handlers *)

Lemma bothArmed_of_armed (s s' : State) :
  armed s' = armed s -> bothArmed s = false -> bothArmed s' = false.
Proof.
  unfold armed, bothArmed. intros H. inversion H as [[H1 H2]].
  now rewrite H1, H2.
Qed.

Lemma toggleHeader_keeps_armed :
  keeps always armed (_toggleHeader Device layout).
Proof. keeps_auto. Qed.

(** The part of [_onWrapperScroll] that runs on desktop, for an event
    that reports a position below the top of the content. *)
Lemma onWrapperScroll_not_both (scrollTop : Z) :
  (scrollTop >? 0) = true ->
  keeps (fun s => bothArmed s = false) (fun _ => tt)
    (_onWrapperScroll Device layout scrollTop).
Proof.
  intros Htop. unfold _onWrapperScroll.
  apply keeps_bind; [apply keeps_gets | intros b].
  apply keeps_bind.
  - apply keeps_when.
    apply (keeps_weaken _ armed); [exact toggleHeader_keeps_armed|].
    intros s s'. apply bothArmed_of_armed.
  - intros _. apply keeps_when. apply keeps_bind_gets_at. intros s Hs.
    rewrite Htop, andb_true_r. split; [|reflexivity].
    unfold _getScrollBar. unfold_monad. unfold bothArmed in *.
    destruct_state s. unfold_updates. crush.
    now rewrite andb_false_r.
Qed.

(** [_onScrollBarScroll] either consumes [allowInnerDiv] or finds it
    unarmed and arms [allowCustomScroll]. *)
Lemma onScrollBarScroll_not_both :
  keeps (fun s => bothArmed s = false) (fun _ => tt)
    (_onScrollBarScroll Device layout).
Proof.
  unfold _onScrollBarScroll.
  apply keeps_bind.
  - apply (keeps_weaken _ armed); [exact toggleHeader_keeps_armed|].
    intros s s'. apply bothArmed_of_armed.
  - intros _. apply keeps_bind_gets_at. intros s Hs.
    split; [|reflexivity].
    unfold _getScrollBar. unfold_monad. unfold bothArmed in *.
    destruct_state s. unfold_updates. crush.
Qed.

Lemma step_not_both (e : Event) (s : State) :
  notAtTop e = true ->
  bothArmed s = false ->
  bothArmed (step Device bUseAnimations layout e s) = false.
Proof.
  intros He Hs. unfold step. destruct (enabled e s); [|exact Hs].
  assert (K : keeps (fun s => bothArmed s = false) (fun _ => tt)
                (handle Device bUseAnimations layout e)).
  { destruct e; simpl in *.
    1-10, 13-15:
      (apply (keeps_weaken _ armed);
       [keeps_auto | intros s1 s2; apply bothArmed_of_armed]).
    - apply keeps_bind; [|intros _; now apply onWrapperScroll_not_both].
      apply (keeps_weaken _ armed);
        [keeps_auto | intros s1 s2; apply bothArmed_of_armed].
    - apply keeps_bind; [|intros _; apply onScrollBarScroll_not_both].
      apply (keeps_weaken _ armed);
        [keeps_auto | intros s1 s2; apply bothArmed_of_armed]. }
  apply (K s Hs).
Qed.
Lemma toggleHeader_safe_on_desktop :
  desktop Device = true -> safe (_toggleHeader Device layout).
Proof.
  intros H. destruct Device as [dk ph]. simpl in H. subst dk. safe_auto.
Qed.

Lemma scrollBarScroll_consumes (s : State) :
  desktop Device = true ->
  allowInnerDiv (final (_onScrollBarScroll Device layout s)) = false.
Proof.
  intros Hd. unfold _onScrollBarScroll. rewrite final_bind.
  pose proof (toggleHeader_safe_on_desktop Hd s) as Hsafe.
  destruct (_toggleHeader Device layout s) as [u s2|s2]; [|discriminate].
  unfold _getScrollBar. unfold_monad.
  destruct_state s2. unfold_updates. crush.
Qed.

Lemma wrapperScroll_consumes (scrollTop : Z) (s : State) :
  desktop Device = true ->
  scrollTop > 0 ->
  allowCustomScroll (final (_onWrapperScroll Device layout scrollTop s))
  = false.
Proof.
  intros Hd Htop.
  assert (Htop' : (scrollTop >? 0) = true) by (apply Z.gtb_lt; lia).
  unfold _onWrapperScroll. rewrite final_bind. simpl. rewrite final_bind.
  rewrite Hd. simpl.
  assert (Htail : forall s2,
    allowCustomScroll
      (final
         ((bAllowCustomScroll <- gets allowCustomScroll;;
           (if bAllowCustomScroll && (scrollTop >? 0)
            then modify (set_allowCustomScroll false)
            else
              modify (set_allowInnerDiv true);;
              _getScrollBar;;
              ScrollBar_setScrollPosition scrollTop;;
              b <- gets (_needsVerticalScrollBar layout);;
              modify (set_clsWithScroll b))) s2)) = false).
  { intros s2. rewrite Htop'. unfold _getScrollBar. unfold_monad.
    destruct_state s2. unfold_updates. crush. }
  destruct (_bExpandingWithAClick s); simpl.
  - apply Htail.
  - pose proof (toggleHeader_safe_on_desktop Hd s) as Hsafe.
    destruct (_toggleHeader Device layout s) as [u s2|s2]; [|discriminate].
    apply Htail.
Qed.

(** C6 (amended). While every scroll event of the wrapper reports a
    position below the top ([scrollTop > 0]), the two flags are never
    armed together, whatever events are interleaved; on desktop a scroll
    event of the scroll bar always leaves [allowInnerDiv] consumed, and a
    scroll event of the wrapper with [scrollTop > 0] leaves
    [allowCustomScroll] consumed. *)
Theorem scroll_flags_armed_one_at_a_time (es : list Event) (s : State) :
  bothArmed s = false ->
  forallb notAtTop es = true ->
  bothArmed (run Device bUseAnimations layout es s) = false
  /\ (desktop Device = true ->
      forall pos s0,
        exists_ (_scrollBar s0) = true ->
        allowInnerDiv
          (step Device bUseAnimations layout (EvScrollBarScroll pos) s0)
        = false)
  /\ (desktop Device = true ->
      forall top s0,
        top > 0 ->
        exists_ (dom s0) = true ->
        allowCustomScroll
          (step Device bUseAnimations layout (EvWrapperScroll top) s0)
        = false).
Proof.
  intros Hs Hes. split; [|split].
  - revert s Hs Hes. induction es as [|e es IH]; intros s Hs Hes; simpl.
    + exact Hs.
    + simpl in Hes. apply andb_true_iff in Hes. destruct Hes as [He Hes].
      apply IH; [|exact Hes]. now apply step_not_both.
  - intros Hd pos s0 Hen. unfold step. simpl. rewrite Hen.
    rewrite final_bind. simpl. now apply scrollBarScroll_consumes.
  - intros Hd top s0 Htop Hen. unfold step. simpl. rewrite Hen.
    rewrite final_bind. simpl. now apply wrapperScroll_consumes.
Qed.

(** *** C2: the always-expanded mode *)

Lemma measure_keeps_mode :
  keeps alwaysMode headerExpanded (_measureScrollBarOffsetHeight Device layout).
Proof.
  intros s Hs. unfold alwaysMode in *.
  unfold _measureScrollBarOffsetHeight. unfold_monad. rewrite Hs. simpl.
  auto.
Qed.

Lemma toggleHeader_keeps_mode :
  keeps alwaysMode headerExpanded (_toggleHeader Device layout).
Proof.
  intros s Hs. unfold alwaysMode in *.
  unfold _toggleHeader, _shouldSnap, _shouldExpand, _moveHeaderToContentArea.
  unfold_monad. rewrite Hs. simpl.
  unfold _headerAlwaysExpanded in *. destruct_state s. unfold_updates. crush.
Qed.

#[local] Hint Resolve measure_keeps_mode toggleHeader_keeps_mode : keeps.

Lemma updateScrollBar_off_desktop (s : State) :
  desktop Device = false -> _updateScrollBar Device layout s = Ok tt s.
Proof. intros H. unfold _updateScrollBar. unfold_monad. now rewrite H. Qed.

Lemma updateScrollBar_off_desktop_keeps {K : Type} (I : State -> Prop)
    (key : State -> K) :
  desktop Device = false -> keeps I key (_updateScrollBar Device layout).
Proof.
  intros Hd s Hs. rewrite updateScrollBar_off_desktop by exact Hd.
  simpl. auto.
Qed.

Lemma override_keeps_expanded :
  keeps always headerExpanded (_overrideHeaderAlwaysExpanded Device layout).
Proof.
  unfold _overrideHeaderAlwaysExpanded.
  apply keeps_bind_gets_at. intros s _.
  destruct (_shouldOverrideHeaderAlwaysExpanded Device layout s) eqn:E;
    simpl; [|split; [exact Logic.I | reflexivity]].
  assert (Hd : desktop Device = false).
  { unfold _shouldOverrideHeaderAlwaysExpanded in E.
    destruct (desktop Device); [discriminate | reflexivity]. }
  assert (K : keeps always headerExpanded
                (modify (set_headerBiggerThanAllowedHeight true);;
                 _moveHeaderToContentArea;;
                 _updateScrollBar Device layout)).
  { apply keeps_bind; [keeps_auto | intros _].
    apply keeps_bind; [keeps_auto | intros _].
    now apply updateScrollBar_off_desktop_keeps. }
  exact (K s Logic.I).
Qed.

Lemma snapHeader_snaps (b : bool) (s : State) :
  _bPinned s = false ->
  exists_ (dom s) = true ->
  exists s1,
    _snapHeader b s = Ok tt s1
    /\ headerExpanded s1 = false
    /\ _headerAlwaysExpanded s1 = _headerAlwaysExpanded s.
Proof.
  intros Hp Hd. unfold _snapHeader, _moveHeaderToContentArea. unfold_monad.
  unfold _headerAlwaysExpanded. destruct_state s. unfold_updates.
  destruct s_dom as [d|]; [|discriminate].
  destruct s_title as [t|]; simpl.
  - destruct (expandedContent t), (snappedContent t), b, s_header;
      simpl; eexists; repeat split.
  - eexists; repeat split.
Qed.

(** C2 (amended). While [headerAlwaysExpanded] is set and
    [_headerBiggerThanAllowedHeight] is not, an expanded header stays
    expanded under every event except the command-triggered toggle (a
    press on the title, [setHeaderExpanded]); that toggle snaps it when it
    is not pinned, fits in the control and has a title area. *)
Theorem alwaysExpanded_only_command_snaps (e : Event) (s : State) :
  _headerAlwaysExpanded s = true ->
  headerExpanded s = true ->
  (isCommandToggle e = false ->
   headerExpanded (step Device bUseAnimations layout e s) = true)
  /\ (_bPinned s = false ->
      exists_ (dom s) = true ->
      _headerBiggerThanAllowedToExpandWithACommand layout s = false ->
      headerExpanded (final (_titleExpandCollapseWhenAllowed Device layout s))
      = false).
Proof.
  intros Hc He. split.
  - intros Hcmd. unfold step. destruct (enabled e s); [|exact He].
    rewrite <- He.
    destruct e; try discriminate Hcmd; clear Hcmd; simpl handle.
    1-4, 6-12:
      match goal with
      | |- headerExpanded (final (?m ?s0)) = _ =>
          assert (K : keeps alwaysMode headerExpanded m) by keeps_auto;
          apply (K s0 Hc)
      end.
    + (* setHeaderAlwaysExpanded *)
      destruct b; simpl; [symmetry; exact He | reflexivity].
    + (* a timer *)
      rewrite final_bind. simpl.
      destruct (nth_error (pending s) n) as [[d t]|]; [|reflexivity].
      rewrite final_bind. simpl.
      assert (Hc' : alwaysMode (set_pending (remove_nth n (pending s)) s))
        by exact Hc.
      destruct t; simpl runTask;
        match goal with
        | |- headerExpanded (final (_overrideHeaderAlwaysExpanded _ _ ?s1)) = _ =>
            apply (override_keeps_expanded s1 Logic.I)
        | |- headerExpanded (final (?m ?s1)) = _ =>
            assert (K : keeps alwaysMode headerExpanded m) by keeps_auto;
            apply (K s1 Hc')
        end.
  - intros Hp Hd Hfit.
    unfold _titleExpandCollapseWhenAllowed, getHeaderExpanded.
    rewrite final_bind_gets. cbv beta. rewrite Hfit. cbv iota.
    rewrite final_bind_gets. cbv beta. rewrite Hc. cbn [orb].
    rewrite final_bind_gets. cbv beta. rewrite He. cbn [negb]. cbv iota.
    rewrite final_bind.
    destruct (snapHeader_snaps false s Hp Hd) as (s1 & -> & He1 & Hc1).
    assert (K : keeps alwaysMode headerExpanded
                  (_toggleHeaderVisibility Device layout false))
      by keeps_auto.
    destruct (K s1) as [_ ->]; [|exact He1].
    unfold alwaysMode. now rewrite Hc1.
Qed.

(** *** C4: attempts that end with a warning *)

Lemma snapHeader_keeps_warnings (b : bool) :
  keeps domExists warnings (_snapHeader b).
Proof.
  intros s Hs. unfold domExists, warnings in *.
  unfold _snapHeader, _moveHeaderToContentArea. unfold_monad.
  destruct_state s. unfold_updates.
  destruct s_dom; [|discriminate].
  crush; repeat (rewrite filter_app; simpl); rewrite ?app_nil_r; auto.
Qed.

Lemma expandHeader_keeps_warnings (b : bool) :
  keeps domExists warnings (_expandHeader b).
Proof.
  intros s Hs. unfold domExists, warnings in *.
  unfold _expandHeader, _moveHeaderToTitleArea. unfold_monad.
  destruct_state s. unfold_updates.
  destruct s_dom; [|discriminate].
  crush; repeat (rewrite filter_app; simpl); rewrite ?app_nil_r; auto.
Qed.

#[local] Hint Resolve snapHeader_keeps_warnings expandHeader_keeps_warnings
  : keeps.

Lemma headerScrolledOut_cases (s : State) :
  domExists s ->
  exists b s1,
    _headerScrolledOut Device layout s = Ok b s1
    /\ (s1 = s \/ s1 = set_scrollBar (Some newScrollBar) s).
Proof.
  unfold domExists, _headerScrolledOut, scrollPositionAbove,
    _getScrollPosition, _getScrollBar.
  unfold_monad. intros Hd.
  destruct (desktop Device).
  - destruct (_scrollBar s); simpl; eauto.
  - destruct (dom s); [|discriminate]. simpl. eauto.
Qed.

Lemma command_toggle_cases (s : State) :
  domExists s ->
  let r := _titleExpandCollapseWhenAllowed Device layout s in
  r = Ok tt (add_log (LogWarning msgNoSpace) s)
  \/ (exists s1,
        (s1 = s \/ s1 = set_scrollBar (Some newScrollBar) s)
        /\ r = Ok tt (add_log (LogWarning msgNoContent) s1))
  \/ warnings (final r) = warnings s.
Proof.
  intros Hd. cbv zeta.
  unfold _titleExpandCollapseWhenAllowed, getHeaderExpanded.
  rewrite bind_gets_eq. cbv beta.
  destruct (_headerBiggerThanAllowedToExpandWithACommand layout s);
    [left; reflexivity|].
  right.
  rewrite bind_gets_eq. cbv beta. rewrite bind_gets_eq. cbv beta.
  destruct (_headerAlwaysExpanded s || negb (_needsVerticalScrollBar layout s)),
    (headerExpanded s); cbn [negb]; cbv iota.
  - right.
    assert (K : keeps domExists warnings
                  (_snapHeader false;;
                   _toggleHeaderVisibility Device layout false))
      by keeps_auto.
    apply (K s Hd).
  - right.
    assert (K : keeps domExists warnings
                  (_expandHeader false;;
                   _toggleHeaderVisibility Device layout true))
      by keeps_auto.
    apply (K s Hd).
  - rewrite bind_gets_eq. cbv beta.
    destruct (_headerSnapAllowed s); [|right; reflexivity].
    unfold when.
    destruct (headerScrolledOut_cases s Hd) as (b & s1 & E & Hs1).
    rewrite (bind_ok_eq _ _ _ _ _ E).
    assert (Hd1 : domExists s1) by (destruct Hs1 as [->| ->]; exact Hd).
    assert (Hw1 : warnings s1 = warnings s)
      by (destruct Hs1 as [->| ->]; reflexivity).
    destruct b.
    + right. rewrite <- Hw1. apply (snapHeader_keeps_warnings true s1 Hd1).
    + rewrite bind_gets_eq. cbv beta.
      destruct (_canSnapHeaderOnScroll layout s1).
      * right. rewrite <- Hw1.
        assert (K : keeps domExists warnings (_scrollToSnapHeader Device layout))
          by keeps_auto.
        apply (K s1 Hd1).
      * left. exists s1. split; [exact Hs1 | reflexivity].
  - right.
    assert (K : keeps domExists warnings
                  (modify (set_bExpandingWithAClick true);;
                   _expandHeader true))
      by keeps_auto.
    apply (K s Hd).
Qed.

Lemma needsVerticalScrollBar_unrendered (s : State) :
  dom s = None -> _needsVerticalScrollBar layout s = false.
Proof.
  intros H. unfold _needsVerticalScrollBar, _getMaxScrollPosition.
  now rewrite H.
Qed.

Lemma snapHeader_unrendered (b : bool) (s : State) :
  dom s = None ->
  exists s1,
    _snapHeader b s = Ok tt s1
    /\ headerExpanded s1 = headerExpanded s /\ dom s1 = None.
Proof.
  intros Hd. unfold _snapHeader, _moveHeaderToContentArea. unfold_monad.
  destruct_state s. unfold_updates. crush; eauto.
Qed.

Lemma expandHeader_unrendered (b : bool) (s : State) :
  dom s = None ->
  exists s1,
    _expandHeader b s = Ok tt s1
    /\ headerExpanded s1 = headerExpanded s /\ dom s1 = None.
Proof.
  intros Hd. unfold _expandHeader, _moveHeaderToTitleArea. unfold_monad.
  destruct_state s. unfold_updates. crush; eauto.
Qed.

Lemma toggleHeaderVisibility_unrendered (b : bool) (s : State) :
  dom s = None ->
  exists s1,
    _toggleHeaderVisibility Device layout b s = Ok tt s1
    /\ headerExpanded s1 = headerExpanded s /\ dom s1 = None.
Proof.
  intros Hd. unfold _toggleHeaderVisibility, _updateScrollBar. unfold_monad.
  destruct_state s. unfold_updates.
  crush; rewrite ?orb_true_r; simpl; eauto.
Qed.

(** C4 (amended). A snap or expand attempt that ends with a warning
    returns normally and leaves [headerExpanded] and the snapped class as
    they were.  When the command-triggered toggle gives up because the
    header is too tall or because there is too little content to scroll,
    the whole state is as before, up to the log and the lazily created
    scroll bar.  (What an attempt without title area has already done to
    the title and to the header is not undone.) *)
Theorem warned_attempt_keeps_expanded (a : Attempt) (s : State) :
  warnings (final (attempt Device layout a s)) <> warnings s ->
  let r := attempt Device layout a s in
  returns r = true
  /\ headerExpanded (final r) = headerExpanded s
  /\ snappedClass (final r) = snappedClass s
  /\ (a = AttemptCommand ->
      exists_ (dom s) = true
      \/ _headerBiggerThanAllowedToExpandWithACommand layout s = true ->
      forget (final r) = forget s).
Proof.
  intros Hw. cbv zeta.
  destruct (dom s) as [d|] eqn:Ed.
  - (* rendered: only the command toggle can warn *)
    assert (Hd : domExists s) by (unfold domExists; now rewrite Ed).
    destruct a as [b|b|]; simpl attempt in *.
    + exfalso. apply Hw. apply (snapHeader_keeps_warnings b s Hd).
    + exfalso. apply Hw. apply (expandHeader_keeps_warnings b s Hd).
    + destruct (command_toggle_cases s Hd) as [E|[(s1 & Hs1 & E)|E]].
      * rewrite E. simpl. auto.
      * rewrite E. simpl.
        destruct Hs1 as [->| ->]; simpl; auto.
      * contradiction.
  - (* not rendered: the snapped class is absent before and after *)
    assert (Hc : snappedClass s = false) by (unfold snappedClass; now rewrite Ed).
    destruct a as [b|b|]; simpl attempt in *.
    + destruct (snapHeader_unrendered b s Ed) as (s1 & E & He & Hd1).
      rewrite E. simpl. unfold snappedClass. rewrite Hd1, Ed.
      repeat split; auto. discriminate.
    + destruct (expandHeader_unrendered b s Ed) as (s1 & E & He & Hd1).
      rewrite E. simpl. unfold snappedClass. rewrite Hd1, Ed.
      repeat split; auto. discriminate.
    + revert Hw.
      unfold _titleExpandCollapseWhenAllowed, getHeaderExpanded.
      rewrite bind_gets_eq. cbv beta.
      destruct (_headerBiggerThanAllowedToExpandWithACommand layout s) eqn:Ebig.
      { intros _. simpl. repeat split; auto. }
      rewrite bind_gets_eq. cbv beta. rewrite bind_gets_eq. cbv beta.
      rewrite (needsVerticalScrollBar_unrendered s Ed), orb_true_r.
      destruct (headerExpanded s) eqn:He; cbn [negb]; cbv iota; intros _.
      * destruct (snapHeader_unrendered false s Ed) as (s1 & E1 & He1 & Hd1).
        rewrite (bind_ok_eq _ _ _ _ _ E1).
        destruct (toggleHeaderVisibility_unrendered false s1 Hd1)
          as (s2 & E2 & He2 & Hd2).
        rewrite E2. simpl. unfold snappedClass. rewrite Hd2, Ed.
        repeat split; try congruence.
        intros _ [H|H]; discriminate.
      * destruct (expandHeader_unrendered false s Ed) as (s1 & E1 & He1 & Hd1).
        rewrite (bind_ok_eq _ _ _ _ _ E1).
        destruct (toggleHeaderVisibility_unrendered true s1 Hd1)
          as (s2 & E2 & He2 & Hd2).
        rewrite E2. simpl. unfold snappedClass. rewrite Hd2, Ed.
        repeat split; try congruence.
        intros _ [H|H]; discriminate.
Qed.

End Properties.

(** ** Further properties of the methods *)

(** Splitting on conditions, leaving alone what is already a
    constructor. *)
Ltac split_on' c :=
  lazymatch c with
  | negb ?x => split_on' x
  | ?x && _ => split_on' x
  | ?x || _ => split_on' x
  | exists_ ?x => split_on' x
  | _ =>
      let h := head_of c in
      tryif is_constructor h then fail
      else tryif is_var c then destruct c else destruct c eqn:?
  end.

Ltac break_match' :=
  match goal with
  | |- context [if ?c then _ else _] => split_on' c
  | |- context [match ?c with Some _ => _ | None => _ end] => split_on' c
  end.

Ltac crush' :=
  repeat (cbn; try discriminate; try congruence; break_match');
  cbn; try discriminate; try congruence; auto;
  try solve [intuition (auto; congruence)].

Section MoreProperties.

Variable Device : DeviceSystem.
Variable bUseAnimations : bool.
Variable layout : State -> Geometry.

(** *** Reading the scroll position *)

Lemma getScrollPosition_frame (s s1 : State) (pos : Z) :
  _getScrollPosition Device s = Ok pos s1 ->
  s1 = s \/ s1 = set_scrollBar (Some newScrollBar) s.
Proof.
  unfold _getScrollPosition, _getScrollBar. unfold_monad.
  intros H. destruct (desktop Device).
  - destruct (_scrollBar s); inversion H; auto.
  - destruct (dom s); inversion H; auto.
Qed.

Lemma getScrollPosition_again (s s1 : State) (pos : Z) :
  _getScrollPosition Device s = Ok pos s1 ->
  _getScrollPosition Device s1 = Ok pos s1.
Proof.
  unfold _getScrollPosition, _getScrollBar. unfold_monad.
  intros H. destruct (desktop Device).
  - destruct (_scrollBar s) eqn:E; inversion H; subst; simpl.
    + now rewrite E.
    + reflexivity.
  - destruct (dom s) eqn:E; inversion H; subst. now rewrite E.
Qed.

Lemma scrollPositionAbove_value (s s1 : State) (pos : Z) :
  _getScrollPosition Device s = Ok pos s1 ->
  scrollPositionAbove Device layout s
  = Ok (pos >? _getSnappingHeight layout s1) s1.
Proof.
  intros H. unfold scrollPositionAbove.
  rewrite (bind_ok_eq _ _ _ _ _ H). reflexivity.
Qed.

Lemma scrollPositionBelow_value (s s1 : State) (pos : Z) :
  _getScrollPosition Device s = Ok pos s1 ->
  scrollPositionBelow Device layout s
  = Ok (pos <? _getSnappingHeight layout s1) s1.
Proof.
  intros H. unfold scrollPositionBelow.
  rewrite (bind_ok_eq _ _ _ _ _ H). reflexivity.
Qed.

Lemma shouldSnap_value (s s1 : State) (pos : Z) :
  _headerAlwaysExpanded s = false ->
  _getScrollPosition Device s = Ok pos s1 ->
  _shouldSnap Device layout s
  = Ok ((pos >? _getSnappingHeight layout s1)
        && headerExpanded s1 && negb (_bPinned s1)) s1.
Proof.
  intros Hal Hpos. unfold _shouldSnap, andM, notM, getHeaderExpanded.
  unfold bind, gets, ret. rewrite Hal. simpl.
  rewrite (scrollPositionAbove_value _ _ _ Hpos).
  destruct (pos >? _getSnappingHeight layout s1); simpl; [|reflexivity].
  destruct (headerExpanded s1); reflexivity.
Qed.

Lemma shouldExpand_value (s s1 : State) (pos : Z) :
  _headerAlwaysExpanded s = false ->
  _getScrollPosition Device s = Ok pos s1 ->
  _shouldExpand Device layout s
  = Ok ((pos <? _getSnappingHeight layout s1)
        && negb (headerExpanded s1) && negb (_bPinned s1)) s1.
Proof.
  intros Hal Hpos. unfold _shouldExpand, andM, notM, getHeaderExpanded.
  unfold bind, gets, ret. rewrite Hal. simpl.
  rewrite (scrollPositionBelow_value _ _ _ Hpos).
  destruct (pos <? _getSnappingHeight layout s1); simpl; [|reflexivity].
  destruct (headerExpanded s1); reflexivity.
Qed.

Lemma shouldSnap_always (s : State) :
  _headerAlwaysExpanded s = true -> _shouldSnap Device layout s = Ok false s.
Proof.
  intros Hal. unfold _shouldSnap, andM, notM. unfold bind, gets, ret.
  now rewrite Hal.
Qed.

Lemma shouldExpand_always (s : State) :
  _headerAlwaysExpanded s = true -> _shouldExpand Device layout s = Ok false s.
Proof.
  intros Hal. unfold _shouldExpand, andM, notM. unfold bind, gets, ret.
  now rewrite Hal.
Qed.

(** *** The scroll-driven evaluation in the other direction *)

(** X1. A snapped header that is neither pinned nor always expanded
    expands as soon as the scroll position is below the snapping height:
    [_toggleHeader] returns with [headerExpanded] set and the class
    sapFDynamicPageTitleSnapped removed.  The header is not moved:
    [_bHeaderInTitleArea] is as before. *)
Theorem toggleHeader_expands_below_snapping_height
    (s s1 : State) (pos : Z) (d : Dom) :
  headerExpanded s = false ->
  _bPinned s = false ->
  _headerAlwaysExpanded s = false ->
  dom s = Some d ->
  _getScrollPosition Device s = Ok pos s1 ->
  pos < _getSnappingHeight layout s1 ->
  let r := _toggleHeader Device layout s in
  returns r = true
  /\ headerExpanded (final r) = true
  /\ option_map titleSnapped (dom (final r)) = Some false
  /\ _bHeaderInTitleArea (final r) = _bHeaderInTitleArea s.
Proof.
  intros Hexp Hpin Hal Hdom Hpos Hbelow. cbv zeta.
  assert (Hlt : (pos <? _getSnappingHeight layout s1) = true)
    by (apply Z.ltb_lt; lia).
  assert (Hs1 : headerExpanded s1 = false /\ _bPinned s1 = false
                /\ dom s1 = Some d /\ _headerAlwaysExpanded s1 = false
                /\ _bHeaderInTitleArea s1 = _bHeaderInTitleArea s).
  { destruct (getScrollPosition_frame _ _ _ Hpos) as [->| ->]; auto. }
  destruct Hs1 as (Hexp1 & Hpin1 & Hdom1 & Hal1 & Hin1).
  unfold _toggleHeader.
  rewrite (bind_ok_eq _ _ _ _ _ (shouldSnap_value _ _ _ Hal Hpos)).
  rewrite Hexp1, andb_false_r. cbn [andb]. cbv iota.
  rewrite (bind_ok_eq _ _ _ _ _
             (shouldExpand_value _ _ _ Hal1 (getScrollPosition_again _ _ _ Hpos))).
  rewrite Hlt, Hexp1, Hpin1. cbn [andb negb]. cbv iota.
  rewrite <- Hin1. clear Hpos Hlt Hbelow Hexp Hpin Hal Hdom Hin1 s.
  unfold _expandHeader, _updateHeaderARIAState. unfold_monad.
  destruct_state s1. unfold_updates. unfold _headerAlwaysExpanded in *.
  crush.
Qed.

Lemma moveHeaderToContentArea_frame (s : State) :
  exists s',
    _moveHeaderToContentArea s = Ok tt s'
    /\ headerExpanded s' = headerExpanded s
    /\ dom s' = dom s
    /\ _bPinned s' = _bPinned s
    /\ title s' = title s
    /\ _bHeaderInTitleArea s' = (negb (exists_ (header s)) && _bHeaderInTitleArea s).
Proof.
  unfold _moveHeaderToContentArea. unfold_monad.
  destruct_state s. unfold_updates. crush; eexists; repeat split.
Qed.

(** X2. At a scroll position exactly equal to the snapping height the
    evaluation neither snaps nor expands: [_shouldSnap] asks for more,
    [_shouldExpand] for less.  [_toggleHeader] returns, and
    [headerExpanded] and the snapped class are as before, whatever the
    state. *)
Theorem toggleHeader_idle_at_snapping_height (s s1 : State) (pos : Z) :
  _getScrollPosition Device s = Ok pos s1 ->
  pos = _getSnappingHeight layout s1 ->
  let r := _toggleHeader Device layout s in
  returns r = true
  /\ headerExpanded (final r) = headerExpanded s
  /\ snappedClass (final r) = snappedClass s.
Proof.
  intros Hpos Heq. cbv zeta.
  assert (Hgt : (pos >? _getSnappingHeight layout s1) = false)
    by (rewrite Z.gtb_ltb; apply Z.ltb_ge; lia).
  assert (Hlt : (pos <? _getSnappingHeight layout s1) = false)
    by (apply Z.ltb_ge; lia).
  assert (Hs1 : headerExpanded s1 = headerExpanded s /\ dom s1 = dom s
                /\ _headerAlwaysExpanded s1 = _headerAlwaysExpanded s).
  { destruct (getScrollPosition_frame _ _ _ Hpos) as [->| ->]; auto. }
  destruct Hs1 as (He1 & Hd1 & Ha1).
  assert (Hidle : forall s0,
    let r0 := (bPinned <- gets _bPinned;;
               bHeaderInTitleArea <- gets _bHeaderInTitleArea;;
               when (negb bPinned && bHeaderInTitleArea)
                 _moveHeaderToContentArea) s0 in
    returns r0 = true
    /\ headerExpanded (final r0) = headerExpanded s0
    /\ snappedClass (final r0) = snappedClass s0).
  { intros s0. cbv zeta. rewrite !bind_gets_eq. cbv beta.
    destruct (negb (_bPinned s0) && _bHeaderInTitleArea s0); simpl; auto.
    destruct (moveHeaderToContentArea_frame s0) as (s' & -> & He & Hd & _).
    simpl. unfold snappedClass. rewrite Hd. auto. }
  unfold _toggleHeader.
  destruct (_headerAlwaysExpanded s) eqn:Hal.
  - rewrite (bind_ok_eq _ _ _ _ _ (shouldSnap_always _ Hal)). cbv iota.
    rewrite (bind_ok_eq _ _ _ _ _ (shouldExpand_always _ Hal)). cbv iota.
    apply Hidle.
  - rewrite (bind_ok_eq _ _ _ _ _ (shouldSnap_value _ _ _ Hal Hpos)).
    rewrite Hgt. cbn [andb]. cbv iota.
    rewrite (bind_ok_eq _ _ _ _ _
               (shouldExpand_value _ _ _ Ha1 (getScrollPosition_again _ _ _ Hpos))).
    rewrite Hlt. cbn [andb]. cbv iota.
    unfold snappedClass in *. rewrite <- He1, <- Hd1. apply Hidle.
Qed.

(** *** Snapping and expanding in a row *)

(** X3. Of a snap and an expand that both move the header, the last one
    wins: snapping after an expand leaves the state a snap alone leaves
    (when the header is not pinned), and expanding after a snap leaves
    the state an expand alone leaves, in both cases up to the log. *)
Theorem last_of_snap_and_expand_wins (s : State) :
  (_bPinned s = false ->
   unlogged (final ((_expandHeader true;; _snapHeader true) s))
   = unlogged (final (_snapHeader true s)))
  /\ unlogged (final ((_snapHeader true;; _expandHeader true) s))
     = unlogged (final (_expandHeader true s)).
Proof.
  unfold unlogged, _snapHeader, _expandHeader, _moveHeaderToContentArea,
    _moveHeaderToTitleArea.
  unfold_monad. destruct_state s. unfold_updates.
  destruct s_title as [[[|] [|] se ss]|],
    s_header as [[[hd|] pb pp ae ap pf]|], s_dom as [d|];
    (split; [intros Hp; subst s_pinned | destruct s_pinned]);
    reflexivity.
Qed.

(** *** Writing the scroll position *)



(** X5. While nothing has been rendered, [_setScrollPosition] does
    nothing at all, and on a device that is not a desktop
    [_getScrollPosition] raises: it reads [$wrapper] without a guard. *)
Theorem scroll_position_unrendered (n : Z) (s : State) :
  dom s = None ->
  _setScrollPosition Device n s = Ok tt s
  /\ (desktop Device = false -> _getScrollPosition Device s = Throw s).
Proof.
  intros Hd. unfold _setScrollPosition, _getScrollPosition. unfold_monad.
  rewrite Hd. simpl. split; [reflexivity|]. intros Hk. rewrite Hk, Hd. reflexivity.
Qed.

(** *** The command that scrolls the header out *)



End MoreProperties.

(** ** A page that is ready never raises *)

(** *** Composing computations that return and re-establish an invariant *)

Section Holds.

Context (I : State -> Prop).

Lemma holds_ret {A : Type} (a : A) : holds I (ret a).
Proof. intros s H. simpl. auto. Qed.

Lemma holds_gets {A : Type} (f : State -> A) : holds I (gets f).
Proof. intros s H. simpl. auto. Qed.

Lemma holds_modify (f : State -> State) :
  (forall s, I s -> I (f s)) -> holds I (modify f).
Proof. intros Hf s H. simpl. auto. Qed.

Lemma holds_bind {A B : Type} (m : M A) (k : A -> M B) :
  holds I m -> (forall a, holds I (k a)) -> holds I (bind m k).
Proof.
  intros Hm Hk s H. unfold bind.
  destruct (Hm s H) as [Hr HI].
  destruct (m s) as [a s'|s']; simpl in *; [|discriminate].
  exact (Hk a s' HI).
Qed.

Lemma holds_bind_gets_at {A B : Type} (f : State -> A) (k : A -> M B) :
  (forall s, I s -> returns (k (f s) s) = true /\ I (final (k (f s) s))) ->
  holds I (bind (gets f) k).
Proof. intros H s Hs. unfold bind, gets. exact (H s Hs). Qed.

Lemma holds_when (c : bool) (m : M unit) : holds I m -> holds I (when c m).
Proof. intros Hm. destruct c; simpl; [exact Hm | apply holds_ret]. Qed.

End Holds.

Lemma holds_weaken {A : Type} (I J : State -> Prop) (m : M A) :
  holds J m ->
  (forall s, J s -> I s) ->
  forall s, J s -> returns (m s) = true /\ I (final (m s)).
Proof. intros Hm HJI s Hs. destruct (Hm s Hs). auto. Qed.

Create HintDb holds.

Ltac holds_leaf :=
  let s := fresh "s" in
  let H := fresh "H" in
  intros s H;
  destruct s as [? ? ? ? ? ? ? ? ? [?|] [[[?|] ? ? ? ? ?]|] [?|] [?|] [?|]
                 ? ? ? ?];
  unfold pageReady, ready in *; unfold_updates;
  cbn in *; try exact H; intuition (try discriminate; auto).

Ltac holds_step :=
  lazymatch goal with
  | |- holds _ (bind _ _) => apply holds_bind; [ | intros ? ]
  | |- holds _ (ret _) => apply holds_ret
  | |- holds _ (gets _) => apply holds_gets
  | |- holds _ (modify _) => apply holds_modify; solve [holds_leaf]
  | |- holds _ (when _ _) => apply holds_when
  | |- holds _ (if ?c then _ else _) => destruct c
  | |- holds _ (match ?c with _ => _ end) => destruct c
  | |- holds _ ?m =>
      first [ solve [auto with holds]
            | let h := head_of m in unfold h ]
  end.

Ltac holds_auto := repeat holds_step.

Section Ready.

Variable Device : DeviceSystem.
Variable bUseAnimations : bool.
Variable layout : State -> Geometry.

(** The calls that raise on a page that is not ready. *)

Lemma Dom_call_ready (b : bool) (f : Dom -> Dom) :
  (forall d, footerWrapperCached (f d) = footerWrapperCached d) ->
  holds (pageReady b) (Dom_call f).
Proof.
  intros Hf s [Hr Hh]. unfold Dom_call, pageReady, ready in *. unfold_monad.
  destruct_state s. destruct s_dom as [d|]; [|discriminate].
  unfold_updates. simpl. rewrite Hf. auto.
Qed.

Lemma Header_call_ready (f : Header -> Header) :
  holds (pageReady true) (Header_call f).
Proof.
  intros s [Hr Hh]. specialize (Hh eq_refl).
  unfold Header_call, pageReady, ready in *. unfold_monad.
  destruct_state s. destruct s_header as [h|]; [|discriminate].
  unfold_updates. simpl. auto.
Qed.

Lemma getScrollPosition_ready (b : bool) :
  holds (pageReady b) (_getScrollPosition Device).
Proof.
  intros s [Hr Hh]. unfold _getScrollPosition, _getScrollBar, pageReady, ready in *.
  unfold_monad. destruct_state s. destruct s_dom as [d|]; [|discriminate].
  destruct (desktop Device), s_scrollBar; simpl; auto.
Qed.

Lemma footerWrapperToggle_ready (b : bool) :
  holds (pageReady b) _footerWrapperToggle.
Proof.
  intros s [Hr Hh]. unfold _footerWrapperToggle, pageReady, ready in *.
  unfold_monad. destruct_state s. destruct s_dom as [d|]; [|discriminate].
  rewrite Hr. unfold_updates. simpl. auto.
Qed.

#[local] Hint Resolve Header_call_ready getScrollPosition_ready
  footerWrapperToggle_ready : holds.
#[local] Hint Extern 1 (holds _ (Dom_call _)) =>
  (apply Dom_call_ready; reflexivity) : holds.

Lemma snapHeader_ready (b bAppend : bool) :
  holds (pageReady b) (_snapHeader bAppend).
Proof. holds_auto. Qed.

Lemma expandHeader_ready (b bAppend : bool) :
  holds (pageReady b) (_expandHeader bAppend).
Proof. holds_auto. Qed.

#[local] Hint Resolve snapHeader_ready expandHeader_ready : holds.

Lemma toggleHeader_ready (b : bool) :
  holds (pageReady b) (_toggleHeader Device layout).
Proof. holds_auto. Qed.

Lemma updateScrollBar_ready (b : bool) :
  holds (pageReady b) (_updateScrollBar Device layout).
Proof. holds_auto. Qed.

#[local] Hint Resolve toggleHeader_ready : holds.

Lemma cacheDomElements_ready (b : bool) (rendered : Dom) :
  holds (pageReady b) (_cacheDomElements rendered).
Proof.
  intros s [Hr Hh]. unfold _cacheDomElements, pageReady, ready in *.
  unfold_monad. destruct_state s. destruct s_dom as [d|]; [|discriminate].
  simpl. rewrite Hr, orb_true_r. auto.
Qed.

#[local] Hint Resolve updateScrollBar_ready cacheDomElements_ready : holds.

Lemma onResize_ready (width height : Z) :
  holds (pageReady false) (_onResize Device layout width height).
Proof.
  unfold _onResize, getHeader. apply holds_bind_gets_at. intros s Hs.
  destruct (header s) as [h|] eqn:Eh.
  - assert (Hs' : pageReady true s).
    { destruct Hs as [Hr _]. split; [exact Hr|]. intros _. now rewrite Eh. }
    assert (K : holds (pageReady true)
      (bHeaderAlwaysExpanded <- gets _headerAlwaysExpanded;;
       when (negb bHeaderAlwaysExpanded && exists_ (Some h))
         (bTooBig <- gets (_headerBiggerThanAllowedToPin layout (Some height));;
          (if bTooBig || phone Device
           then _unPin;; Header_setShowPinBtn false;; Header_togglePinButton false
           else Header_setShowPinBtn true));;
       _updateScrollBar Device layout;; _updateMedia width))
      by holds_auto.
    apply (holds_weaken (pageReady false) _ _ K); [|exact Hs'].
    intros s0 [Hr _]. split; [exact Hr | discriminate].
  - assert (K : holds (pageReady false)
      (bHeaderAlwaysExpanded <- gets _headerAlwaysExpanded;;
       when (negb bHeaderAlwaysExpanded && exists_ (@None Header)) (ret tt);;
       _updateScrollBar Device layout;; _updateMedia width))
      by holds_auto.
    destruct (K s Hs) as [K1 K2]. revert K1 K2.
    unfold bind, gets, when. simpl. rewrite andb_false_r. auto.
Qed.

(** Every event that reaches a ready page is handled without an
    exception and leaves the page ready. *)
Lemma handle_ready (e : Event) (s : State) :
  ready s = true ->
  enabled e s = true ->
  returns (handle Device bUseAnimations layout e s) = true
  /\ ready (final (handle Device bUseAnimations layout e s)) = true.
Proof.
  intros Hr Hen.
  assert (Hs : pageReady false s) by (split; [exact Hr | discriminate]).
  assert (Hgen : holds (pageReady false) (handle Device bUseAnimations layout e)
                 -> returns (handle Device bUseAnimations layout e s) = true
                    /\ ready (final (handle Device bUseAnimations layout e s)) = true).
  { intros K. destruct (K s Hs) as [K1 [K2 _]]. auto. }
  destruct e; simpl handle in *.
  1-9, 11-13, 15: apply Hgen; holds_auto.
  - apply Hgen. apply onResize_ready.
  - assert (Hs' : pageReady true s) by (split; auto).
    assert (K : holds (pageReady true) (_onPinUnpinButtonPress Device layout))
      by holds_auto.
    destruct (K s Hs') as [K1 [K2 _]]. auto.
Qed.

(** X7. A page that has been rendered with its footer never raises: every
    event that reaches it, after any events before, is handled without
    an exception, and the page stays ready. *)
Theorem ready_page_never_raises (es : list Event) (e : Event) (s : State) :
  ready s = true ->
  let s' := run Device bUseAnimations layout es s in
  ready s' = true
  /\ (enabled e s' = true ->
      returns (handle Device bUseAnimations layout e s') = true).
Proof.
  intros Hr. cbv zeta.
  assert (Hrun : ready (run Device bUseAnimations layout es s) = true).
  { revert s Hr. induction es as [|e0 es IH]; intros s Hr; simpl.
    - exact Hr.
    - apply IH. unfold step. destruct (enabled e0 s) eqn:Hen; [|exact Hr].
      apply (handle_ready e0 s Hr Hen). }
  split; [exact Hrun|]. intros Hen. apply (handle_ready e _ Hrun Hen).
Qed.

End Ready.

(** ** The scroll bar update, pinning and resizing *)

Section PinAndResize.

Variable Device : DeviceSystem.
Variable bUseAnimations : bool.
Variable layout : State -> Geometry.

Lemma withoutScrollBar_fields (s s' : State) :
  withoutScrollBar s' = withoutScrollBar s ->
  headerAlwaysExpanded s' = headerAlwaysExpanded s
  /\ headerExpanded s' = headerExpanded s
  /\ showFooter s' = showFooter s
  /\ _bPinned s' = _bPinned s
  /\ _bHeaderInTitleArea s' = _bHeaderInTitleArea s
  /\ _bExpandingWithAClick s' = _bExpandingWithAClick s
  /\ _headerBiggerThanAllowedHeight s' = _headerBiggerThanAllowedHeight s
  /\ title s' = title s
  /\ header s' = header s
  /\ footer s' = footer s
  /\ dom s' = dom s
  /\ media s' = media s.
Proof.
  destruct s, s'. unfold withoutScrollBar. simpl. intros H.
  inversion H. repeat split; reflexivity.
Qed.

(** *** The scroll bar update *)

Lemma updateScrollBar_safe : safe (_updateScrollBar Device layout).
Proof.
  destruct Device as [[|] ph].
  - safe_auto.
  - intros s. unfold _updateScrollBar. unfold_monad. reflexivity.
Qed.

Lemma updateScrollBar_quiet (s : State) :
  (_headerAlwaysExpanded s || _bPinned s || negb (headerExpanded s)) = true ->
  exists s',
    _updateScrollBar Device layout s = Ok tt s'
    /\ withoutScrollBar s' = withoutScrollBar s.
Proof.
  unfold _updateScrollBar, _measureScrollBarOffsetHeight, _getScrollBar,
    withoutScrollBar, _headerAlwaysExpanded.
  unfold_monad. destruct_state s. unfold_updates.
  destruct s_alwaysExpanded, s_bigger, s_pinned, s_expanded;
    simpl; intros H; try discriminate H;
    destruct Device as [[|] ph], s_dom as [d|], s_scrollBar as [sb|],
      s_title as [t|]; eexists; split; reflexivity.
Qed.

(** X8. [_updateScrollBar] never raises.  While the header is always
    expanded, pinned or snapped, it leaves the page as it is: only the
    scroll bar, the class sapFDynamicPageWithScroll, the log and the
    delayed calls may differ afterwards. *)
Theorem updateScrollBar_frame (s : State) :
  returns (_updateScrollBar Device layout s) = true
  /\ ((_headerAlwaysExpanded s || _bPinned s || negb (headerExpanded s)) = true ->
      withoutScrollBar (final (_updateScrollBar Device layout s))
      = withoutScrollBar s).
Proof.
  split; [apply updateScrollBar_safe|]. intros H.
  destruct (updateScrollBar_quiet s H) as (s' & -> & E). exact E.
Qed.

(** *** Pinning *)

Lemma pin_result (s : State) (h : Header) :
  header s = Some h ->
  _bPinned s = false ->
  exists s',
    _pin Device layout s = Ok tt s'
    /\ _bPinned s' = true
    /\ _bHeaderInTitleArea s' = true
    /\ option_map ariaPinned (header s') = Some true
    /\ option_map pinBtnFocused (header s') = Some (pinBtnFocused h)
    /\ headerExpanded s' = headerExpanded s
    /\ snappedClass s' = snappedClass s
    /\ title s' = title s.
Proof.
  intros Hh Hp. unfold _pin. rewrite bind_gets_eq, Hp. cbn [negb when].
  unfold bind at 1. cbn [modify].
  assert (E1 : exists s2,
            _moveHeaderToTitleArea (set_bPinned true s) = Ok tt s2
            /\ _bPinned s2 = true /\ _bHeaderInTitleArea s2 = true
            /\ option_map pinBtnFocused (header s2) = Some (pinBtnFocused h)
            /\ exists_ (header s2) = true
            /\ headerExpanded s2 = headerExpanded s
            /\ dom s2 = dom s /\ title s2 = title s).
  { unfold _moveHeaderToTitleArea. unfold_monad. destruct_state s.
    unfold_updates. destruct s_dom, h as [[hd|] ? ? ? ? ?];
      simpl; eexists; repeat split. }
  destruct E1 as (s2 & E2 & Hp2 & Hin2 & Hf2 & Hh2 & He2 & Hd2 & Ht2).
  rewrite (bind_ok_eq _ _ _ _ _ E2).
  destruct (updateScrollBar_quiet s2) as (s3 & E3 & W).
  { now rewrite Hp2, orb_true_r. }
  rewrite (bind_ok_eq _ _ _ _ _ E3).
  destruct (withoutScrollBar_fields _ _ W)
    as (_ & He3 & _ & Hp3 & Hin3 & _ & _ & Ht3 & Hh3 & _ & Hd3 & _).
  rewrite bind_gets_eq, Hp3, Hp2. unfold Header_call, getHeader.
  rewrite bind_gets_eq. rewrite <- Hh3 in Hh2, Hf2.
  destruct (header s3) as [h3|] eqn:Eh3; [|discriminate].
  unfold modify. eexists. split; [reflexivity|].
  unfold snappedClass, upd_header. rewrite Eh3. simpl.
  simpl in Hf2. rewrite Hd3, Hd2. repeat split; congruence.
Qed.

(** X9. Pinning a header that is not pinned moves it into the title
    area and tells it so: [_pin] returns with [_bPinned] and
    [_bHeaderInTitleArea] set and the pin button marked as pressed for
    assistive technology, and neither expands nor snaps the header. *)
Theorem pin_moves_header_to_title_area (s : State) (h : Header) :
  header s = Some h ->
  _bPinned s = false ->
  let r := _pin Device layout s in
  returns r = true
  /\ _bPinned (final r) = true
  /\ _bHeaderInTitleArea (final r) = true
  /\ option_map ariaPinned (header (final r)) = Some true
  /\ headerExpanded (final r) = headerExpanded s
  /\ snappedClass (final r) = snappedClass s
  /\ title (final r) = title s.
Proof.
  intros Hh Hp. cbv zeta.
  destruct (pin_result s h Hh Hp) as (s' & -> & H1 & H2 & H3 & _ & H4 & H5 & H6).
  simpl. auto 10.
Qed.

Lemma unPin_result (s : State) (h : Header) :
  header s = Some h ->
  _bPinned s = true ->
  _unPin s = Ok tt (set_header (Some (set_ariaPinned false h))
                      (set_bPinned false s)).
Proof.
  intros Hh Hp. unfold _unPin. unfold_monad. rewrite Hp. simpl.
  unfold upd_header. simpl. rewrite Hh. simpl. now rewrite Hh.
Qed.

(** X10. A press on the pin button flips [_bPinned] and returns, whatever
    the state of the page, and reports the new state to the header.
    After pinning, the focus is put back on the pin button.  The header
    is neither expanded nor snapped by it. *)
Theorem pinUnpinPress_toggles (s : State) (h : Header) :
  header s = Some h ->
  let r := _onPinUnpinButtonPress Device layout s in
  returns r = true
  /\ _bPinned (final r) = negb (_bPinned s)
  /\ option_map ariaPinned (header (final r)) = Some (negb (_bPinned s))
  /\ option_map pinBtnFocused (header (final r))
     = Some (negb (_bPinned s) || pinBtnFocused h)
  /\ headerExpanded (final r) = headerExpanded s
  /\ snappedClass (final r) = snappedClass s.
Proof.
  intros Hh. cbv zeta. unfold _onPinUnpinButtonPress.
  rewrite bind_gets_eq. destruct (_bPinned s) eqn:Hp.
  - rewrite (unPin_result s h Hh Hp). simpl. repeat split.
  - destruct (pin_result s h Hh Hp)
      as (s' & E & H1 & H2 & H3 & H4 & H5 & H6 & H7).
    rewrite (bind_ok_eq _ _ _ _ _ E).
    unfold _restorePinButtonFocus, Header_call, getHeader.
    rewrite bind_gets_eq.
    destruct (header s') as [h'|] eqn:Eh; [|discriminate].
    unfold modify, upd_header, snappedClass in *. rewrite Eh. simpl.
    simpl in H3. inversion H3. repeat split; auto; congruence.
Qed.

(** *** Resizing *)

Lemma updateMedia_safe (iWidth : Z) : safe (_updateMedia iWidth).
Proof. safe_auto. Qed.

Lemma resize_tail_keeps_pin (width : Z) :
  keeps always
    (fun s => (_bPinned s, option_map showPinBtn (header s),
               option_map pinBtnPressed (header s)))
    (_updateScrollBar Device layout;; _updateMedia width).
Proof. keeps_auto. Qed.

Lemma resize_tail_safe (width : Z) :
  safe (_updateScrollBar Device layout;; _updateMedia width).
Proof.
  apply safe_bind; [apply updateScrollBar_safe | intros _].
  apply updateMedia_safe.
Qed.

(** X11. A resize of a page with a header that is not always expanded
    decides on the pin button by the new height: when the title and the
    header take more than 60% of it, or on a phone, the header is
    unpinned and the pin button is hidden and released; otherwise the pin
    button is shown and the pin is left alone.  [_onResize] returns in
    both cases. *)
Theorem onResize_unpins_tall_header
    (width height : Z) (s : State) (h : Header) :
  header s = Some h ->
  _headerAlwaysExpanded s = false ->
  let bTooBig :=
    _headerBiggerThanAllowedToPin layout (Some height) s || phone Device in
  let r := _onResize Device layout width height s in
  returns r = true
  /\ _bPinned (final r) = (negb bTooBig && _bPinned s)
  /\ option_map showPinBtn (header (final r)) = Some (negb bTooBig)
  /\ option_map pinBtnPressed (header (final r))
     = Some (negb bTooBig && pinBtnPressed h).
Proof.
  intros Hh Ha. cbv zeta. unfold _onResize, getHeader.
  rewrite !bind_gets_eq, Hh, Ha. cbn [negb andb exists_ when].
  assert (E : exists s2,
    (bTooBig <- gets (_headerBiggerThanAllowedToPin layout (Some height));;
     (if bTooBig || phone Device
      then _unPin;; Header_setShowPinBtn false;; Header_togglePinButton false
      else Header_setShowPinBtn true)) s = Ok tt s2
    /\ _bPinned s2
       = (negb (_headerBiggerThanAllowedToPin layout (Some height) s
                || phone Device) && _bPinned s)
    /\ option_map showPinBtn (header s2)
       = Some (negb (_headerBiggerThanAllowedToPin layout (Some height) s
                     || phone Device))
    /\ option_map pinBtnPressed (header s2)
       = Some (negb (_headerBiggerThanAllowedToPin layout (Some height) s
                     || phone Device) && pinBtnPressed h)).
  { rewrite bind_gets_eq.
    destruct (_headerBiggerThanAllowedToPin layout (Some height) s
              || phone Device); cbn [negb andb].
    - unfold _unPin. unfold_monad. destruct_state s. unfold_updates.
      destruct s_pinned; simpl; eexists; repeat split.
    - unfold_monad. destruct_state s. unfold_updates. simpl.
      eexists; repeat split. }
  destruct E as (s2 & E & H1 & H2 & H3).
  rewrite (bind_ok_eq _ _ _ _ _ E).
  destruct (resize_tail_keeps_pin width s2 Logic.I) as [_ K].
  inversion K as [[K1 K2 K3]].
  split; [apply resize_tail_safe|].
  rewrite K1, K2, K3. auto.
Qed.

(** *** The footer *)

Lemma updateScrollBar_keeps_footer :
  keeps always (fun s => (showFooter s, footer s))
    (_updateScrollBar Device layout).
Proof. keeps_auto. Qed.

(** X12. [setShowFooter] raises in exactly one situation: it is asked to
    show the footer, animations are on, there is a footer, and its
    wrapper has not been cached by a rendering that saw a footer. *)
Theorem setShowFooter_raises_iff (b : bool) (s : State) :
  returns (setShowFooter Device bUseAnimations layout b s) = false
  <-> (exists_ (footer s) = true /\ bUseAnimations = true /\ b = true
       /\ ready s = false).
Proof.
  unfold setShowFooter, _toggleFooter, _toggleFooterSpacer,
    _footerWrapperToggle, ready.
  unfold_monad. destruct_state s. unfold_updates.
  destruct s_footer as [f|], bUseAnimations, b,
    s_dom as [[ts tp wt fc fb sp [|] fh]|]; simpl;
    try match goal with
        | |- context [_updateScrollBar Device layout ?st] =>
            let Hs := fresh "Hs" in
            pose proof (updateScrollBar_safe st) as Hs;
            destruct (_updateScrollBar Device layout st); simpl;
            [|discriminate Hs]
        end;
    split; try discriminate; try tauto; intuition discriminate.
Qed.

(** X13. Whether it returns or raises, [setShowFooter] leaves the
    property set and the two footer classes complementary: the Show class
    is on exactly when the footer was asked to be shown and the Hide
    class is its opposite.  Without a footer only the property
    changes. *)
Theorem setShowFooter_effect (b : bool) (s : State) :
  let s' := final (setShowFooter Device bUseAnimations layout b s) in
  showFooter s' = b
  /\ option_map clsShow (footer s') = option_map (fun _ => b) (footer s)
  /\ option_map clsHide (footer s') = option_map (fun _ => negb b) (footer s)
  /\ (footer s = None -> s' = set_showFooter b s).
Proof.
  cbv zeta.
  unfold setShowFooter, _toggleFooter, _toggleFooterSpacer,
    _footerWrapperToggle.
  unfold_monad. destruct_state s. unfold_updates.
  destruct s_footer as [f|], bUseAnimations, b,
    s_dom as [[ts tp wt fc fb sp [|] fh]|]; simpl;
    try match goal with
        | |- context [_updateScrollBar Device layout ?st] =>
            let K := fresh "K" in
            destruct (updateScrollBar_keeps_footer st Logic.I) as [_ K];
            simpl in K;
            destruct (_updateScrollBar Device layout st) as [u s3|s3];
            simpl in *; injection K as K1 K2; rewrite ?K1, ?K2
        end;
    simpl; repeat split; try discriminate; auto.
Qed.

End PinAndResize.

(** ** Invariants of the event loop *)

Ltac keeps_step_with leaf :=
  lazymatch goal with
  | |- keeps _ _ (bind _ _) => apply keeps_bind; [ | intros ? ]
  | |- keeps _ _ (ret _) => apply keeps_ret
  | |- keeps _ _ (gets _) => apply keeps_gets
  | |- keeps _ _ throw => apply keeps_throw
  | |- keeps _ _ (modify _) => apply keeps_modify; solve [leaf]
  | |- keeps _ _ (when _ _) => apply keeps_when
  | |- keeps _ _ (if ?c then _ else _) => destruct c
  | |- keeps _ _ (match ?c with _ => _ end) => destruct c
  | |- keeps _ _ ?m =>
      first [ solve [auto with keeps]
            | let h := head_of m in unfold h ]
  end.

Ltac keeps_with leaf := repeat (cbn [desktop phone]; keeps_step_with leaf).

(** The leaf for invariants on the fields of the state alone. *)
Ltac fields_leaf :=
  let s := fresh "s" in
  let H := fresh "H" in
  intros s H;
  destruct s as [? ? ? ? ? ? ? ? ? [?|] [[[?|] ? ? ? ? ?]|] [?|] [?|] [?|]
                 ? ? ? ?];
  unfold pinnedInTitleArea, noScrollBar in *; unfold_updates;
  cbn in *; try (split; [exact H | reflexivity]);
  intuition (try discriminate; auto).

(** The leaf for the invariant on the delayed calls. *)
Ltac tasks_leaf :=
  let s := fresh "s" in
  let H := fresh "H" in
  intros s H;
  destruct s as [? ? ? ? ? ? ? ? ? [?|] [[[?|] ? ? ? ? ?]|] [?|] [?|] [?|]
                 ? ? ? ?];
  unfold domTasksNeedDom in *; unfold_updates;
  cbn in *; rewrite ?existsb_app in *; cbn in *;
  rewrite ?orb_false_r in *;
  try (split; [exact H | reflexivity]);
  intuition (try discriminate; auto).

Section Invariants.

Variable Device : DeviceSystem.
Variable bUseAnimations : bool.
Variable layout : State -> Geometry.

Lemma run_invariant (I : State -> Prop) :
  (forall e s, I s -> enabled e s = true ->
     I (final (handle Device bUseAnimations layout e s))) ->
  forall es s, I s -> I (run Device bUseAnimations layout es s).
Proof.
  intros Hstep es. induction es as [|e es IH]; intros s Hs; simpl.
  - exact Hs.
  - apply IH. unfold step. destruct (enabled e s) eqn:Hen; [|exact Hs].
    now apply Hstep.
Qed.

(** *** A pinned header sits in the title area *)

Lemma snapHeader_keeps_pinned_area (b : bool) :
  keeps pinnedInTitleArea (fun _ => tt) (_snapHeader b).
Proof.
  intros s Hs. unfold _snapHeader, _moveHeaderToContentArea. unfold_monad.
  revert Hs.
  destruct s as [? ? ? [|] ? ? ? ? ? [[[|] [|] ? ?]|] [[[?|] ? ? ? ? ?]|]
                 [?|] [?|] [?|] ? ? ? ?];
    unfold pinnedInTitleArea; unfold_updates; destruct b; cbn;
    intuition discriminate.
Qed.

Lemma toggleHeader_tail_keeps_pinned_area :
  keeps pinnedInTitleArea (fun _ => tt)
    (bPinned <- gets _bPinned;;
     bHeaderInTitleArea <- gets _bHeaderInTitleArea;;
     when (negb bPinned && bHeaderInTitleArea) _moveHeaderToContentArea).
Proof.
  intros s Hs. unfold _moveHeaderToContentArea. unfold_monad. revert Hs.
  destruct s as [? ? ? [|] [|] ? ? ? ? ? [[[?|] ? ? ? ? ?]|]
                 [?|] [?|] [?|] ? ? ? ?];
    unfold pinnedInTitleArea; unfold_updates; cbn;
    intuition discriminate.
Qed.

#[local] Hint Resolve snapHeader_keeps_pinned_area
  toggleHeader_tail_keeps_pinned_area : keeps.

Lemma toggleHeader_keeps_pinned_area :
  keeps pinnedInTitleArea (fun _ => tt) (_toggleHeader Device layout).
Proof.
  unfold _toggleHeader.
  apply keeps_bind; [keeps_with fields_leaf | intros bSnap].
  destruct bSnap; [keeps_with fields_leaf|].
  apply keeps_bind; [keeps_with fields_leaf | intros bExpand].
  destruct bExpand; [keeps_with fields_leaf|].
  apply toggleHeader_tail_keeps_pinned_area.
Qed.

Lemma updateScrollBar_keeps_pinned_area :
  keeps pinnedInTitleArea (fun _ => tt) (_updateScrollBar Device layout).
Proof. keeps_with fields_leaf. Qed.

#[local] Hint Resolve toggleHeader_keeps_pinned_area
  updateScrollBar_keeps_pinned_area : keeps.

Lemma override_on_desktop (s : State) :
  desktop Device = true ->
  _overrideHeaderAlwaysExpanded Device layout s
  = Ok tt (set_headerBiggerThanAllowedHeight false s).
Proof.
  intros Hd. unfold _overrideHeaderAlwaysExpanded,
    _shouldOverrideHeaderAlwaysExpanded.
  unfold_monad. now rewrite Hd.
Qed.

Lemma pinUnpinPress_keeps_pinned_area (s : State) :
  exists_ (header s) = true ->
  pinnedInTitleArea (final (_onPinUnpinButtonPress Device layout s)).
Proof.
  intros Hh. destruct (header s) as [h|] eqn:Eh; [|discriminate].
  unfold _onPinUnpinButtonPress. rewrite bind_gets_eq.
  destruct (_bPinned s) eqn:Hp.
  - rewrite (unPin_result s h Eh Hp). simpl. intros H. discriminate H.
  - destruct (pin_result Device layout s h Eh Hp)
      as (s' & E & H1 & H2 & _).
    rewrite (bind_ok_eq _ _ _ _ _ E).
    assert (K : keeps always _bHeaderInTitleArea _restorePinButtonFocus)
      by keeps_auto.
    destruct (K s' Logic.I) as [_ K']. intros _. now rewrite K'.
Qed.

Lemma titleToggle_keeps_pinned_area :
  keeps pinnedInTitleArea (fun _ => tt)
    (_titleExpandCollapseWhenAllowed Device layout).
Proof. keeps_with fields_leaf. Qed.

#[local] Hint Resolve titleToggle_keeps_pinned_area : keeps.

Lemma handle_keeps_pinned_area (e : Event) (s : State) :
  desktop Device = true ->
  pinnedInTitleArea s ->
  enabled e s = true ->
  pinnedInTitleArea (final (handle Device bUseAnimations layout e s)).
Proof.
  intros Hd Hs Hen.
  assert (Hgen : keeps pinnedInTitleArea (fun _ => tt)
                   (handle Device bUseAnimations layout e)
                 -> pinnedInTitleArea
                      (final (handle Device bUseAnimations layout e s))).
  { intros K. apply (K s Hs). }
  destruct e; simpl handle in *.
  1-13: apply Hgen; keeps_with fields_leaf.
  - now apply pinUnpinPress_keeps_pinned_area.
  - apply Hgen. apply keeps_bind_gets. intros s0 _.
    destruct (nth_error (pending s0) n) as [[d t]|];
      [|keeps_with fields_leaf].
    apply keeps_bind; [keeps_with fields_leaf | intros _].
    destruct t; simpl runTask; try solve [keeps_with fields_leaf].
    intros s1 Hs1. rewrite (override_on_desktop s1 Hd). simpl.
    split; [exact Hs1 | reflexivity].
Qed.

(** X14. On desktop a pinned header sits in the title area, and every
    event keeps it so: from a state in which [_bPinned] implies
    [_bHeaderInTitleArea], every sequence of events leads to such a state
    again. *)
Theorem pinned_header_stays_in_title_area (es : list Event) (s : State) :
  desktop Device = true ->
  (_bPinned s = true -> _bHeaderInTitleArea s = true) ->
  let s' := run Device bUseAnimations layout es s in
  _bPinned s' = true -> _bHeaderInTitleArea s' = true.
Proof.
  intros Hd Hs. cbv zeta.
  apply (run_invariant pinnedInTitleArea); [|exact Hs].
  intros e s0 H0 Hen. now apply handle_keeps_pinned_area.
Qed.

(** *** On desktop the override never applies *)

Lemma updateScrollBar_keeps_not_bigger :
  keeps (fun s => _headerBiggerThanAllowedHeight s = false) (fun _ => tt)
    (_updateScrollBar Device layout).
Proof. keeps_with fields_leaf. Qed.

Lemma titleToggle_keeps_not_bigger :
  keeps (fun s => _headerBiggerThanAllowedHeight s = false) (fun _ => tt)
    (_titleExpandCollapseWhenAllowed Device layout).
Proof.
  pose proof updateScrollBar_keeps_not_bigger.
  keeps_with fields_leaf.
Qed.

Lemma handle_keeps_not_bigger (e : Event) :
  desktop Device = true ->
  keeps (fun s => _headerBiggerThanAllowedHeight s = false) (fun _ => tt)
    (handle Device bUseAnimations layout e).
Proof.
  intros Hd.
  pose proof updateScrollBar_keeps_not_bigger.
  pose proof titleToggle_keeps_not_bigger.
  destruct e; simpl handle.
  1-14: keeps_with fields_leaf.
  apply keeps_bind_gets. intros s0 _.
  destruct (nth_error (pending s0) n) as [[d t]|];
    [|keeps_with fields_leaf].
  apply keeps_bind; [keeps_with fields_leaf | intros _].
  destruct t; simpl runTask; try solve [keeps_with fields_leaf].
  intros s1 Hs1. rewrite (override_on_desktop s1 Hd). simpl. auto.
Qed.

(** X15. On desktop [_headerBiggerThanAllowedHeight] is never set: from
    a state in which it is clear, as after [init], no sequence of events
    sets it, so that the page is in always-expanded mode exactly while
    the property [headerAlwaysExpanded] is set. *)
Theorem no_override_on_desktop (es : list Event) (s : State) :
  desktop Device = true ->
  _headerBiggerThanAllowedHeight s = false ->
  let s' := run Device bUseAnimations layout es s in
  _headerBiggerThanAllowedHeight s' = false
  /\ _headerAlwaysExpanded s' = headerAlwaysExpanded s'.
Proof.
  intros Hd Hs. cbv zeta.
  assert (H : _headerBiggerThanAllowedHeight
                (run Device bUseAnimations layout es s) = false).
  { apply (run_invariant (fun s => _headerBiggerThanAllowedHeight s = false));
      [|exact Hs].
    intros e s0 H0 _. apply (handle_keeps_not_bigger e Hd s0 H0). }
  split; [exact H|]. unfold _headerAlwaysExpanded. rewrite H.
  apply andb_true_r.
Qed.

End Invariants.

(** ** Off the desktop, and the delayed calls *)

Section OffDesktop.

Variable Device : DeviceSystem.
Variable bUseAnimations : bool.
Variable layout : State -> Geometry.

Hypothesis not_desktop : desktop Device = false.

Lemma getScrollPosition_keeps_noScrollBar :
  keeps noScrollBar (fun _ => tt) (_getScrollPosition Device).
Proof.
  unfold _getScrollPosition. rewrite not_desktop. keeps_with fields_leaf.
Qed.

Lemma setScrollPosition_keeps_noScrollBar (n : Z) :
  keeps noScrollBar (fun _ => tt) (_setScrollPosition Device n).
Proof.
  unfold _setScrollPosition. rewrite not_desktop. unfold when.
  keeps_with fields_leaf.
Qed.

Lemma updateScrollBar_keeps_noScrollBar :
  keeps noScrollBar (fun _ => tt) (_updateScrollBar Device layout).
Proof.
  intros s Hs. rewrite updateScrollBar_off_desktop by exact not_desktop.
  simpl. auto.
Qed.

#[local] Hint Resolve getScrollPosition_keeps_noScrollBar
  setScrollPosition_keeps_noScrollBar updateScrollBar_keeps_noScrollBar
  : keeps.

Lemma toggleHeader_keeps_noScrollBar :
  keeps noScrollBar (fun _ => tt) (_toggleHeader Device layout).
Proof. keeps_with fields_leaf. Qed.

Lemma titleToggle_keeps_noScrollBar :
  keeps noScrollBar (fun _ => tt)
    (_titleExpandCollapseWhenAllowed Device layout).
Proof. keeps_with fields_leaf. Qed.

#[local] Hint Resolve toggleHeader_keeps_noScrollBar
  titleToggle_keeps_noScrollBar : keeps.

Lemma onWrapperScroll_keeps_noScrollBar (scrollTop : Z) :
  keeps noScrollBar (fun _ => tt) (_onWrapperScroll Device layout scrollTop).
Proof.
  unfold _onWrapperScroll. rewrite not_desktop. unfold when. cbn [negb orb].
  keeps_with fields_leaf.
Qed.

#[local] Hint Resolve onWrapperScroll_keeps_noScrollBar : keeps.

Lemma handle_keeps_noScrollBar (e : Event) (s : State) :
  noScrollBar s ->
  enabled e s = true ->
  noScrollBar (final (handle Device bUseAnimations layout e s)).
Proof.
  intros Hs Hen.
  assert (Hgen : keeps noScrollBar (fun _ => tt)
                   (handle Device bUseAnimations layout e)
                 -> noScrollBar
                      (final (handle Device bUseAnimations layout e s))).
  { intros K. apply (K s Hs). }
  destruct e; simpl handle in *.
  1-11, 13-15: apply Hgen; keeps_with fields_leaf.
  (* the scroll bar does not fire: there is none *)
  destruct Hs as [Hsb _]. simpl in Hen. rewrite Hsb in Hen. discriminate.
Qed.

(** X16. Off the desktop the "fake" scroll bar is never used: from a
    state without a scroll bar, without the class
    sapFDynamicPageWithScroll and with neither reentrancy flag armed, as
    after [init], every sequence of events leads to such a state again. *)
Theorem no_scroll_bar_off_desktop (es : list Event) (s : State) :
  noScrollBar s ->
  noScrollBar (run Device bUseAnimations layout es s).
Proof.
  intros Hs. apply (run_invariant Device bUseAnimations layout noScrollBar);
    [|exact Hs].
  intros e s0 H0 Hen. now apply handle_keeps_noScrollBar.
Qed.

End OffDesktop.

Section DelayedCalls.

Variable Device : DeviceSystem.
Variable bUseAnimations : bool.
Variable layout : State -> Geometry.

Lemma existsb_remove_nth {A : Type} (f : A -> bool) (n : nat) (l : list A) :
  existsb f (remove_nth n l) = true -> existsb f l = true.
Proof.
  revert n. induction l as [|x l IH]; intros [|n]; simpl; auto.
  - intros H. rewrite H. apply orb_true_r.
  - destruct (f x); simpl; auto. apply IH.
Qed.

Lemma existsb_nth_error {A : Type} (f : A -> bool) (n : nat) (l : list A)
    (x : A) :
  nth_error l n = Some x -> f x = true -> existsb f l = true.
Proof.
  intros Hn Hf. apply existsb_exists. exists x. split; [|exact Hf].
  now apply nth_error_In with n.
Qed.

(** The scroll bar update schedules its two writes only on a rendered
    page, and a rendered page stays rendered. *)
Lemma updateScrollBar_keeps_tasks :
  keeps domTasksNeedDom (fun _ => tt) (_updateScrollBar Device layout).
Proof.
  intros s Hs. split; [|reflexivity].
  destruct (dom s) as [d|] eqn:Ed.
  - assert (K : keeps domExists (fun _ => tt) (_updateScrollBar Device layout))
      by keeps_auto.
    destruct (K s) as [K1 _]; [unfold domExists; now rewrite Ed|].
    intros _. exact K1.
  - unfold _updateScrollBar. unfold_monad. rewrite Ed. simpl.
    rewrite orb_true_r. exact Hs.
Qed.

#[local] Hint Resolve updateScrollBar_keeps_tasks : keeps.

Lemma titleToggle_keeps_tasks :
  keeps domTasksNeedDom (fun _ => tt)
    (_titleExpandCollapseWhenAllowed Device layout).
Proof. keeps_with tasks_leaf. Qed.

#[local] Hint Resolve titleToggle_keeps_tasks : keeps.

Lemma handle_keeps_tasks (e : Event) :
  keeps domTasksNeedDom (fun _ => tt) (handle Device bUseAnimations layout e).
Proof.
  destruct e; simpl handle.
  1-14: keeps_with tasks_leaf.
  apply keeps_bind_gets_at. intros s Hs. split; [|reflexivity].
  destruct (nth_error (pending s) n) as [[d t]|]; [|exact Hs].
  rewrite final_bind. simpl.
  assert (Hs1 : domTasksNeedDom (set_pending (remove_nth n (pending s)) s)).
  { unfold domTasksNeedDom in *. simpl. intros H. apply Hs.
    now apply existsb_remove_nth with n. }
  assert (K : keeps domTasksNeedDom (fun _ => tt)
                (runTask Device layout t)).
  { destruct t; simpl runTask; keeps_with tasks_leaf. }
  apply (K _ Hs1).
Qed.

(** X17. The delayed writes of the scroll bar update never raise: they
    are scheduled on a rendered page only, and a page that has been
    rendered stays so.  From a state in which pending writes imply a
    rendered page, as after [init], whatever events come first, a timer
    that runs [_updateScrollBarOffset] or [_updateFitContainer]
    returns. *)
Theorem delayed_dom_writes_never_raise
    (es : list Event) (s : State) (n : nat) (p : Z * Task) :
  domTasksNeedDom s ->
  let s' := run Device bUseAnimations layout es s in
  nth_error (pending s') n = Some p ->
  isDomTask p = true ->
  returns (handle Device bUseAnimations layout (EvTimer n) s') = true.
Proof.
  intros Hs. cbv zeta.
  assert (Hrun : domTasksNeedDom (run Device bUseAnimations layout es s)).
  { apply (run_invariant Device bUseAnimations layout domTasksNeedDom);
      [|exact Hs].
    intros e s0 H0 _. apply (handle_keeps_tasks e s0 H0). }
  intros Hn Hp.
  pose proof (Hrun (existsb_nth_error isDomTask n _ p Hn Hp)) as Hd.
  simpl handle. rewrite bind_gets_eq, Hn. destruct p as [d t].
  destruct (dom (run Device bUseAnimations layout es s)) as [w|] eqn:Ed;
    [|discriminate].
  destruct t; try discriminate Hp; simpl runTask;
    unfold _updateScrollBarOffset, _updateFitContainer, Dom_call;
    unfold_monad; simpl; rewrite Ed; simpl;
    try destruct (exists_ (footer (run Device bUseAnimations layout es s)));
    reflexivity.
Qed.

End DelayedCalls.

(** ** Thresholds, the override and the command toggle *)

Section Thresholds.

Variable Device : DeviceSystem.
Variable bUseAnimations : bool.
Variable layout : State -> Geometry.

(** *** The 60% thresholds *)

Lemma Qgtb_six_tenths (e o : Z) :
  Qgtb (inject_Z e) ((6 # 10) * inject_Z o) = (10 * e >? 6 * o).
Proof.
  unfold Qgtb, Qle_bool, Qmult, inject_Z.
  cbn [Qnum Qden].
  change (Z.pos (10 * 1)) with 10.
  rewrite Z.gtb_ltb, Z.ltb_antisym. f_equal. f_equal; lia.
Qed.

(** X18. The two 60% checks compare ten times the height of title and
    header with six times the height of the control (or of the height
    given), in whole pixels; the check for the fixed header is the check
    for the pin at the control's own height.  A header too tall to be
    expanded by a command, that is taller than the control, is too tall
    for both. *)
Theorem sixty_percent_thresholds (s : State) :
  (forall h,
     _headerBiggerThanAllowedToPin layout (Some h) s
     = (10 * _getEntireHeaderHeight layout s >? 6 * h))
  /\ _headerBiggerThanAllowedToBeFixed layout s
     = _headerBiggerThanAllowedToPin layout None s
  /\ (0 <= _getOwnHeight layout s ->
      _headerBiggerThanAllowedToExpandWithACommand layout s = true ->
      _headerBiggerThanAllowedToBeFixed layout s = true).
Proof.
  split; [|split].
  - intros h. unfold _headerBiggerThanAllowedToPin,
      HEADER_MAX_ALLOWED_PINNED_PERCENTAGE.
    apply Qgtb_six_tenths.
  - reflexivity.
  - unfold _headerBiggerThanAllowedToExpandWithACommand,
      _headerBiggerThanAllowedToBeFixed,
      HEADER_MAX_ALLOWED_NON_SROLLABLE_PERCENTAGE.
    rewrite Qgtb_six_tenths. intros Ho Hc.
    apply Z.gtb_lt in Hc. apply Z.gtb_lt. lia.
Qed.

(** *** The override, off the desktop *)

(** X19. When the check finds the always-expanded header too tall, the
    override takes the page out of always-expanded mode without touching
    the property: [_headerBiggerThanAllowedHeight] is set,
    [_headerAlwaysExpanded] answers [false] from then on while
    [headerAlwaysExpanded] is still set, the header, if there is one, is
    handed to the content area, and the header is neither snapped nor
    expanded. *)
Theorem override_leaves_always_expanded_mode (s : State) :
  _shouldOverrideHeaderAlwaysExpanded Device layout s = true ->
  let r := _overrideHeaderAlwaysExpanded Device layout s in
  returns r = true
  /\ _headerBiggerThanAllowedHeight (final r) = true
  /\ _headerAlwaysExpanded (final r) = false
  /\ headerAlwaysExpanded (final r) = true
  /\ _bHeaderInTitleArea (final r)
     = (negb (exists_ (header s)) && _bHeaderInTitleArea s)
  /\ headerExpanded (final r) = headerExpanded s
  /\ snappedClass (final r) = snappedClass s.
Proof.
  intros H. cbv zeta. unfold _overrideHeaderAlwaysExpanded.
  rewrite bind_gets_eq, H. cbn [negb].
  unfold _shouldOverrideHeaderAlwaysExpanded in H.
  destruct (desktop Device) eqn:Hd; [discriminate|]. simpl in H.
  apply andb_true_iff in H. destruct H as [_ Ha].
  unfold _headerAlwaysExpanded in Ha. apply andb_true_iff in Ha.
  destruct Ha as [Ha _].
  unfold bind at 1. cbn [modify].
  unfold _moveHeaderToContentArea, _updateScrollBar, snappedClass,
    _headerAlwaysExpanded.
  unfold_monad. rewrite Hd. destruct_state s. unfold_updates.
  destruct s_header as [[[hd|] ? ? ? ? ?]|], s_dom; simpl; auto 10.
Qed.

(** *** Snapping and expanding, in full *)

Lemma snapHeader_true_result (s : State) (d : Dom) :
  _bPinned s = false ->
  dom s = Some d ->
  exists s1,
    _snapHeader true s = Ok tt s1
    /\ headerExpanded s1 = false
    /\ _bPinned s1 = false
    /\ _headerAlwaysExpanded s1 = _headerAlwaysExpanded s
    /\ dom s1 = Some (set_titleSnapped true d)
    /\ _bHeaderInTitleArea s1
       = (negb (exists_ (title s) && exists_ (header s))
          && _bHeaderInTitleArea s)
    /\ exists_ (title s1) = exists_ (title s)
    /\ exists_ (header s1) = exists_ (header s).
Proof.
  intros Hp Hd. unfold _snapHeader, _moveHeaderToContentArea,
    _headerAlwaysExpanded.
  unfold_monad. destruct_state s. unfold_updates.
  destruct s_title as [[[|] [|] se ss]|],
    s_header as [[[hd|] pb pp ae ap pf]|]; vm_compute;
    eexists; repeat split.
Qed.

Lemma expandHeader_result (b : bool) (s : State) (d : Dom) :
  dom s = Some d ->
  exists s1,
    _expandHeader b s = Ok tt s1
    /\ headerExpanded s1 = true
    /\ _bPinned s1 = _bPinned s
    /\ _bExpandingWithAClick s1 = _bExpandingWithAClick s
    /\ dom s1 = Some (set_titleSnapped false d)
    /\ _bHeaderInTitleArea s1
       = (b && exists_ (title s) && exists_ (header s)
          || _bHeaderInTitleArea s).
Proof.
  intros Hd. unfold _expandHeader, _moveHeaderToTitleArea.
  unfold_monad. destruct_state s. unfold_updates.
  destruct b, s_title as [[[|] [|] se ss]|],
    s_header as [[[hd|] pb pp ae ap pf]|]; vm_compute;
    eexists; repeat split.
Qed.

(** *** Measuring for the scroll bar *)

(** X20. Measuring the offset of the scroll bar is not free of effects.
    For an expanded header that can be snapped by scrolling,
    [_measureScrollBarOffsetHeight] snaps the header, measures the title,
    and expands the header again only if the scroll position is below the
    snapping height: it returns the height of the snapped title, and
    leaves the header expanded exactly in that case, and handed to the
    content area in both. *)
Theorem measuring_snaps_a_scrolled_header
    (s s2 : State) (t : Title) (d : Dom) (pos : Z) :
  headerExpanded s = true ->
  _bPinned s = false ->
  _headerAlwaysExpanded s = false ->
  title s = Some t ->
  dom s = Some d ->
  _canSnapHeaderOnScroll layout s = true ->
  _getScrollPosition Device (final (_snapHeader true s)) = Ok pos s2 ->
  let r := _measureScrollBarOffsetHeight Device layout s in
  let bBelow := pos <? _getSnappingHeight layout s2 in
  returns r = true
  /\ (forall h s', r = Ok h s' ->
      h = _getTitleHeight layout (final (_snapHeader true s)))
  /\ headerExpanded (final r) = bBelow
  /\ snappedClass (final r) = negb bBelow
  /\ _bHeaderInTitleArea (final r)
     = (negb (exists_ (header s)) && _bHeaderInTitleArea s).
Proof.
  intros He Hp Ha Ht Hd Hc. cbv zeta.
  destruct (snapHeader_true_result s d Hp Hd)
    as (s1 & E1 & He1 & Hp1 & Ha1 & Hd1 & Hin1 & _).
  rewrite E1. simpl final. intros Hpos.
  unfold _measureScrollBarOffsetHeight, getHeaderExpanded, getTitle.
  rewrite !bind_gets_eq, He, Ha, Hp. cbn [negb orb].
  rewrite !bind_gets_eq, Ht, Hc. cbn [negb orb exists_].
  rewrite (bind_ok_eq _ _ _ _ _ E1). rewrite bind_gets_eq.
  rewrite Ha in Ha1.
  rewrite (bind_ok_eq _ _ _ _ _ (shouldExpand_value _ _ _ _ _ Ha1 Hpos)).
  assert (Hs2 : headerExpanded s2 = false /\ _bPinned s2 = false
                /\ dom s2 = dom s1
                /\ _bHeaderInTitleArea s2 = _bHeaderInTitleArea s1).
  { destruct (getScrollPosition_frame _ _ _ _ Hpos) as [->| ->]; auto. }
  destruct Hs2 as (He2 & Hp2 & Hd2 & Hin2).
  rewrite He2, Hp2. cbn [negb]. rewrite !andb_true_r.
  rewrite Ht in Hin1. cbn [exists_ andb] in Hin1.
  destruct (pos <? _getSnappingHeight layout s2); cbn [when negb].
  - destruct (expandHeader_result false s2 (set_titleSnapped true d))
      as (s3 & E3 & He3 & _ & _ & Hd3 & Hin3); [congruence|].
    rewrite (bind_ok_eq _ _ _ _ _ E3). unfold snappedClass. simpl.
    rewrite Hd3. simpl. repeat split; auto.
    + intros h s' H. inversion H. reflexivity.
    + simpl in Hin3. congruence.
  - unfold snappedClass. simpl. rewrite Hd2, Hd1. simpl.
    repeat split; auto.
    + intros h s' H. inversion H. reflexivity.
    + congruence.
Qed.

(** *** Expanding with a click *)

(** X21. A command that expands a snapped header on a page that scrolls
    marks the expansion as its own: the header is expanded and handed to
    the title area, and [_bExpandingWithAClick] is set.  The change of
    height that follows is then swallowed: [_onChildControlsHeightChange]
    clears the mark and does nothing else, and on desktop a scroll event
    of the wrapper that arrives in between does not evaluate the
    header. *)
Theorem expanding_with_a_click
    (s : State) (d : Dom) (height oldHeight scrollTop : Z) :
  dom s = Some d ->
  headerExpanded s = false ->
  _headerBiggerThanAllowedToExpandWithACommand layout s = false ->
  _headerAlwaysExpanded s = false ->
  _needsVerticalScrollBar layout s = true ->
  let r := _titleExpandCollapseWhenAllowed Device layout s in
  returns r = true
  /\ headerExpanded (final r) = true
  /\ snappedClass (final r) = false
  /\ _bExpandingWithAClick (final r) = true
  /\ _bHeaderInTitleArea (final r)
     = (exists_ (title s) && exists_ (header s) || _bHeaderInTitleArea s)
  /\ _onChildControlsHeightChange Device layout height oldHeight (final r)
     = Ok tt (set_bExpandingWithAClick false (final r))
  /\ (desktop Device = true ->
      let r' := _onWrapperScroll Device layout scrollTop (final r) in
      returns r' = true
      /\ headerExpanded (final r') = true
      /\ snappedClass (final r') = false
      /\ _bExpandingWithAClick (final r') = true).
Proof.
  intros Hd He Hfit Ha Hn. cbv zeta.
  unfold _titleExpandCollapseWhenAllowed, getHeaderExpanded.
  rewrite !bind_gets_eq, Hfit. cbv iota.
  rewrite !bind_gets_eq, Ha, Hn, He. cbn [negb orb]. cbv iota.
  destruct (expandHeader_result true (set_bExpandingWithAClick true s) d Hd)
    as (s1 & E1 & He1 & Hp1 & Hc1 & Hd1 & Hin1).
  assert (E : (modify (set_bExpandingWithAClick true);; _expandHeader true) s
              = Ok tt s1) by exact E1.
  rewrite E. simpl final. simpl returns. simpl in Hc1, Hin1.
  unfold snappedClass. rewrite Hd1. simpl.
  split; [reflexivity|]. split; [exact He1|]. split; [reflexivity|].
  split; [exact Hc1|]. split; [exact Hin1|]. split.
  - unfold _onChildControlsHeightChange. rewrite bind_gets_eq, Hc1.
    cbn [negb]. rewrite andb_false_r. reflexivity.
  - intros Hdesk. unfold _onWrapperScroll.
    rewrite bind_gets_eq, Hc1, Hdesk. cbn [negb orb when].
    unfold _getScrollBar. unfold_monad.
    destruct (allowCustomScroll s1 && (scrollTop >? 0)); simpl.
    + rewrite Hd1. auto.
    + destruct_state s1. unfold_updates. simpl in *. subst.
      destruct s_scrollBar; simpl; auto.
Qed.

End Thresholds.

(** ** The media classes *)

Section MediaClasses.

(** X22. Whatever classes the control carries, after [_updateMedia]
    exactly one of the four media classes is on, the one the width
    selects by the two break points, and every other class is as
    before. *)
Theorem updateMedia_sets_one_media_class
    (iWidth : Z) (classes : StyleClasses.StyleClasses) (c : string) :
  StyleClasses._updateMedia iWidth classes c
  = if StyleClasses.isMediaClass c
    then String.eqb c (StyleClasses.MEDIA (StyleClasses.mediaOfWidth iWidth))
    else classes c.
Proof.
  unfold StyleClasses._updateMedia, StyleClasses.mediaOfWidth,
    StyleClasses.isMediaClass, StyleClasses._updateMediaStyle,
    StyleClasses.toggleStyleClass.
  cbn [fold_left existsb StyleClasses.MEDIA_keys StyleClasses.MEDIA].
  destruct (iWidth =? 0), (iWidth <=? BREAK_POINTS_PHONE),
    (iWidth <=? BREAK_POINTS_TABLET);
    cbn [StyleClasses.MEDIA];
    destruct (String.eqb c "sapUiHidden") eqn:E1;
    try (apply String.eqb_eq in E1; subst c; reflexivity);
    destruct (String.eqb c "sapFDynamicPage-Std-Phone") eqn:E2;
    try (apply String.eqb_eq in E2; subst c; reflexivity);
    destruct (String.eqb c "sapFDynamicPage-Std-Tablet") eqn:E3;
    try (apply String.eqb_eq in E3; subst c; reflexivity);
    destruct (String.eqb c "sapFDynamicPage-Std-Desktop") eqn:E4;
    try (apply String.eqb_eq in E4; subst c; reflexivity);
    reflexivity.
Qed.

End MediaClasses.

(** ** The resize handlers *)

Section ResizeHandlers.

Variable others : list (nat * Resize.Target).
Variable next : nat.

Lemma filter_id {A : Type} (f : A -> bool) (l : list A) :
  (forall x, In x l -> f x = true) -> filter f l = l.
Proof.
  induction l as [|x l IH]; simpl; intros H; [reflexivity|].
  rewrite (H x) by auto. f_equal. apply IH. auto.
Qed.

Lemma filter_comm {A : Type} (f g : A -> bool) (l : list A) :
  filter f (filter g l) = filter g (filter f l).
Proof.
  induction l as [|x l IH]; simpl; [reflexivity|].
  destruct (f x) eqn:Ef, (g x) eqn:Eg; simpl; rewrite ?Ef, ?Eg, IH;
    reflexivity.
Qed.

Lemma filter_none {A : Type} (f : A -> bool) (l : list A) :
  (forall x, In x l -> f x = false) -> filter f l = [].
Proof.
  induction l as [|x l IH]; simpl; intros H; [reflexivity|].
  rewrite (H x) by auto. apply IH. auto.
Qed.

Ltac eqb_cases :=
  repeat match goal with
         | |- context [Nat.eqb ?a ?b] => destruct (Nat.eqb_spec a b)
         | H : context [Nat.eqb ?a ?b] |- _ => destruct (Nat.eqb_spec a b)
         end.

Lemma count_without (i sId : nat) (l : list (nat * Resize.Target)) :
  List.length
    (filter (fun r => Nat.eqb (fst r) i)
       (filter (fun r => negb (Nat.eqb (fst r) sId)) l))
  = if Nat.eqb i sId then 0%nat
    else List.length (filter (fun r => Nat.eqb (fst r) i) l).
Proof.
  induction l as [|x l IH]; simpl.
  - now destruct (Nat.eqb i sId).
  - destruct (Nat.eqb_spec (fst x) sId), (Nat.eqb_spec (fst x) i); simpl;
      rewrite ?IH; destruct (Nat.eqb_spec i sId); simpl;
      try reflexivity; try lia;
      destruct (Nat.eqb_spec (fst x) i); simpl; lia.
Qed.

Lemma below_others (h : Resize.Handlers) (r : nat * Resize.Target) :
  Resize.below next (Resize.registered h) = others ->
  In r others -> (fst r < next)%nat.
Proof.
  intros H Hin. rewrite <- H in Hin. unfold Resize.below in Hin.
  apply filter_In in Hin. destruct Hin as [_ Hlt].
  now apply Nat.ltb_lt.
Qed.

(** The slots after a write to one of them. *)

Lemma slot_set_slot (k k' : Resize.RESIZE_HANDLER_ID) (v : option nat)
    (h : Resize.Handlers) :
  Resize.slot k' (Resize.set_slot k v h)
  = match k, k' with
    | Resize.PAGE, Resize.PAGE | Resize.TITLE, Resize.TITLE
    | Resize.CONTENT, Resize.CONTENT => v
    | _, _ => Resize.slot k' h
    end.
Proof. destruct k, k'; reflexivity. Qed.

Lemma heldCount_set_some (k : Resize.RESIZE_HANDLER_ID) (i j : nat)
    (h : Resize.Handlers) :
  Resize.slot k h = None ->
  Resize.heldCount i (Resize.set_slot k (Some j) h)
  = (Resize.heldCount i h + (if Nat.eqb j i then 1 else 0))%nat.
Proof.
  unfold Resize.heldCount, Resize.holds_in.
  destruct k; simpl; intros ->; simpl; destruct (Nat.eqb j i); lia.
Qed.

Lemma heldCount_set_none (k : Resize.RESIZE_HANDLER_ID) (i j : nat)
    (h : Resize.Handlers) :
  Resize.slot k h = Some j ->
  (Resize.heldCount i (Resize.set_slot k None h)
   + (if Nat.eqb j i then 1 else 0))%nat
  = Resize.heldCount i h.
Proof.
  unfold Resize.heldCount, Resize.holds_in.
  destruct k; simpl; intros ->; simpl; destruct (Nat.eqb j i); lia.
Qed.

Lemma heldCount_zero (i : nat) (h : Resize.Handlers) :
  (forall k j, Resize.slot k h = Some j -> j <> i) ->
  Resize.heldCount i h = 0%nat.
Proof.
  intros H. unfold Resize.heldCount, Resize.holds_in.
  pose proof (H Resize.PAGE) as H1. pose proof (H Resize.TITLE) as H2.
  pose proof (H Resize.CONTENT) as H3.
  destruct (Resize.slot Resize.PAGE h) as [a|],
    (Resize.slot Resize.TITLE h) as [b|],
    (Resize.slot Resize.CONTENT h) as [c|]; simpl;
    try specialize (H1 _ eq_refl); try specialize (H2 _ eq_refl);
    try specialize (H3 _ eq_refl); eqb_cases; lia.
Qed.

Lemma register_consistent (k : Resize.RESIZE_HANDLER_ID) (t : Resize.Target)
    (h : Resize.Handlers) :
  handlersConsistent others next h ->
  handlersConsistent others next (Resize._registerResizeHandler k t h).
Proof.
  intros (H1 & H2 & H3 & H4 & H5 & H6).
  unfold Resize._registerResizeHandler.
  destruct (Resize.slot k h) as [j|] eqn:Es.
  { repeat split; auto; now apply H4 with k0. }
  assert (Hzero : Resize.heldCount (Resize.nextId h) h = 0%nat).
  { apply heldCount_zero. intros k' j' Hk'. specialize (H4 _ _ Hk'). lia. }
  set (h1 := snd (Resize.ResizeHandler_register t h)).
  change (handlersConsistent others next
            (Resize.set_slot k (Some (Resize.nextId h)) h1)).
  assert (Es1 : Resize.slot k h1 = None) by (destruct k; exact Es).
  assert (Hheld : forall i, Resize.heldCount i h1 = Resize.heldCount i h)
    by reflexivity.
  assert (Hslot : forall k', Resize.slot k' h1 = Resize.slot k' h)
    by (intros k'; destruct k'; reflexivity).
  assert (Hreg : Resize.registered
                   (Resize.set_slot k (Some (Resize.nextId h)) h1)
                 = (Resize.registered h ++ [(Resize.nextId h, t)])%list)
    by (destruct k; reflexivity).
  assert (Hnx : Resize.nextId (Resize.set_slot k (Some (Resize.nextId h)) h1)
                = S (Resize.nextId h))
    by (destruct k; reflexivity).
  unfold handlersConsistent, Resize.registeredCount.
  rewrite Hreg, Hnx. repeat split.
  - unfold Resize.below in *. rewrite filter_app. simpl.
    replace (Nat.ltb (Resize.nextId h) next) with false
      by (symmetry; apply Nat.ltb_ge; lia).
    now rewrite app_nil_r.
  - intros i Hi. rewrite filter_app, length_app. simpl.
    rewrite (heldCount_set_some k i _ h1 Es1), Hheld, <- (H2 i Hi).
    unfold Resize.registeredCount. now destruct (Nat.eqb (Resize.nextId h) i).
  - intros i. rewrite (heldCount_set_some k i _ h1 Es1), Hheld.
    destruct (Nat.eqb_spec (Resize.nextId h) i); [subst i|];
      [rewrite Hzero; lia | specialize (H3 i); lia].
  - rewrite slot_set_slot in H.
    destruct k, k0; rewrite ?Hslot in H; try (inversion H; subst; lia);
      apply (H4 _ _ H).
  - rewrite slot_set_slot in H.
    destruct k, k0; rewrite ?Hslot in H; try (inversion H; subst; lia);
      specialize (H4 _ _ H); lia.
  - intros r H. apply in_app_or in H. destruct H as [H|[<-|[]]].
    + specialize (H5 r H). lia.
    + simpl. lia.
  - lia.
Qed.

Lemma deRegister_consistent (k : Resize.RESIZE_HANDLER_ID)
    (h : Resize.Handlers) :
  handlersConsistent others next h ->
  handlersConsistent others next (Resize._deRegisterResizeHandler k h).
Proof.
  intros (H1 & H2 & H3 & H4 & H5 & H6).
  unfold Resize._deRegisterResizeHandler.
  destruct (Resize.slot k h) as [j|] eqn:Es.
  2:{ repeat split; auto; now apply H4 with k0. }
  pose proof (H4 _ _ Es) as Hj.
  set (h1 := Resize.ResizeHandler_deregister j h).
  assert (Es1 : Resize.slot k h1 = Some j) by (destruct k; exact Es).
  assert (Hheld : forall i, Resize.heldCount i h1 = Resize.heldCount i h)
    by reflexivity.
  assert (Hslot : forall k', Resize.slot k' h1 = Resize.slot k' h)
    by (intros k'; destruct k'; reflexivity).
  assert (Hreg : Resize.registered (Resize.set_slot k None h1)
                 = filter (fun r => negb (Nat.eqb (fst r) j))
                     (Resize.registered h))
    by (destruct k; reflexivity).
  assert (Hnx : Resize.nextId (Resize.set_slot k None h1) = Resize.nextId h)
    by (destruct k; reflexivity).
  unfold handlersConsistent, Resize.registeredCount.
  rewrite Hreg, Hnx. repeat split.
  - unfold Resize.below in *. rewrite filter_comm, H1.
    apply filter_id. intros r Hr.
    pose proof (below_others h r H1 Hr). apply negb_true_iff.
    apply Nat.eqb_neq. lia.
  - intros i Hi. rewrite count_without.
    pose proof (heldCount_set_none k i j h1 Es1) as Hc.
    rewrite Hheld in Hc. specialize (H2 i Hi). specialize (H3 i).
    unfold Resize.registeredCount in H2.
    destruct (Nat.eqb_spec i j), (Nat.eqb_spec j i); try lia.
  - intros i. pose proof (heldCount_set_none k i j h1 Es1) as Hc.
    rewrite Hheld in Hc. specialize (H3 i). lia.
  - rewrite slot_set_slot in H.
    destruct k, k0; rewrite ?Hslot in H; try discriminate H;
      apply (H4 _ _ H).
  - rewrite slot_set_slot in H.
    destruct k, k0; rewrite ?Hslot in H; try discriminate H;
      specialize (H4 _ _ H); lia.
  - intros r H. apply filter_In in H. destruct H as [H _]. apply (H5 r H).
  - exact H6.
Qed.

Lemma cacheTitleDom_consistent (b : bool) (h : Resize.Handlers) :
  handlersConsistent others next h ->
  handlersConsistent others next (Resize._cacheTitleDom b h).
Proof. intros H. exact H. Qed.

Lemma cacheDomElements_consistent (b : bool) (h : Resize.Handlers) :
  handlersConsistent others next h ->
  handlersConsistent others next (Resize._cacheDomElements b h).
Proof. intros H. exact H. Qed.

Lemma attach_consistent (h : Resize.Handlers) :
  handlersConsistent others next h ->
  handlersConsistent others next (Resize._attachResizeHandlers h).
Proof.
  intros H. unfold Resize._attachResizeHandlers. cbv zeta.
  repeat match goal with
         | |- context [if ?c then _ else _] => destruct c
         end;
    repeat apply register_consistent; exact H.
Qed.

Lemma detach_consistent (h : Resize.Handlers) :
  handlersConsistent others next h ->
  handlersConsistent others next (Resize._detachResizeHandlers h).
Proof.
  intros H. unfold Resize._detachResizeHandlers.
  repeat apply deRegister_consistent. exact H.
Qed.

Lemma perform_consistent (o : Resize.Op) (h : Resize.Handlers) :
  handlersConsistent others next h ->
  handlersConsistent others next (Resize.perform o h).
Proof.
  intros H. destruct o; simpl.
  - apply attach_consistent, detach_consistent,
      cacheDomElements_consistent, H.
  - apply register_consistent, deRegister_consistent,
      cacheTitleDom_consistent, H.
  - apply detach_consistent, H.
Qed.

Lemma fresh_consistent :
  Forall (fun r => (fst r < next)%nat) others ->
  handlersConsistent others next (Resize.fresh others next).
Proof.
  intros H. rewrite Forall_forall in H.
  unfold handlersConsistent, Resize.registeredCount, Resize.below. simpl.
  split; [|split; [|split; [|split; [|split]]]].
  - apply filter_id. intros r Hr. apply Nat.ltb_lt. now apply H.
  - intros i Hi. rewrite filter_none; [reflexivity|].
    intros r Hr. specialize (H r Hr). apply Nat.eqb_neq. lia.
  - intros i. unfold Resize.heldCount, Resize.holds_in. simpl. lia.
  - intros k i Hk. destruct k; discriminate.
  - intros r Hr. now apply H.
  - lia.
Qed.

Lemma detach_slots (k : Resize.RESIZE_HANDLER_ID) (h : Resize.Handlers) :
  Resize.slot k (Resize._detachResizeHandlers h) = None.
Proof.
  destruct h as [[a|] [b|] [c|] tc cc reg nx], k; reflexivity.
Qed.

(** X23. The resize handlers do not leak.  Whatever renderings of the
    page and of the title and whatever exits follow one another, the
    registrations of others are untouched, every id handed out to the
    control is registered exactly as often as the control holds it, at
    most once, and after [exit] only the registrations of the others are
    left. *)
Theorem resize_handlers_do_not_leak (ops : list Resize.Op) :
  Forall (fun r => (fst r < next)%nat) others ->
  let h := Resize.perform_all ops (Resize.fresh others next) in
  Resize.below next (Resize.registered h) = others
  /\ (forall i, (next <= i)%nat ->
        Resize.registeredCount i h = Resize.heldCount i h)
  /\ (forall i, (Resize.heldCount i h <= 1)%nat)
  /\ Resize.registered (Resize.exit h) = others.
Proof.
  intros Ho. cbv zeta.
  assert (H : handlersConsistent others next
                (Resize.perform_all ops (Resize.fresh others next))).
  { unfold Resize.perform_all.
    generalize (fresh_consistent Ho).
    generalize (Resize.fresh others next).
    induction ops as [|o ops IH]; intros h Hh; simpl; [exact Hh|].
    apply IH. now apply perform_consistent. }
  pose proof (detach_consistent _ H) as (E1 & E2 & _).
  destruct H as (H1 & H2 & H3 & _).
  split; [exact H1|]. split; [exact H2|]. split; [exact H3|].
  unfold Resize.exit. rewrite <- E1 at 2. symmetry.
  apply filter_id. intros r Hr. apply Nat.ltb_lt.
  destruct (Nat.lt_ge_cases (fst r) next) as [Hlt|Hge]; [exact Hlt|].
  exfalso. specialize (E2 _ Hge).
  rewrite heldCount_zero in E2
    by (intros k j Hk; rewrite detach_slots in Hk; discriminate).
  unfold Resize.registeredCount in E2.
  assert (Hin : In r (filter (fun r0 => Nat.eqb (fst r0) (fst r))
                        (Resize.registered
                           (Resize._detachResizeHandlers
                              (Resize.perform_all ops
                                 (Resize.fresh others next)))))).
  { apply filter_In. split; [exact Hr | apply Nat.eqb_refl]. }
  destruct (filter _ _); [contradiction | discriminate].
Qed.

End ResizeHandlers.

(** X24. A rendering registers all handlers anew: whatever the slots
    held before is given up, and the page and the content get ids that
    the ResizeHandler hands out now; the title gets one exactly when its
    DOM has been cached, now or at an earlier rendering. *)
Theorem rendering_registers_anew (bTitle : bool) (h : Resize.Handlers) :
  let h' := Resize.onAfterRendering bTitle h in
  let bTitleDom := bTitle || Resize.title_cached h in
  Resize.slot Resize.PAGE h' = Some (Resize.nextId h)
  /\ Resize.slot Resize.TITLE h'
     = (if bTitleDom then Some (S (Resize.nextId h)) else None)
  /\ Resize.slot Resize.CONTENT h'
     = Some (if bTitleDom then S (S (Resize.nextId h))
             else S (Resize.nextId h))
  /\ Resize.nextId h'
     = (if bTitleDom then 3 + Resize.nextId h else 2 + Resize.nextId h)%nat.
Proof.
  cbv zeta.
  destruct h as [[a|] [b|] [c|] tc cc reg nx], bTitle, tc;
    repeat split.
Qed.

(** ** The properties at concrete pages *)

(** *** C1 *)

(** A header that was pinned while snapped is expanded by
    [_expandHeader] and by a press on the title, although it is pinned. *)
Lemma pinned_header_still_expands :
  let dev := tabletDevice in
  let lay := fixedLayout geoTitleHeader in
  let s := run dev false lay runPinWhileSnapped initial in
  _bPinned s = true
  /\ headerExpanded s = false
  /\ snappedClass s = true
  /\ headerExpanded (final (_expandHeader false s)) = true
  /\ snappedClass (final (_expandHeader false s)) = false
  /\ headerExpanded (step dev false lay EvTitlePress s) = true
  /\ snappedClass (step dev false lay EvTitlePress s) = false.
Proof. vm_compute. repeat split. Qed.

Lemma pinned_blocks_snap_witness :
  _bPinned pinnedPage = true
  /\ _snapHeader true pinnedPage
     = Ok tt (add_log (LogDebug msgPinned) pinnedPage).
Proof.
  split; [reflexivity|].
  destruct (pinned_blocks_snap tabletDevice (fixedLayout geoTitleHeader)
              pinnedPage true eq_refl) as (_ & H2 & _).
  exact H2.
Defined.

(** *** C2 *)

(** An always-expanded page whose header fits: a press on the title
    snaps it. *)
Lemma alwaysExpanded_header_snapped_by_command :
  let dev := desktopDevice in
  let lay := fixedLayout geoTitleOnly in
  let s := run dev false lay runPressAlwaysExpanded initial in
  reachable dev false lay s
  /\ headerAlwaysExpanded s = true
  /\ _headerBiggerThanAllowedHeight s = false
  /\ headerExpanded s = false.
Proof.
  split; [exists runPressAlwaysExpanded; reflexivity|].
  vm_compute. repeat split.
Qed.

Lemma alwaysExpanded_only_command_snaps_witness :
  _headerAlwaysExpanded alwaysExpandedPage = true
  /\ headerExpanded alwaysExpandedPage = true
  /\ headerExpanded
       (step desktopDevice false (fixedLayout geoTitleOnly)
          (EvScrollBarScroll 500) alwaysExpandedPage) = true
  /\ headerExpanded
       (final (_titleExpandCollapseWhenAllowed desktopDevice
                 (fixedLayout geoTitleOnly) alwaysExpandedPage)) = false.
Proof.
  destruct (alwaysExpanded_only_command_snaps desktopDevice false
              (fixedLayout geoTitleOnly) (EvScrollBarScroll 500)
              alwaysExpandedPage eq_refl eq_refl) as [H1 H2].
  split; [reflexivity|]. split; [reflexivity|]. split.
  - exact (H1 eq_refl).
  - exact (H2 eq_refl eq_refl eq_refl).
Defined.

(** *** C3 *)

(** Two renderings schedule two checks: the first sets the flag, the
    second, run on the same page with the same too-tall header, resets
    it. *)
Lemma second_override_check_resets_flag :
  let dev := tabletDevice in
  let lay := fixedLayout geoSeventyPercent in
  let s := run dev false lay runRenderTwice initial in
  _headerBiggerThanAllowedHeight s = true
  /\ headerAlwaysExpanded s = true
  /\ _headerBiggerThanAllowedToBeFixed lay s = true
  /\ _headerBiggerThanAllowedHeight (step dev false lay (EvTimer 0) s) = false.
Proof. vm_compute. repeat split. Qed.

Lemma override_stays_once_settled_witness :
  let dev := tabletDevice in
  let lay := fixedLayout geoSeventyPercent in
  let s := run dev false lay runOverride initial in
  _headerBiggerThanAllowedHeight s = true
  /\ scheduledOverrides s = 0%nat
  /\ _headerBiggerThanAllowedHeight (run dev false lay runAfterOverride s)
     = true.
Proof.
  cbv zeta.
  destruct (override_stays_once_settled tabletDevice false
              (fixedLayout geoSeventyPercent) runAfterOverride
              (run tabletDevice false (fixedLayout geoSeventyPercent)
                 runOverride initial)
              eq_refl eq_refl) as [H _].
  split; [reflexivity|]. split; [reflexivity|]. exact H.
Defined.

(** *** C4 *)

(** A snap attempt on a page that was never rendered warns that there is
    no title, after it has switched the title to its snapped content
    and, when asked to move the header, after it has cleared
    [_bHeaderInTitleArea]. *)
Lemma snap_without_title_area_is_not_atomic :
  let msg := "DynamicPage :: couldn't snap header. There's no title." in
  let r := _snapHeader false unrenderedPage in
  let r' := _snapHeader true unpinnedUnrenderedPage in
  returns r = true
  /\ log (final r)
     = [LogDebug "DynamicPage :: snapped header"; LogWarning msg]
  /\ option_map showExpandContent (title unrenderedPage) = Some true
  /\ option_map showExpandContent (title (final r)) = Some false
  /\ option_map showSnapContent (title unrenderedPage) = Some false
  /\ option_map showSnapContent (title (final r)) = Some true
  /\ warnings (final r') = [LogWarning msg]
  /\ _bHeaderInTitleArea unpinnedUnrenderedPage = true
  /\ _bHeaderInTitleArea (final r') = false.
Proof. vm_compute. repeat split. Qed.

Lemma warned_attempt_witness :
  let r := _snapHeader false unrenderedPage in
  warnings (final r) <> warnings unrenderedPage
  /\ returns r = true
  /\ headerExpanded (final r) = headerExpanded unrenderedPage
  /\ snappedClass (final r) = snappedClass unrenderedPage.
Proof.
  cbv zeta.
  assert (Hw : warnings (final (attempt desktopDevice (fixedLayout geoTitleOnly)
                                  (AttemptSnap false) unrenderedPage))
               <> warnings unrenderedPage)
    by (vm_compute; discriminate).
  destruct (warned_attempt_keeps_expanded desktopDevice
              (fixedLayout geoTitleOnly) (AttemptSnap false) unrenderedPage Hw)
    as (H1 & H2 & H3 & _).
  split; [exact Hw|]. split; [exact H1|]. split; [exact H2 | exact H3].
Defined.

(** *** C5 *)

(** A header of 500px in a control of 400px: the command toggle only
    warns. *)
Lemma titleToggle_too_tall_witness :
  _headerBiggerThanAllowedToExpandWithACommand
    (fixedLayout geoTallHeader) headerOnlyPage = true
  /\ _titleExpandCollapseWhenAllowed desktopDevice (fixedLayout geoTallHeader)
       headerOnlyPage
     = Ok tt (add_log (LogWarning msgNoSpace) headerOnlyPage).
Proof.
  split; [reflexivity|].
  apply (titleToggle_too_tall_aborts desktopDevice (fixedLayout geoTallHeader)
           headerOnlyPage).
  reflexivity.
Defined.

(** *** C6 *)

(** The scroll bar is dragged back to the top: its handler arms
    [allowCustomScroll], and the echo on the wrapper, with [scrollTop]
    0, arms [allowInnerDiv] without consuming it. *)
Lemma both_flags_armed_at_top :
  let s := run desktopDevice false (fixedLayout geoTitleOnly)
             runScrollToTop initial in
  allowInnerDiv s = true /\ allowCustomScroll s = true.
Proof. vm_compute. split; reflexivity. Qed.

Lemma scroll_flags_witness :
  bothArmed initial = false
  /\ forallb notAtTop runScrollNearTop = true
  /\ bothArmed (run desktopDevice false (fixedLayout geoTitleOnly)
                  runScrollNearTop initial) = false.
Proof.
  destruct (scroll_flags_armed_one_at_a_time desktopDevice false
              (fixedLayout geoTitleOnly) runScrollNearTop initial
              eq_refl eq_refl) as [H _].
  split; [reflexivity|]. split; [reflexivity|]. exact H.
Defined.

(** *** C7 *)

(** With 100.4px of viewport over a scroll height of 100 the maximum
    scroll position is -1. *)
Lemma getMaxScrollPosition_negative :
  _getMaxScrollPosition (fixedLayout geoSubpixel) (renderedAt 0) = -1
  /\ _getMaxScrollPosition (fixedLayout geoSubpixel) (renderedAt 0) < 0.
Proof. split; [reflexivity | vm_compute; reflexivity]. Qed.

(** *** C8 *)

(** On a tablet, a header of 100px and the wrapper scrolled to 101. *)
Lemma toggleHeader_snaps_witness :
  headerExpanded (renderedAt 101) = true
  /\ _bPinned (renderedAt 101) = false
  /\ headerAlwaysExpanded (renderedAt 101) = false
  /\ _getScrollPosition tabletDevice (renderedAt 101)
     = Ok (_getSnappingHeight (fixedLayout geoTitleHeader) (renderedAt 101) + 1)
          (renderedAt 101)
  /\ (let r := _toggleHeader tabletDevice (fixedLayout geoTitleHeader)
                 (renderedAt 101) in
      returns r = true
      /\ headerExpanded (final r) = false
      /\ option_map titleSnapped (dom (final r)) = Some true).
Proof.
  repeat (split; [reflexivity|]).
  apply (toggleHeader_snaps_above_snapping_height tabletDevice
           (fixedLayout geoTitleHeader) (renderedAt 101) (renderedAt 101) 101
           (set_wrapperScrollTop 101 freshDom));
    reflexivity.
Defined.

(** ** Further instances *)

(** *** X1, X2: the evaluation below and at the snapping height *)

(** On a tablet, a snapped header of 100px and the wrapper scrolled to
    50. *)
Lemma toggleHeader_expands_witness :
  headerExpanded (snappedPageAt 50) = false
  /\ _bPinned (snappedPageAt 50) = false
  /\ _headerAlwaysExpanded (snappedPageAt 50) = false
  /\ _getScrollPosition tabletDevice (snappedPageAt 50)
     = Ok 50 (snappedPageAt 50)
  /\ 50 < _getSnappingHeight (fixedLayout geoTitleHeader) (snappedPageAt 50)
  /\ (let r := _toggleHeader tabletDevice (fixedLayout geoTitleHeader)
                 (snappedPageAt 50) in
      returns r = true
      /\ headerExpanded (final r) = true
      /\ option_map titleSnapped (dom (final r)) = Some false
      /\ _bHeaderInTitleArea (final r)
         = _bHeaderInTitleArea (snappedPageAt 50)).
Proof.
  repeat (split; [reflexivity|]).
  apply (toggleHeader_expands_below_snapping_height tabletDevice
           (fixedLayout geoTitleHeader) (snappedPageAt 50) (snappedPageAt 50)
           50 (set_titleSnapped true (set_wrapperScrollTop 50 freshDom)));
    reflexivity.
Defined.

(** The wrapper scrolled to exactly 100, the height of the header. *)
Lemma toggleHeader_idle_witness :
  _getScrollPosition tabletDevice (renderedAt 100) = Ok 100 (renderedAt 100)
  /\ 100 = _getSnappingHeight (fixedLayout geoTitleHeader) (renderedAt 100)
  /\ (let r := _toggleHeader tabletDevice (fixedLayout geoTitleHeader)
                 (renderedAt 100) in
      returns r = true
      /\ headerExpanded (final r) = headerExpanded (renderedAt 100)
      /\ snappedClass (final r) = snappedClass (renderedAt 100)).
Proof.
  repeat (split; [reflexivity|]).
  apply (toggleHeader_idle_at_snapping_height tabletDevice
           (fixedLayout geoTitleHeader) (renderedAt 100) (renderedAt 100) 100);
    reflexivity.
Defined.

(** *** X4, X5, X6: the scroll position *)


Lemma scroll_position_unrendered_witness :
  dom unrenderedPage = None
  /\ _setScrollPosition tabletDevice 42 unrenderedPage = Ok tt unrenderedPage
  /\ (desktop tabletDevice = false ->
      _getScrollPosition tabletDevice unrenderedPage = Throw unrenderedPage).
Proof.
  split; [reflexivity|].
  apply (scroll_position_unrendered tabletDevice 42 unrenderedPage).
  reflexivity.
Defined.


(** *** X7: a ready page *)

(** The user scrolls the header out, pins it and shows the footer; then
    the first delayed call runs. *)
Lemma ready_page_witness :
  let es := [EvWrapperScroll 101; EvPinUnpinPress; EvSetShowFooter true] in
  let s' := run desktopDevice true (fixedLayout geoTitleHeader) es readyPage in
  ready readyPage = true
  /\ ready s' = true
  /\ (enabled (EvTimer 0) s' = true ->
      returns (handle desktopDevice true (fixedLayout geoTitleHeader)
                 (EvTimer 0) s') = true).
Proof.
  cbv zeta. split; [reflexivity|].
  apply (ready_page_never_raises desktopDevice true
           (fixedLayout geoTitleHeader)
           [EvWrapperScroll 101; EvPinUnpinPress; EvSetShowFooter true]
           (EvTimer 0) readyPage).
  reflexivity.
Defined.

(** *** X9, X10, X11: pinning and resizing *)

Lemma pin_witness :
  header (renderedAt 0) = Some renderedHeader
  /\ _bPinned (renderedAt 0) = false
  /\ (let r := _pin desktopDevice (fixedLayout geoTitleHeader) (renderedAt 0) in
      returns r = true
      /\ _bPinned (final r) = true
      /\ _bHeaderInTitleArea (final r) = true
      /\ option_map ariaPinned (header (final r)) = Some true
      /\ headerExpanded (final r) = headerExpanded (renderedAt 0)
      /\ snappedClass (final r) = snappedClass (renderedAt 0)
      /\ title (final r) = title (renderedAt 0)).
Proof.
  repeat (split; [reflexivity|]).
  apply (pin_moves_header_to_title_area desktopDevice
           (fixedLayout geoTitleHeader) (renderedAt 0) renderedHeader);
    reflexivity.
Defined.

Lemma pinUnpinPress_witness :
  header pinnedPage = Some renderedHeader
  /\ (let r := _onPinUnpinButtonPress desktopDevice
                 (fixedLayout geoTitleHeader) pinnedPage in
      returns r = true
      /\ _bPinned (final r) = negb (_bPinned pinnedPage)
      /\ option_map ariaPinned (header (final r))
         = Some (negb (_bPinned pinnedPage))
      /\ option_map pinBtnFocused (header (final r))
         = Some (negb (_bPinned pinnedPage) || pinBtnFocused renderedHeader)
      /\ headerExpanded (final r) = headerExpanded pinnedPage
      /\ snappedClass (final r) = snappedClass pinnedPage).
Proof.
  split; [reflexivity|].
  apply (pinUnpinPress_toggles desktopDevice (fixedLayout geoTitleHeader)
           pinnedPage renderedHeader).
  reflexivity.
Defined.

(** The pinned page is resized to 200px: title and header take 150px of
    them. *)
Lemma onResize_witness :
  let layout := fixedLayout geoTitleHeader in
  header pinnedPage = Some renderedHeader
  /\ _headerAlwaysExpanded pinnedPage = false
  /\ (_headerBiggerThanAllowedToPin layout (Some 200) pinnedPage
      || phone desktopDevice) = true
  /\ (let r := _onResize desktopDevice layout 800 200 pinnedPage in
      returns r = true
      /\ _bPinned (final r) = false
      /\ option_map showPinBtn (header (final r)) = Some false
      /\ option_map pinBtnPressed (header (final r)) = Some false).
Proof.
  cbv zeta.
  repeat (split; [reflexivity|]).
  apply (onResize_unpins_tall_header desktopDevice
           (fixedLayout geoTitleHeader) 800 200 pinnedPage renderedHeader);
    reflexivity.
Defined.

(** *** X14 to X17: the invariants *)

(** The pinned page is scrolled and its title is pressed. *)
Lemma pinned_header_stays_witness :
  let s' := run desktopDevice false (fixedLayout geoTitleHeader)
              [EvWrapperScroll 101; EvTitlePress] pinnedPage in
  desktop desktopDevice = true
  /\ (_bPinned pinnedPage = true -> _bHeaderInTitleArea pinnedPage = true)
  /\ _bPinned s' = true
  /\ _bHeaderInTitleArea s' = true.
Proof.
  cbv zeta.
  split; [reflexivity|]. split; [intros _; reflexivity|].
  split; [reflexivity|].
  apply (pinned_header_stays_in_title_area desktopDevice false
           (fixedLayout geoTitleHeader)
           [EvWrapperScroll 101; EvTitlePress] pinnedPage);
    [reflexivity | intros _; reflexivity | reflexivity].
Defined.

Lemma no_override_on_desktop_witness :
  let s' := run desktopDevice false (fixedLayout geoSeventyPercent)
              (runOverride ++ runAfterOverride) initial in
  desktop desktopDevice = true
  /\ _headerBiggerThanAllowedHeight initial = false
  /\ _headerBiggerThanAllowedHeight s' = false
  /\ _headerAlwaysExpanded s' = headerAlwaysExpanded s'.
Proof.
  cbv zeta.
  split; [reflexivity|]. split; [reflexivity|].
  apply (no_override_on_desktop desktopDevice false
           (fixedLayout geoSeventyPercent)
           (runOverride ++ runAfterOverride) initial);
    reflexivity.
Defined.

Lemma no_scroll_bar_off_desktop_witness :
  desktop tabletDevice = false
  /\ noScrollBar initial
  /\ noScrollBar (run tabletDevice false (fixedLayout geoTitleHeader)
                    runPinWhileSnapped initial).
Proof.
  assert (H : noScrollBar initial) by (repeat split; reflexivity).
  split; [reflexivity|]. split; [exact H|].
  apply (no_scroll_bar_off_desktop tabletDevice false
           (fixedLayout geoTitleHeader) eq_refl runPinWhileSnapped initial H).
Defined.

(** The rendered page is resized on desktop: the scroll bar update
    schedules its two writes, and the first one runs. *)
Lemma delayed_dom_writes_witness :
  let s' := run desktopDevice false (fixedLayout geoTitleHeader)
              [EvResize 800 400] (renderedAt 0) in
  domTasksNeedDom (renderedAt 0)
  /\ nth_error (pending s') 0 = Some (0, T_updateScrollBarOffset)
  /\ isDomTask (0, T_updateScrollBarOffset) = true
  /\ returns (handle desktopDevice false (fixedLayout geoTitleHeader)
                (EvTimer 0) s') = true.
Proof.
  cbv zeta.
  assert (H : domTasksNeedDom (renderedAt 0)) by (intros _; reflexivity).
  split; [exact H|]. split; [reflexivity|]. split; [reflexivity|].
  apply (delayed_dom_writes_never_raise desktopDevice false
           (fixedLayout geoTitleHeader) [EvResize 800 400] (renderedAt 0)
           0%nat (0, T_updateScrollBarOffset) H);
    reflexivity.
Defined.

(** *** X19, X20, X21 *)

Lemma override_witness :
  let layout := fixedLayout geoSeventyPercent in
  _shouldOverrideHeaderAlwaysExpanded tabletDevice layout beforeOverride = true
  /\ (let r := _overrideHeaderAlwaysExpanded tabletDevice layout
                 beforeOverride in
      returns r = true
      /\ _headerBiggerThanAllowedHeight (final r) = true
      /\ _headerAlwaysExpanded (final r) = false
      /\ headerAlwaysExpanded (final r) = true
      /\ _bHeaderInTitleArea (final r) = false
      /\ headerExpanded (final r) = headerExpanded beforeOverride
      /\ snappedClass (final r) = snappedClass beforeOverride).
Proof.
  cbv zeta. split; [reflexivity|].
  apply (override_leaves_always_expanded_mode tabletDevice
           (fixedLayout geoSeventyPercent) beforeOverride).
  reflexivity.
Defined.

(** The wrapper is at 150, past the header of 100px: measuring leaves the
    header snapped. *)
Lemma measuring_witness :
  let layout := fixedLayout geoTitleHeader in
  let s := renderedAt 150 in
  let s2 := final (_snapHeader true s) in
  headerExpanded s = true
  /\ _bPinned s = false
  /\ _headerAlwaysExpanded s = false
  /\ title s = Some plainTitle
  /\ dom s = Some (set_wrapperScrollTop 150 freshDom)
  /\ _canSnapHeaderOnScroll layout s = true
  /\ _getScrollPosition tabletDevice s2 = Ok 150 s2
  /\ (let r := _measureScrollBarOffsetHeight tabletDevice layout s in
      returns r = true
      /\ (forall h s', r = Ok h s' -> h = _getTitleHeight layout s2)
      /\ headerExpanded (final r) = false
      /\ snappedClass (final r) = true
      /\ _bHeaderInTitleArea (final r) = false).
Proof.
  cbv zeta.
  do 7 (split; [vm_compute; reflexivity|]).
  apply (measuring_snaps_a_scrolled_header tabletDevice
           (fixedLayout geoTitleHeader) (renderedAt 150)
           (final (_snapHeader true (renderedAt 150))) plainTitle
           (set_wrapperScrollTop 150 freshDom) 150);
    vm_compute; reflexivity.
Defined.

Lemma expanding_with_a_click_witness :
  let layout := fixedLayout geoTitleHeader in
  let s := snappedPageAt 150 in
  dom s = Some (set_titleSnapped true (set_wrapperScrollTop 150 freshDom))
  /\ headerExpanded s = false
  /\ _headerBiggerThanAllowedToExpandWithACommand layout s = false
  /\ _headerAlwaysExpanded s = false
  /\ _needsVerticalScrollBar layout s = true
  /\ (let r := _titleExpandCollapseWhenAllowed desktopDevice layout s in
      returns r = true
      /\ headerExpanded (final r) = true
      /\ snappedClass (final r) = false
      /\ _bExpandingWithAClick (final r) = true
      /\ _bHeaderInTitleArea (final r) = true
      /\ _onChildControlsHeightChange desktopDevice layout 10 20 (final r)
         = Ok tt (set_bExpandingWithAClick false (final r))).
Proof.
  cbv zeta.
  do 5 (split; [vm_compute; reflexivity|]).
  destruct (expanding_with_a_click desktopDevice
              (fixedLayout geoTitleHeader) (snappedPageAt 150)
              (set_titleSnapped true (set_wrapperScrollTop 150 freshDom))
              10 20 5 eq_refl eq_refl eq_refl eq_refl eq_refl)
    as (H1 & H2 & H3 & H4 & H5 & H6 & _).
  split; [exact H1|]. split; [exact H2|]. split; [exact H3|].
  split; [exact H4|]. split; [exact H5 | exact H6].
Defined.

(** *** X23: the resize handlers *)

(** Someone else holds registration 0.  The page is rendered with a
    title, the title is rendered again, the page is rendered again and
    then destroyed. *)
Lemma resize_handlers_witness :
  let others := [(0%nat, Resize.ThePage)] in
  let ops := [Resize.OpRendered true; Resize.OpTitleRendered;
              Resize.OpRendered false; Resize.OpExit] in
  let h := Resize.perform_all ops (Resize.fresh others 1) in
  Forall (fun r => (fst r < 1)%nat) others
  /\ Resize.below 1 (Resize.registered h) = others
  /\ Resize.registered (Resize.exit h) = others.
Proof.
  cbv zeta.
  assert (H : Forall (fun r : nat * Resize.Target => (fst r < 1)%nat)
                [(0%nat, Resize.ThePage)])
    by (repeat constructor).
  destruct (resize_handlers_do_not_leak [(0%nat, Resize.ThePage)] 1
              [Resize.OpRendered true; Resize.OpTitleRendered;
               Resize.OpRendered false; Resize.OpExit] H)
    as (H1 & _ & _ & H4).
  split; [exact H|]. split; [exact H1 | exact H4].
Defined.
